(** * n8n-nodes-attentive: the request pipeline, embedded and verified

    A shallow embedding of the reusable layer of the Attentive node:
    - [utils/index.ts]: phone canonicalisation and validation, object
      cleaning, product-item parsing, timestamps;
    - [transport]: the single authenticated request, the paginating
      wrapper, the status-code error normaliser;
    - [Attentive.node.ts]: the per-item dispatch loop.

    JavaScript strings are modelled by [string]; every character test of
    the source only distinguishes the ASCII digits, '+', and white space.
    JSON-like data ([IDataObject]) is the type [value]; an object is the
    list of its entries in [Object.entries] order.  A finite number is
    modelled by the exact rational it denotes (IEEE rounding is not
    modelled).  What the engine provides beyond that (printing a number,
    reading a whole string as a number, parsing a date outside the
    standard format) is taken as a parameter, the class [Runtime].
    Effects (the HTTP helper, the per-item handlers) are explicit state
    passing over a world type [W]. *)

From Stdlib Require Import Ascii String DecimalString ZArith QArith Lia.
From stdpp Require Import base option list strings gmap.

Local Open Scope string_scope.
Set Warnings "-register-all".

(** ** JavaScript data *)

Module JS.

(** A JavaScript number: [NaN], an infinity, or a finite value. *)
Inductive number : Type :=
  | NaN
  | Infinity (negative : bool)
  | Fin (q : Q).

(** [IDataObject] values.  [obj] is a property list in entry order. *)
Inductive value : Type :=
  | VUndefined
  | VNull
  | VBool (b : bool)
  | VNum (n : number)
  | VStr (s : string)
  | VArr (a : list value)
  | VObj (o : obj)
with obj : Type :=
  | ONil
  | OCons (k : string) (v : value) (rest : obj).

Scheme value_obj_ind := Induction for value Sort Prop
  with obj_value_ind := Induction for obj Sort Prop.

(** [Object.entries(o)] and its inverse. *)
Fixpoint entries (o : obj) : list (string * value) :=
  match o with
  | ONil => []
  | OCons k v rest => (k, v) :: entries rest
  end.

Fixpoint of_entries (l : list (string * value)) : obj :=
  match l with
  | [] => ONil
  | (k, v) :: rest => OCons k v (of_entries rest)
  end.

(** [Object.keys(o).length] *)
Definition keys_length (o : obj) : nat := length (entries o).

(** Property read [o.k] / [o[k]]: [undefined] when the key is absent. *)
Fixpoint get (k : string) (o : obj) : value :=
  match o with
  | ONil => VUndefined
  | OCons k' v rest => if String.eqb k k' then v else get k rest
  end.

(** Property write [o.k = v] on an own data property: overwrite in place
    when present, append otherwise. *)
Fixpoint set (k : string) (v : value) (o : obj) : obj :=
  match o with
  | ONil => OCons k v ONil
  | OCons k' v' rest =>
      if String.eqb k k' then OCons k' v rest else OCons k' v' (set k v rest)
  end.

Definition number_truthy (n : number) : bool :=
  match n with
  | NaN => false
  | Infinity _ => true
  | Fin q => negb (Qeq_bool q 0)
  end.

(** [ToBoolean] *)
Definition truthy (v : value) : bool :=
  match v with
  | VUndefined | VNull => false
  | VBool b => b
  | VNum n => number_truthy n
  | VStr s => negb (String.eqb s EmptyString)
  | VArr _ | VObj _ => true
  end.

(** [undefined] or [null]: reading a property of such a value throws. *)
Definition nullish (v : value) : bool :=
  match v with VUndefined | VNull => true | _ => false end.

(** The message of the [TypeError] that reading the property [k] of
    [v] throws when [v] is [undefined] or [null], in V8's wording. *)
Definition cannot_read (v : value) (k : string) : string :=
  "Cannot read properties of "
  +:+ match v with VNull => "null" | _ => "undefined" end
  +:+ " (reading '" +:+ k +:+ "')".

(** [Array.isArray] *)
Definition isArray (v : value) : bool :=
  match v with VArr _ => true | _ => false end.

(** Strict equality of a number with a numeric literal. *)
Definition number_is (n : number) (z : Z) : bool :=
  match n with
  | Fin q => Qeq_bool q (inject_Z z)
  | _ => false
  end.

Definition num (z : Z) : value := VNum (Fin (inject_Z z)).

(** The one-character string holding a double quote. *)
Definition dquote : string := String "034"%char EmptyString.

(** Character classes used by the regular expressions of the source. *)
Definition is_digit (c : ascii) : bool :=
  let n := nat_of_ascii c in (48 <=? n)%nat && (n <=? 57)%nat.

Definition is_plus (c : ascii) : bool := Ascii.eqb c "+"%char.

Definition is_nonzero_digit (c : ascii) : bool :=
  let n := nat_of_ascii c in (49 <=? n)%nat && (n <=? 57)%nat.

(** [s.replace(/[^...]/g, '')]: keep the characters satisfying [keep]. *)
Fixpoint keep_chars (keep : ascii -> bool) (s : string) : string :=
  match s with
  | EmptyString => EmptyString
  | String c rest =>
      if keep c then String c (keep_chars keep rest) else keep_chars keep rest
  end.

Fixpoint all_chars (p : ascii -> bool) (s : string) : bool :=
  match s with
  | EmptyString => true
  | String c rest => p c && all_chars p rest
  end.

(** [s.startsWith(c)] for a one-character needle. *)
Definition startsWith (c : ascii) (s : string) : bool :=
  match s with
  | String c' _ => Ascii.eqb c' c
  | EmptyString => false
  end.

(** *** Builtins of the runtime *)

(** What the embedding takes from the JavaScript engine as given:
    [Number::toString] (the shortest round-trip printer),
    [StringToNumber] (the numeric value of a whole string) and the
    implementation-defined fallback of [Date.parse] for strings that are
    not in the ECMAScript date-time format ([None] is an invalid date). *)
Class Runtime : Type := {
  Number_toString : number -> string;
  StringToNumber : string -> number;
  Date_parse_fallback : string -> option Z
}.

Section Builtins.
Context {R : Runtime}.

(** [ToString] on JSON-like values; arrays print through [join(",")]. *)
Fixpoint ToString (v : value) : string :=
  match v with
  | VUndefined => "undefined"
  | VNull => "null"
  | VBool true => "true"
  | VBool false => "false"
  | VNum n => Number_toString n
  | VStr s => s
  | VArr a =>
      (fix join (l : list value) : string :=
         match l with
         | [] => EmptyString
         | x :: r =>
             let e := match x with
                      | VUndefined | VNull => EmptyString
                      | _ => ToString x
                      end in
             match r with
             | [] => e
             | _ => e +:+ "," +:+ join r
             end
         end) a
  | VObj _ => "[object Object]"
  end.

(** [StrWhiteSpaceChar] among the code units below 256. *)
Definition is_space (c : ascii) : bool :=
  let n := nat_of_ascii c in
  ((9 <=? n)%nat && (n <=? 13)%nat) || (n =? 32)%nat || (n =? 160)%nat.

Fixpoint trim_start (s : string) : string :=
  match s with
  | String c rest => if is_space c then trim_start rest else s
  | EmptyString => EmptyString
  end.

Definition digit_val (c : ascii) : Z := Z.of_nat (nat_of_ascii c) - 48.

(** The longest prefix of decimal digits: its value read after the
    accumulator [acc], how many digits it has, and what follows it. *)
Fixpoint take_digits (s : string) (acc : Z) (count : nat) : Z * nat * string :=
  match s with
  | String c rest =>
      if is_digit c then take_digits rest (10 * acc + digit_val c) (S count)
      else (acc, count, s)
  | EmptyString => (acc, count, s)
  end.

(** An optional sign; [true] for '-'. *)
Definition take_sign (s : string) : bool * string :=
  match s with
  | String c rest =>
      if Ascii.eqb c "-"%char then (true, rest)
      else if Ascii.eqb c "+"%char then (false, rest)
      else (false, s)
  | EmptyString => (false, s)
  end.

Definition signed (negative : bool) (z : Z) : Z := if negative then - z else z.

(** [parseInt(string, 10)] on the string already obtained by [ToString]. *)
Definition parseInt10_string (s : string) : number :=
  let '(negative, s1) := take_sign (trim_start s) in
  let '(n, count, _) := take_digits s1 0 0 in
  match count with
  | O => NaN
  | S _ => Fin (inject_Z (signed negative n))
  end.

(** The exponent part [e[+-]digits]; it counts only when complete. *)
Definition take_exponent (s : string) : Z :=
  match s with
  | String c rest =>
      if Ascii.eqb c "e"%char || Ascii.eqb c "E"%char then
        let '(negative, s1) := take_sign rest in
        let '(e, count, _) := take_digits s1 0 0 in
        match count with
        | O => 0
        | S _ => signed negative e
        end
      else 0
  | EmptyString => 0
  end.

(** The mantissa [m] scaled by ten to the [e]. *)
Definition scale10 (m e : Z) : Q :=
  if (0 <=? e)%Z then inject_Z (m * 10 ^ e)
  else Qmake m (Z.to_pos (10 ^ (- e))).

Definition starts_with (p s : string) : bool :=
  String.eqb (String.substring 0 (String.length p) s) p.

(** What follows the exponent part, if there is a complete one. *)
Definition take_exponent_rest (s : string) : string :=
  match s with
  | String c rest =>
      if Ascii.eqb c "e"%char || Ascii.eqb c "E"%char then
        let '(_, s1) := take_sign rest in
        let '(_, count, s2) := take_digits s1 0 0 in
        match count with
        | O => s
        | S _ => s2
        end
      else s
  | EmptyString => s
  end.

(** The longest prefix that is a [StrDecimalLiteral], with its value
    and what follows it; [None] when there is no such prefix. *)
Definition decimal_literal (s : string) : option (number * string) :=
  let '(negative, s1) := take_sign s in
  if starts_with "Infinity" s1
  then Some (Infinity negative, String.substring 8 (String.length s1 - 8) s1)
  else
    let '(ip, icount, s2) := take_digits s1 0 0 in
    let '(m, fcount, s3) :=
      match s2 with
      | String c rest =>
          if Ascii.eqb c "."%char then
            let '(m, total, s3) := take_digits rest ip icount in
            (m, (total - icount)%nat, s3)
          else (ip, O, s2)
      | EmptyString => (ip, O, s2)
      end in
    match (icount + fcount)%nat with
    | O => None
    | S _ =>
        Some (Fin (scale10 (signed negative m)
                           (take_exponent s3 - Z.of_nat fcount)),
              take_exponent_rest s3)
    end.

(** [parseFloat] on the string already obtained by [ToString]. *)
Definition parseFloat_string (s : string) : number :=
  match decimal_literal (trim_start s) with
  | Some (n, _) => n
  | None => NaN
  end.

(** [ToNumber]; an array or object goes through its string form. *)
Definition ToNumber (v : value) : number :=
  match v with
  | VUndefined => NaN
  | VNull => Fin 0
  | VBool b => Fin (if b then 1 else 0)
  | VNum n => n
  | VStr s => StringToNumber s
  | VArr _ | VObj _ => StringToNumber (ToString v)
  end.

(** [len >= v] for an array length [len]: false when [v] is not a
    number after coercion. *)
Definition length_ge (len : nat) (v : value) : bool :=
  match ToNumber v with
  | NaN => false
  | Infinity negative => negative
  | Fin q => Qle_bool q (inject_Z (Z.of_nat len))
  end.

Definition parseFloat (v : value) : number := parseFloat_string (ToString v).
Definition parseInt10 (v : value) : number := parseInt10_string (ToString v).

End Builtins.

(** Property read [v.k] on an arbitrary value that is neither
    [undefined] nor [null]: primitives and arrays have none of the keys
    the source reads. *)
Definition prop (k : string) (v : value) : value :=
  match v with
  | VObj o => get k o
  | _ => VUndefined
  end.

(** [a || b] on values. *)
Definition or_else (a b : value) : value := if truthy a then a else b.

(** [n || d] on numbers. *)
Definition number_or (n : number) (d : Z) : number :=
  if number_truthy n then n else Fin (inject_Z d).

End JS.

Import JS.

(** ** Errors *)

(** The exceptions the modelled code throws or lets through. *)
Inductive Exn : Type :=
  | NodeOperationError (message : string)
  | NodeApiError (message : string) (cause : value)
  | Error (message : string)
  | TypeError (message : string)
  | RangeError (message : string).

(** [(error as Error).message] *)
Definition Exn_message (e : Exn) : string :=
  match e with
  | NodeOperationError m | NodeApiError m _ | Error m | TypeError m
  | RangeError m => m
  end.

(** A computation that returns [A] or throws. *)
Abbreviation result A := (sum Exn A).
Abbreviation ok := (@inr Exn _) (only parsing).
Abbreviation throw := (@inl Exn _) (only parsing).

(** ** The [Date] builtin *)

Module Date.

Local Open Scope Z_scope.

Definition msPerDay : Z := 86400000.

(** Days since the epoch of a proleptic Gregorian date. *)
Definition days_from_civil (y m d : Z) : Z :=
  let y := if m <=? 2 then y - 1 else y in
  let era := y / 400 in
  let yoe := y - era * 400 in
  let mp := if 2 <? m then m - 3 else m + 9 in
  let doy := (153 * mp + 2) / 5 + d - 1 in
  let doe := yoe * 365 + yoe / 4 - yoe / 100 + doy in
  era * 146097 + doe - 719468.

(** The inverse: year, month, day of a day number. *)
Definition civil_from_days (z : Z) : Z * Z * Z :=
  let z := z + 719468 in
  let era := z / 146097 in
  let doe := z - era * 146097 in
  let yoe := (doe - doe / 1460 + doe / 36524 - doe / 146096) / 365 in
  let doy := doe - (365 * yoe + yoe / 4 - yoe / 100) in
  let mp := (5 * doy + 2) / 153 in
  let d := doy - (153 * mp + 2) / 5 + 1 in
  let m := if mp <? 10 then mp + 3 else mp - 9 in
  let y := yoe + era * 400 in
  ((if m <=? 2 then y + 1 else y), m, d).

Definition is_leap (y : Z) : bool :=
  ((y mod 4 =? 0) && negb (y mod 100 =? 0)) || (y mod 400 =? 0).

Definition days_in_month (y m : Z) : Z :=
  if m =? 2 then (if is_leap y then 29 else 28)
  else if (m =? 4) || (m =? 6) || (m =? 9) || (m =? 11) then 30
  else 31.

(** [TimeClip]: a time value is at most 8.64e15 ms from the epoch. *)
Definition TimeClip (t : Z) : option Z :=
  if Z.abs t <=? 8640000000000000 then Some t else None.

(** The value of a string of exactly [n] decimal digits. *)
Fixpoint fixed_digits (n : nat) (s : string) (acc : Z) : option (Z * string) :=
  match n with
  | O => Some (acc, s)
  | S n' =>
      match s with
      | String c rest =>
          if is_digit c then fixed_digits n' rest (10 * acc + digit_val c)
          else None
      | EmptyString => None
      end
  end.

Definition expect (c : ascii) (s : string) : option string :=
  match s with
  | String c' rest => if Ascii.eqb c' c then Some rest else None
  | EmptyString => None
  end.

(** The complete UTC form of the ECMAScript date-time string format,
    [YYYY-MM-DDTHH:mm:ss[.sss]Z], with every field in range. *)
Definition parse_utc_format (s : string) : option Z :=
  '(y, s) ← fixed_digits 4 s 0;
  s ← expect "-" s;
  '(mo, s) ← fixed_digits 2 s 0;
  s ← expect "-" s;
  '(d, s) ← fixed_digits 2 s 0;
  s ← expect "T" s;
  '(h, s) ← fixed_digits 2 s 0;
  s ← expect ":" s;
  '(mi, s) ← fixed_digits 2 s 0;
  s ← expect ":" s;
  '(sec, s) ← fixed_digits 2 s 0;
  '(ms, s) ← match expect "." s with
             | Some s' => fixed_digits 3 s' 0
             | None => Some (0, s)
             end;
  s ← expect "Z" s;
  if String.eqb s EmptyString
     && (1 <=? mo) && (mo <=? 12) && (1 <=? d) && (d <=? days_in_month y mo)
     && (h <=? 23) && (mi <=? 59) && (sec <=? 59)
  then Some (days_from_civil y mo d * msPerDay
             + h * 3600000 + mi * 60000 + sec * 1000 + ms)
  else None.

(** [Date.parse]: the standard format first, then whatever the engine
    recognises; the result of [new Date(string)] is its [TimeClip]. *)
Definition parse {R : Runtime} (s : string) : option Z :=
  match parse_utc_format s with
  | Some t => Some t
  | None => t ← Date_parse_fallback s; TimeClip t
  end.

(** The last [n] decimal digits of [z], most significant first. *)
Fixpoint pad_digits (n : nat) (z : Z) : string :=
  match n with
  | O => EmptyString
  | S n' =>
      pad_digits n' (z / 10)
      +:+ String (ascii_of_nat (48 + Z.to_nat (z mod 10))) EmptyString
  end.

(** The year of [toISOString]: four digits, or a sign and six digits. *)
Definition year_string (y : Z) : string :=
  if (0 <=? y) && (y <=? 9999) then pad_digits 4 y
  else if y <? 0 then "-" +:+ pad_digits 6 (- y)
  else "+" +:+ pad_digits 6 y.

(** [Date.prototype.toISOString] on a valid time value. *)
Definition iso_string (t : Z) : string :=
  let day := t / msPerDay in
  let tod := t mod msPerDay in
  let '(y, m, d) := civil_from_days day in
  year_string y +:+ "-" +:+ pad_digits 2 m +:+ "-" +:+ pad_digits 2 d
  +:+ "T" +:+ pad_digits 2 (tod / 3600000)
  +:+ ":" +:+ pad_digits 2 (tod / 60000 mod 60)
  +:+ ":" +:+ pad_digits 2 (tod / 1000 mod 60)
  +:+ "." +:+ pad_digits 3 (tod mod 1000) +:+ "Z".

(** [toISOString] on a date object: an invalid date throws. *)
Definition toISOString (tv : option Z) : result string :=
  match tv with
  | Some t => ok (iso_string t)
  | None => throw (RangeError "Invalid time value")
  end.

End Date.

(** ** utils/index.ts *)

Module Utils.

(** [formatPhoneNumber] *)
Definition formatPhoneNumber (phone : string) : string :=
  if String.eqb phone EmptyString then phone
  else
    let digits := keep_chars (fun c => is_digit c || is_plus c) phone in
    if startsWith "+" digits then digits
    else "+" +:+ digits.

(** [isValidE164]: the regular expression [/^\+[1-9]\d{1,14}$/]. *)
Definition isValidE164 (phone : string) : bool :=
  match phone with
  | String p (String d rest) =>
      is_plus p && is_nonzero_digit d && all_chars is_digit rest
      && (1 <=? String.length rest)%nat && (String.length rest <=? 14)%nat
  | _ => false
  end.

Definition invalid_phone_message (phone : string) : string :=
  "Invalid phone number format: " +:+ dquote +:+ phone +:+ dquote
  +:+ ". Phone numbers must be in E.164 format (e.g., +19148440001).".

(** [validatePhoneNumber] *)
Definition validatePhoneNumber (phone : string) : result unit :=
  let formatted := formatPhoneNumber phone in
  if negb (isValidE164 formatted)
  then throw (NodeOperationError (invalid_phone_message phone))
  else ok tt.

(** The two statements that open every phone-bearing operation:
    [const phone = formatPhoneNumber(raw); validatePhoneNumber(phone, this);]
    The value is the [phone] the operation goes on with. *)
Definition requirePhone (raw : string) : result string :=
  let phone := formatPhoneNumber raw in
  match validatePhoneNumber phone with
  | inl e => throw e
  | inr _ => ok phone
  end.

(** [cleaned[key] = value] on the object [cleanObject] builds: a new own
    property, except under the key [__proto__], where the assignment
    goes to the inherited setter and creates no own property.  (The
    prototype that setter installs for an object value is not
    represented: a cleaned object is only read through its own keys, by
    [Object.keys], [Object.entries] and the serialisation of a request
    body.) *)
Definition own (key : string) (value : value) (cleaned : obj) : obj :=
  if String.eqb key "__proto__" then cleaned else OCons key value cleaned.

(** [cleanObject].  The loop visits the entries in order and adds each
    kept key once, so the cleaned object lists the kept entries in the
    order of the input. *)
Fixpoint cleanObject (o : obj) : obj :=
  match o with
  | ONil => ONil
  | OCons key value rest =>
      match value with
      | VUndefined | VNull => cleanObject rest
      | VStr s =>
          if String.eqb s EmptyString then cleanObject rest
          else own key value (cleanObject rest)
      | VObj nested =>
          let cleanedNested := cleanObject nested in
          if (0 <? keys_length cleanedNested)%nat
          then own key (VObj cleanedNested) (cleanObject rest)
          else cleanObject rest
      | VArr a =>
          if (0 <? length a)%nat then own key value (cleanObject rest)
          else cleanObject rest
      | VBool _ | VNum _ => own key value (cleanObject rest)
      end
  end.

Section WithRuntime.
Context {R : Runtime}.

(** [if (item.k) productItem.k = item.k;] *)
Definition copy_if_truthy (k : string) (item : value) (productItem : obj) : obj :=
  if truthy (prop k item) then set k (prop k item) productItem else productItem.

(** The body of the loop of [parseProductItems] for one raw item.
    Reading a property of [undefined] or [null] throws. *)
Definition parseProductItem (item : value) : result value :=
  match item with
  | VUndefined | VNull =>
      throw (TypeError (cannot_read item "productId"))
  | _ =>
      let productItem :=
        OCons "productId" (prop "productId" item)
        (OCons "name" (prop "name" item)
        (OCons "price"
           (VObj (OCons "value" (VNum (number_or (parseFloat (prop "price" item)) 0))
                 (OCons "currency" (or_else (prop "currency" item) (VStr "USD"))
                  ONil)))
        (OCons "quantity" (VNum (number_or (parseInt10 (prop "quantity" item)) 1))
         ONil))) in
      let productItem := copy_if_truthy "productVariantId" item productItem in
      let productItem := copy_if_truthy "productImage" item productItem in
      let productItem := copy_if_truthy "productUrl" item productItem in
      let productItem :=
        if truthy (prop "category" item) then
          set "category"
            (if isArray (prop "category" item) then prop "category" item
             else VArr [prop "category" item])
            productItem
        else productItem in
      ok (VObj productItem)
  end.

(** [for (const item of productItems) { ...; items.push(productItem); }] *)
Fixpoint parseProductItems_loop (productItems : list value) (items : list value)
  : result (list value) :=
  match productItems with
  | [] => ok items
  | item :: rest =>
      match parseProductItem item with
      | inl e => throw e
      | inr productItem => parseProductItems_loop rest (items ++ [productItem])
      end
  end.

(** [parseProductItems] *)
Definition parseProductItems (itemsInput : value) : result (list value) :=
  if negb (truthy itemsInput) then ok []
  else
    match prop "items" itemsInput with
    | VArr productItems => parseProductItems_loop productItems []
    | _ => ok []
    end.

(** [getTimestamp].  [now] is the instant [new Date()] reads from the
    clock, a valid time value; [None] is an argument left out. *)
Definition getTimestamp (now : Z) (timestamp : option string) : result string :=
  match timestamp with
  | Some s =>
      if negb (String.eqb s EmptyString)
      then Date.toISOString (Date.parse s)
      else Date.toISOString (Some now)
  | None => Date.toISOString (Some now)
  end.

End WithRuntime.

End Utils.

(** ** transport *)

Module Transport.

Definition BASE_URL : string := "https://api.attentivemobile.com/v1".

(** [IRequestOptions] as the transport fills it.  The query string
    object is used as a finite map from parameter names to values. *)
Record IRequestOptions : Type := {
  method : string;
  uri : string;
  headers : list (string * string);
  qs : gmap string value;
  json : bool;
  body : option obj
}.

(** What n8n's [NodeOperationError] takes as its message when it is
    constructed from a value that is not a string. *)
Class Library : Type := {
  NodeOperationError_message : value -> string
}.

(** The host the node runs in, over a world [W]: the API key of the
    stored credentials ([credentials?.apiKey]), the HTTP helper (which
    resolves with the parsed response, [inr], or rejects with an error
    object, [inl]), and the message [NodeApiError] derives from the
    error object it wraps. *)
Class Host (W : Type) : Type := {
  apiKey : W -> option string;
  helpers_request : IRequestOptions -> W -> (value + value) * W;
  NodeApiError_message : value -> string
}.

Section WithHost.
Context {R : Runtime} {W : Type} {Hst : Host W}.

(** The [options] object [attentiveApiRequest] hands to the helper. *)
Definition request_options (key method endpoint : string) (body : obj)
    (query : gmap string value) : IRequestOptions :=
  {| method := method;
     uri := BASE_URL +:+ endpoint;
     headers := [("Authorization", "Bearer " +:+ key);
                 ("Content-Type", "application/json");
                 ("Accept", "application/json")];
     qs := query;
     json := true;
     body := if (0 <? keys_length body)%nat
                && negb (String.eqb method "GET")
             then Some body else None |}.

(** [attentiveApiRequest] *)
Definition attentiveApiRequest (method endpoint : string) (body : obj)
    (query : gmap string value) (w : W) : result value * W :=
  match apiKey w with
  | None => (throw (NodeOperationError "No API key provided"), w)
  | Some key =>
      if String.eqb key EmptyString
      then (throw (NodeOperationError "No API key provided"), w)
      else
        match helpers_request
                (request_options key method endpoint body query) w with
        | (inr response, w') => (ok response, w')
        | (inl error, w') =>
            (throw (NodeApiError (NodeApiError_message error) error), w')
        end
  end.

(** [responseData.meta?.total] *)
Definition meta_total (responseData : value) : value :=
  match prop "meta" responseData with
  | VUndefined | VNull => VUndefined
  | meta => prop "total" meta
  end.

(** [!total || returnData.length >= total] *)
Definition should_stop (total : value) (len : nat) : bool :=
  negb (truthy total) || length_ge len total.

(** [if (items && Array.isArray(items)) returnData.push(...items)] *)
Definition push_items (dataKey : string) (responseData : value)
    (returnData : list value) : list value :=
  match prop dataKey responseData with
  | VArr items => (returnData ++ items)%list
  | _ => returnData
  end.

Definition limit : Z := 100.
Definition maxIterations : nat := 1000.

(** The loop of [attentiveApiRequestAllItems], with [remaining] the
    iterations left before [maxIterations]; [send] is the bound call
    [attentiveApiRequest.call(this, method, endpoint, body, _)].  The
    second component is the query object as the loop leaves it. *)
Fixpoint pages (send : gmap string value -> W -> result value * W)
    (dataKey : string) (remaining : nat) (offset : Z)
    (returnData : list value) (query : gmap string value) (w : W)
  : result (list value) * gmap string value * W :=
  match remaining with
  | O => (ok returnData, query, w)
  | S remaining' =>
      let query := <["offset" := num offset]> query in
      match send query w with
      | (inl e, w') => (throw e, query, w')
      | (inr responseData, w') =>
          if nullish responseData
          then (throw (TypeError (cannot_read responseData dataKey)),
                query, w')
          else
            let returnData := push_items dataKey responseData returnData in
            let total := meta_total responseData in
            if should_stop total (length returnData)
            then (ok returnData, query, w')
            else pages send dataKey remaining' (offset + limit)
                       returnData query w'
      end
  end.

Definition paginate (send : gmap string value -> W -> result value * W)
    (dataKey : string) (query : gmap string value) (w : W)
  : result (list value) * gmap string value * W :=
  pages send dataKey maxIterations 0 [] (<["limit" := num limit]> query) w.

(** [attentiveApiRequestAllItems]: the items or the exception, the
    caller's query object after the call, and the world. *)
Definition attentiveApiRequestAllItems (method endpoint : string) (body : obj)
    (query : gmap string value) (dataKey : string) (w : W)
  : result (list value) * gmap string value * W :=
  paginate (attentiveApiRequest method endpoint body) dataKey query w.

(** [statusCode === code] for the [statusCode] of an error object. *)
Definition status_is (error : value) (code : Z) : bool :=
  match prop "statusCode" error with
  | VNum n => number_is n code
  | _ => false
  end.

(** The message [handleApiError] starts from:
    [message || 'Unknown error occurred']. *)
Definition raw_message (error : value) : value :=
  or_else (prop "message" error) (VStr "Unknown error occurred").

(** [new NodeOperationError(node, errorMessage)]: a string is the
    message; what the class makes of another value is the library's. *)
Definition operation_error {L : Library} (errorMessage : value) : Exn :=
  match errorMessage with
  | VStr s => NodeOperationError s
  | v => NodeOperationError (NodeOperationError_message v)
  end.

(** [handleApiError]; its return type is [never].  Reading
    [errorData.statusCode] throws when the error is [undefined] or
    [null]. *)
Definition handleApiError {L : Library} (error : value) : result Empty_set :=
  if nullish error then throw (TypeError (cannot_read error "statusCode"))
  else
    let errorMessage := raw_message error in
    let errorMessage :=
      if status_is error 400%Z
      then VStr ("Bad Request: " +:+ ToString errorMessage)
      else if status_is error 401%Z then VStr "Unauthorized: Invalid API key"
      else if status_is error 403%Z
      then VStr "Forbidden: Insufficient permissions"
      else if status_is error 404%Z
      then VStr "Not Found: Resource does not exist"
      else if status_is error 429%Z
      then VStr "Rate Limited: Too many requests. Please try again later."
      else if status_is error 500%Z
      then VStr "Server Error: Attentive API is experiencing issues"
      else errorMessage in
    throw (operation_error errorMessage).

End WithHost.

(** A [send] that also records, in order, each query it is called with
    and what the call produced. *)
Definition recorded {W : Type}
    (send : gmap string value -> W -> result value * W)
    (query : gmap string value)
    (wl : W * list (gmap string value * result value))
  : result value * (W * list (gmap string value * result value)) :=
  let '(r, w') := send query wl.1 in (r, (w', (wl.2 ++ [(query, r)])%list)).

(** The query of round [k] of a fetch started with [query]. *)
Definition page_query (query : gmap string value) (k : nat) : gmap string value :=
  <["offset" := num (limit * Z.of_nat k)]> (<["limit" := num limit]> query).



(** The rounds of a fetch as the recorded [send] sees them, from round
    [k] with [rem] iterations left and [acc] accumulated: each round
    sends the query of its number; the fetch ends at the iteration cap,
    at a failed call, at a response that is [undefined] or [null], or at
    the first response after which [should_stop] holds. *)
Inductive Trace {R : Runtime} (dataKey : string) (query : gmap string value)
  : nat -> nat -> list value -> list (gmap string value * result value)
    -> result (list value) -> Prop :=
  | Trace_cap k acc :
      Trace dataKey query 0 k acc [] (ok acc)
  | Trace_throw rem k acc e :
      Trace dataKey query (S rem) k acc [(page_query query k, inl e)] (throw e)
  | Trace_nullish rem k acc responseData :
      nullish responseData = true ->
      Trace dataKey query (S rem) k acc
            [(page_query query k, inr responseData)]
            (throw (TypeError (cannot_read responseData dataKey)))
  | Trace_stop rem k acc responseData :
      nullish responseData = false ->
      should_stop (meta_total responseData)
                  (length (push_items dataKey responseData acc)) = true ->
      Trace dataKey query (S rem) k acc
            [(page_query query k, inr responseData)]
            (ok (push_items dataKey responseData acc))
  | Trace_more rem k acc responseData log res :
      nullish responseData = false ->
      should_stop (meta_total responseData)
                  (length (push_items dataKey responseData acc)) = false ->
      Trace dataKey query rem (S k) (push_items dataKey responseData acc) log res ->
      Trace dataKey query (S rem) k acc
            ((page_query query k, inr responseData) :: log) res.

End Transport.

(** ** Attentive.node.ts *)

Module Node.

(** [INodeExecutionData]: the payload and the item it is paired with. *)
Record INodeExecutionData : Type := {
  json : value;
  pairedItem : option nat
}.

(** The execute functions of the ten resource modules, each called with
    the operation name and the item index. *)
Class Actions (W : Type) : Type := {
  executeSubscriberOperation : string -> nat -> W -> result (list INodeExecutionData) * W;
  executeMessageOperation : string -> nat -> W -> result (list INodeExecutionData) * W;
  executeCustomEventOperation : string -> nat -> W -> result (list INodeExecutionData) * W;
  executeCustomAttributeOperation : string -> nat -> W -> result (list INodeExecutionData) * W;
  executeEcommerceOperation : string -> nat -> W -> result (list INodeExecutionData) * W;
  executeSegmentOperation : string -> nat -> W -> result (list INodeExecutionData) * W;
  executeJourneyOperation : string -> nat -> W -> result (list INodeExecutionData) * W;
  executeSignUpUnitOperation : string -> nat -> W -> result (list INodeExecutionData) * W;
  executeKeywordOperation : string -> nat -> W -> result (list INodeExecutionData) * W;
  executeWebhookOperation : string -> nat -> W -> result (list INodeExecutionData) * W
}.

Section WithActions.
Context {W : Type} {Act : Actions W}.

(** The [switch (resource)] inside the [try] block. *)
Definition dispatch (resource operation : string) (i : nat) (w : W)
  : result (list INodeExecutionData) * W :=
  if String.eqb resource "subscriber" then executeSubscriberOperation operation i w
  else if String.eqb resource "message" then executeMessageOperation operation i w
  else if String.eqb resource "customEvent" then executeCustomEventOperation operation i w
  else if String.eqb resource "customAttribute" then executeCustomAttributeOperation operation i w
  else if String.eqb resource "ecommerce" then executeEcommerceOperation operation i w
  else if String.eqb resource "segment" then executeSegmentOperation operation i w
  else if String.eqb resource "journey" then executeJourneyOperation operation i w
  else if String.eqb resource "signUpUnit" then executeSignUpUnitOperation operation i w
  else if String.eqb resource "keyword" then executeKeywordOperation operation i w
  else if String.eqb resource "webhook" then executeWebhookOperation operation i w
  else (throw (Error ("Unknown resource: " +:+ resource)), w).

End WithActions.

(** The record pushed for a failure tolerated at item [i]. *)
Definition error_item (error : Exn) (i : nat) : INodeExecutionData :=
  {| json := VObj (OCons "error" (VStr (Exn_message error)) ONil);
     pairedItem := Some i |}.

(** The [for] loop of [execute] from index [i] with [remaining] items to
    go; [run] is the body of the [try] block for one item. *)
Fixpoint execute_loop {W : Type}
    (run : nat -> W -> result (list INodeExecutionData) * W)
    (continueOnFail : bool) (remaining i : nat)
    (returnData : list INodeExecutionData) (w : W)
  : result (list INodeExecutionData) * W :=
  match remaining with
  | O => (ok returnData, w)
  | S remaining' =>
      match run i w with
      | (inr result, w') =>
          execute_loop run continueOnFail remaining' (S i)
                       (returnData ++ result) w'
      | (inl error, w') =>
          if continueOnFail
          then execute_loop run continueOnFail remaining' (S i)
                            (returnData ++ [error_item error i]) w'
          else (throw error, w')
      end
  end.

(** [Attentive.execute] on [items], with the resource and operation read
    from item 0 and the node's continue-on-fail setting.  The licensing
    notice and the two parameter reads, which come before the loop, are
    not part of the model. *)
Definition execute {W : Type} {Act : Actions W} (continueOnFail : bool)
    (resource operation : string) (items : list value) (w : W)
  : result (list (list INodeExecutionData)) * W :=
  match execute_loop (dispatch resource operation) continueOnFail
                     (length items) 0 [] w with
  | (inr returnData, w') => (ok [returnData], w')
  | (inl error, w') => (throw error, w')
  end.

(** A [run] that also records, in order, each item index it is called
    for and what the call produced. *)
Definition recorded {W : Type}
    (run : nat -> W -> result (list INodeExecutionData) * W) (i : nat)
    (wl : W * list (nat * result (list INodeExecutionData)))
  : result (list INodeExecutionData)
    * (W * list (nat * result (list INodeExecutionData))) :=
  let '(r, w') := run i wl.1 in (r, (w', (wl.2 ++ [(i, r)])%list)).

(** What one recorded item contributes to the output. *)
Definition contribution (entry : nat * result (list INodeExecutionData))
  : list INodeExecutionData :=
  match entry.2 with
  | inr result => result
  | inl error => [error_item error entry.1]
  end.

Definition succeeded (entry : nat * result (list INodeExecutionData)) : bool :=
  match entry.2 with inr _ => true | inl _ => false end.

End Node.

(** The characters [formatPhoneNumber] keeps. *)
Definition phone_char (c : ascii) : bool := is_digit c || is_plus c.

(** ** The specification's reading of phone normalisation *)

Module Spec.

(** "Strips every character except digits and a leading [+]": a [+] is
    exempt only as the first character. *)
Definition strip_keep_leading_plus (s : string) : string :=
  match s with
  | String c rest =>
      if is_plus c then String c (keep_chars is_digit rest)
      else keep_chars is_digit s
  | EmptyString => EmptyString
  end.

Fixpoint has_plus (s : string) : bool :=
  match s with
  | String c rest => is_plus c || has_plus rest
  | EmptyString => false
  end.

(** "If no [+] is present after stripping, prefixes one.  Empty input
    returns empty output." *)
Definition normalizePhone (input : string) : string :=
  if String.eqb input EmptyString then EmptyString
  else
    let stripped := strip_keep_leading_plus input in
    if has_plus stripped then stripped else "+" +:+ stripped.

(** "Default on parse failure": the default replaces [NaN] only. *)
Definition default_on_failure (n : number) (d : Z) : number :=
  match n with
  | NaN => Fin (inject_Z d)
  | _ => n
  end.

End Spec.

(** ** Predicates on cleaned objects *)

(** How [cleanObject] treats the value of one entry: [kept v w] when an
    entry holding [v] survives, holding [w]. *)
Inductive kept : value -> value -> Prop :=
  | kept_bool b : kept (VBool b) (VBool b)
  | kept_num n : kept (VNum n) (VNum n)
  | kept_str s : s <> EmptyString -> kept (VStr s) (VStr s)
  | kept_arr a : a <> [] -> kept (VArr a) (VArr a)
  | kept_obj o :
      Utils.cleanObject o <> ONil -> kept (VObj o) (VObj (Utils.cleanObject o)).

(** An object with nothing left to prune: no entry is [undefined],
    [null], the empty string, an empty array or an empty object, none
    has the key [__proto__], and every nested object is again such an
    object. *)
Fixpoint pruned (o : obj) : bool :=
  match o with
  | ONil => true
  | OCons k v rest =>
      negb (String.eqb k "__proto__")
      && match v with
         | VUndefined | VNull => false
         | VStr s => negb (String.eqb s EmptyString)
         | VArr a => negb (Nat.eqb (length a) 0)
         | VObj nested =>
             match nested with ONil => false | _ => pruned nested end
         | VBool _ | VNum _ => true
         end
      && pruned rest
  end.

(** ** A runtime to evaluate examples in *)

Module Example.

Definition Z_to_string (z : Z) : string := NilZero.string_of_int (Z.to_int z).

(** The digits of [r / d] after the decimal point, for [0 <= r < d]. *)
Fixpoint fraction_digits (fuel : nat) (r d : Z) : string :=
  match fuel with
  | O => EmptyString
  | S fuel' =>
      if (r =? 0)%Z then EmptyString
      else String (ascii_of_nat (48 + Z.to_nat (10 * r / d)))
                  (fraction_digits fuel' (10 * r mod d) d)
  end.

(** Positional decimal notation, as the engine prints a number with few
    digits and a magnitude from 1e-6 up to 1e21. *)
Definition print_number (n : number) : string :=
  match n with
  | NaN => "NaN"
  | Infinity negative => if negative then "-Infinity" else "Infinity"
  | Fin q =>
      let d := Z.pos (Qden q) in
      let a := Z.abs (Qnum q) in
      (if (Qnum q <? 0)%Z then "-" else EmptyString)
      +:+ Z_to_string (a / d)
      +:+ (if (a mod d =? 0)%Z then EmptyString
           else "." +:+ fraction_digits 20 (a mod d) d)
  end.

(** The numeric value of a whole string that is a decimal literal
    between white space; the empty string reads as zero. *)
Definition read_number (s : string) : number :=
  let t := trim_start s in
  if String.eqb t EmptyString then Fin 0
  else match decimal_literal t with
       | Some (n, rest) => if all_chars is_space rest then n else NaN
       | None => NaN
       end.

(** Numbers print and read in decimal; no date outside the standard
    format is recognised. *)
Definition runtime : Runtime :=
  {| Number_toString := print_number;
     StringToNumber := read_number;
     Date_parse_fallback := fun _ => None |}.

(** The raw product item of the unit test. *)
Definition raw_item : value :=
  VObj (OCons "productId" (VStr "SKU123")
       (OCons "name" (VStr "Test Product")
       (OCons "price" (VStr "29.99")
       (OCons "currency" (VStr "USD")
       (OCons "quantity" (VStr "2") ONil))))).

(** The same item ordered zero times. *)
Definition raw_item_zero : value :=
  VObj (OCons "productId" (VStr "SKU123")
       (OCons "name" (VStr "Test Product")
       (OCons "price" (VStr "29.99")
       (OCons "currency" (VStr "USD")
       (OCons "quantity" (VStr "0") ONil))))).

Definition items_input (l : list value) : value :=
  VObj (OCons "items" (VArr l) ONil).

(** The error object of an upstream "401 Unauthorized". *)
Definition error401 : value :=
  VObj (OCons "statusCode" (num 401) (OCons "message" (VStr "Unauthorized") ONil)).

(** A host whose HTTP helper rejects every request with [error] and
    whose [NodeApiError] derives [message] from an error object. *)
Definition rejecting (error : value) (message : string) : Transport.Host unit :=
  {| Transport.apiKey := fun _ => Some "key";
     Transport.helpers_request := fun _ w => (inl error, w);
     Transport.NodeApiError_message := fun _ => message |}.

(** A stored record. *)
Definition record (i : nat) : value := VObj (OCons "id" (num (Z.of_nat i)) ONil).

(** A query parameter read as a natural number. *)
Definition query_nat (k : string) (query : gmap string value) : nat :=
  match query !! k with
  | Some (VNum (Fin x)) => Z.to_nat (Qnum x / Z.pos (Qden x))
  | _ => O
  end.

(** The page of a collection of [total] records that [query] asks for,
    with the declared total. *)
Definition page (total : nat) (query : gmap string value) : value :=
  let offset := query_nat "offset" query in
  let limit := query_nat "limit" query in
  VObj (OCons "data"
          (VArr (record <$> seq offset (Nat.min limit (total - offset))))
       (OCons "meta" (VObj (OCons "total" (num (Z.of_nat total)) ONil))
        ONil)).

(** A backend holding [total] records; its world is the list of the
    requests it has received. *)
Definition paged (total : nat) : Transport.Host (list Transport.IRequestOptions) :=
  {| Transport.apiKey := fun _ => Some "key";
     Transport.helpers_request :=
       fun options received =>
         (inr (page total (Transport.qs options)), (received ++ [options])%list);
     Transport.NodeApiError_message := fun _ => "UNKNOWN ERROR" |}.

(** A query a caller might pass: a filter, and a limit and an offset of
    its own. *)
Definition caller_query : gmap string value :=
  <["status" := VStr "active"]> (<["limit" := num 5]> (<["offset" := num 7]> ∅)).

End Example.

(** ** The shape of an ISO-8601 timestamp *)

(** Skip the year of a timestamp: four digits, or a sign and six. *)
Definition skip_year (s : string) : option string :=
  match s with
  | String c rest =>
      if Ascii.eqb c "+"%char || Ascii.eqb c "-"%char
      then snd <$> Date.fixed_digits 6 rest 0
      else snd <$> Date.fixed_digits 4 s 0
  | EmptyString => None
  end.

Definition skip_digits (n : nat) (s : string) : option string :=
  snd <$> Date.fixed_digits n s 0.

(** [YYYY-MM-DDTHH:mm:ss.sssZ], the year being four digits or a sign and
    six digits: millisecond precision and the [Z] offset. *)
Definition is_iso_utc (s : string) : bool :=
  let tail :=
    s ← skip_year s;
    s ← Date.expect "-" s;
    s ← skip_digits 2 s;
    s ← Date.expect "-" s;
    s ← skip_digits 2 s;
    s ← Date.expect "T" s;
    s ← skip_digits 2 s;
    s ← Date.expect ":" s;
    s ← skip_digits 2 s;
    s ← Date.expect ":" s;
    s ← skip_digits 2 s;
    s ← Date.expect "." s;
    s ← skip_digits 3 s;
    Date.expect "Z" s in
  match tail with
  | Some EmptyString => true
  | _ => false
  end.

(** ** utils/index.ts, continued *)

Module Shaping.

(** Assignment [o[k] = v] on a plain object.  The key [__proto__] goes
    to the inherited accessor and creates no own property.  The result
    is read through [get]; where [Object.entries] would list an
    integer-like key is not modelled. *)
Definition assign (k : string) (v : value) (o : obj) : obj :=
  if String.eqb k "__proto__" then o else set k v o.

(** [v !== undefined] *)
Definition defined (v : value) : bool :=
  match v with VUndefined => false | _ => true end.

Section WithRuntime.
Context {R : Runtime}.

(** [if (item.key && item.value !== undefined)
       attributes[item.key as string] = item.value;] *)
Definition add_attribute (item : value) (attributes : obj) : obj :=
  if truthy (prop "key" item) && defined (prop "value" item)
  then assign (ToString (prop "key" item)) (prop "value" item) attributes
  else attributes.

(** The loop of [parseCustomAttributes]; reading [item.key] of an item
    that is [undefined] or [null] throws. *)
Fixpoint parseCustomAttributes_loop (items : list value) (attributes : obj)
  : result obj :=
  match items with
  | [] => ok attributes
  | item :: rest =>
      if nullish item
      then throw (TypeError (cannot_read item "key"))
      else parseCustomAttributes_loop rest (add_attribute item attributes)
  end.

(** [parseCustomAttributes] *)
Definition parseCustomAttributes (attributesInput : value) : result obj :=
  if negb (truthy attributesInput) then ok ONil
  else
    match prop "attributes" attributesInput with
    | VArr items => parseCustomAttributes_loop items ONil
    | _ => ok ONil
    end.

(** The value the last qualifying item gives to the key [k]. *)
Definition last_binding (k : string) (items : list value) : value :=
  foldl (fun found item =>
           if truthy (prop "key" item) && defined (prop "value" item)
              && String.eqb (ToString (prop "key" item)) k
           then prop "value" item else found)
        VUndefined items.

End WithRuntime.

(** [buildReturnData] *)
Definition buildReturnData (data : value) : list Node.INodeExecutionData :=
  match data with
  | VArr items =>
      (fun item => {| Node.json := item; Node.pairedItem := None |}) <$> items
  | _ => [ {| Node.json := data; Node.pairedItem := None |} ]
  end.

(** The text of the licensing notice. *)
Definition licensing_notice : string :=
  "
[Velocity BPA Licensing Notice]

This n8n node is licensed under the Business Source License 1.1 (BSL 1.1).

Use of this node by for-profit organizations in production environments requires a commercial license from Velocity BPA.

For licensing information, visit https://velobpa.com/licensing or contact licensing@velobpa.com.
".

(** The module-level flag [licensingNoticeLogged] and what has been
    written with [console.warn]. *)
Record Session : Type := {
  licensingNoticeLogged : bool;
  warnings : list string
}.

Definition new_session : Session :=
  {| licensingNoticeLogged := false; warnings := [] |}.

(** [logLicensingNotice] *)
Definition logLicensingNotice (s : Session) : Session :=
  if negb (licensingNoticeLogged s)
  then {| licensingNoticeLogged := true;
          warnings := (warnings s ++ [licensing_notice])%list |}
  else s.

End Shaping.

(** ** A host that keeps the requests it is asked to send *)

Module Wire.

Import Transport.

(** The host [Hst] with every request handed to the HTTP helper
    appended to a list kept beside the world. *)
Definition logging {W : Type} (Hst : Host W) : Host (W * list IRequestOptions) :=
  {| apiKey := fun wl => apiKey wl.1;
     helpers_request :=
       fun options wl =>
         let '(r, w') := helpers_request options wl.1 in
         (r, (w', (wl.2 ++ [options])%list));
     NodeApiError_message := NodeApiError_message |}.

(** The header named [name] of a request. *)
Fixpoint header (name : string) (hs : list (string * string)) : option string :=
  match hs with
  | [] => None
  | (n, v) :: rest => if String.eqb n name then Some v else header name rest
  end.

End Wire.

(** ** Further hosts to evaluate examples against *)

Module Cases.

Import Transport.

(** A host with no stored API key; its helper would answer anything. *)
Definition keyless : Host unit :=
  {| apiKey := fun _ => None;
     helpers_request := fun _ w => (inr (VObj ONil), w);
     NodeApiError_message := fun _ => "UNKNOWN ERROR" |}.

(** A host whose helper answers every request with [response]. *)
Definition answering (response : value) : Host unit :=
  {| apiKey := fun _ => Some "key";
     helpers_request := fun _ w => (inr response, w);
     NodeApiError_message := fun _ => "UNKNOWN ERROR" |}.

(** How many requests a collection of [total] records takes: one per
    started hundred, at least one, at most 1000. *)
Definition rounds_for (total n : nat) : Prop :=
  (1 <= n <= 1000)%nat
  /\ (total <= 100 * n \/ n = 1000)%nat
  /\ (n = 1 \/ 100 * (n - 1) < total)%nat.

End Cases.

(** ** The resource modules *)

Module Resources.

Import Transport Shaping.

(** What the host provides to an execute function besides the
    transport: the value of a node parameter for an item (with the
    fallback the call passes, if any), and the clock that [new Date()]
    reads. *)
Class NodeContext (W : Type) : Type := {
  getNodeParameter : string -> nat -> option value -> value;
  Date_now : W -> Z * W
}.

(** A computation in the world [W] that returns or throws. *)
Definition M (W A : Type) : Type := W -> result A * W.

Definition ret {W A} (a : A) : M W A := fun w => (ok a, w).
Definition raise {W A} (e : Exn) : M W A := fun w => (throw e, w).
Definition lift {W A} (r : result A) : M W A := fun w => (r, w).
Definition bind {W A B} (c : M W A) (k : A -> M W B) : M W B :=
  fun w => match c w with
           | (inr a, w') => k a w'
           | (inl e, w') => (throw e, w')
           end.

Notation "'let*' x ':=' c 'in' k" := (bind c (fun x => k))
  (at level 10, x name, c at level 100, k at level 200,
   only parsing) : stdpp_scope.

(** Property read [v.k] where [v] may be [undefined] or [null]. *)
Definition read (k : string) (v : value) : result value :=
  if nullish v
  then throw (TypeError (cannot_read v k))
  else ok (prop k v).

(** [if (source.k) target.k = source.k;] for an already read [v]. *)
Definition set_if_truthy (k : string) (v : value) (target : obj) : obj :=
  if truthy v then set k v target else target.

Section WithContext.
Context {R : Runtime} {W : Type} {Hst : Host W} {Ctx : NodeContext W}.

(** [attentiveApiRequestAllItems] as its callers use it: the query
    object is a fresh literal that the caller does not read again. *)
Definition allItems (method endpoint : string) (body : obj)
    (query : gmap string value) (dataKey : string) : M W (list value) :=
  fun w =>
    let '(r, _, w') :=
      attentiveApiRequestAllItems method endpoint body query dataKey w in
    (r, w').

(** [formatPhoneNumber(p as string); validatePhoneNumber(phone, this)]
    for a parameter value [p]: a falsy value that is not a string comes
    back from [formatPhoneNumber] as it is and fails the pattern; a
    truthy one has no [replace] method. *)
Definition requirePhone_value (p : value) : result string :=
  match p with
  | VStr s => Utils.requirePhone s
  | _ =>
      if truthy p then throw (TypeError "phone.replace is not a function")
      else throw (NodeOperationError (Utils.invalid_phone_message (ToString p)))
  end.

(** [new Date(v)]: the time value of the date object. *)
Definition Date_of (v : value) : option Z :=
  match v with
  | VStr s => Date.parse s
  | VArr _ | VObj _ => Date.parse (ToString v)
  | _ =>
      match ToNumber v with
      | Fin q => Date.TimeClip (Z.quot (Qnum q) (Z.pos (Qden q)))
      | _ => None
      end
  end.

(** [getTimestamp(v as string | undefined)] for a value [v]. *)
Definition getTimestamp_value (v : value) : M W string :=
  if truthy v then lift (Date.toISOString (Date_of v))
  else fun w => let '(now, w') := Date_now w in
                (Date.toISOString (Some now), w').

(** The two branches every list operation shares: [returnAll] fetches
    every page of [dataKey]; otherwise one request carries the [limit]
    parameter and [response[dataKey] || []] is returned. *)
Definition list_operation (i : nat) (endpoint : string)
    (query : gmap string value) (dataKey : string)
  : M W (list Node.INodeExecutionData) :=
  if truthy (getNodeParameter "returnAll" i None) then
    let* items := allItems "GET" endpoint ONil query dataKey in
    ret (buildReturnData (VArr items))
  else
    let limit := getNodeParameter "limit" i None in
    let* response :=
      attentiveApiRequest "GET" endpoint ONil (<["limit" := limit]> query) in
    let* listed := lift (read dataKey response) in
    ret (buildReturnData (or_else listed (VArr []))).

Definition unknown_operation {A} (operation : string) : M W A :=
  raise (Error ("Unknown operation: " +:+ operation)).

(** [executeKeywordOperation] *)
Definition executeKeywordOperation (operation : string) (i : nat)
  : M W (list Node.INodeExecutionData) :=
  if String.eqb operation "get" then
    let keywordId := getNodeParameter "keywordId" i None in
    let* responseData :=
      attentiveApiRequest "GET" ("/keywords/" +:+ ToString keywordId) ONil ∅ in
    ret (buildReturnData responseData)
  else if String.eqb operation "getAll" then
    list_operation i "/keywords" ∅ "keywords"
  else unknown_operation operation.

(** [executeWebhookOperation] *)
Definition executeWebhookOperation (operation : string) (i : nat)
  : M W (list Node.INodeExecutionData) :=
  if String.eqb operation "create" then
    let url := getNodeParameter "webhookUrl" i None in
    let events := getNodeParameter "events" i None in
    let options := getNodeParameter "webhookOptions" i None in
    let body := OCons "url" url (OCons "events" events ONil) in
    let* secret := lift (read "secret" options) in
    let body := set_if_truthy "secret" secret body in
    let* responseData := attentiveApiRequest "POST" "/webhooks" body ∅ in
    ret (buildReturnData responseData)
  else if String.eqb operation "getAll" then
    list_operation i "/webhooks" ∅ "webhooks"
  else if String.eqb operation "delete" then
    let webhookId := getNodeParameter "webhookId" i None in
    let* _ :=
      attentiveApiRequest "DELETE" ("/webhooks/" +:+ ToString webhookId) ONil ∅ in
    ret (buildReturnData
           (VObj (OCons "success" (VBool true) (OCons "webhookId" webhookId ONil))))
  else unknown_operation operation.

(** [executeSegmentOperation] *)
Definition executeSegmentOperation (operation : string) (i : nat)
  : M W (list Node.INodeExecutionData) :=
  if String.eqb operation "create" then
    let name := getNodeParameter "segmentName" i None in
    let description := getNodeParameter "description" i (Some (VStr EmptyString)) in
    let body := OCons "name" name ONil in
    let body := set_if_truthy "description" description body in
    let* responseData :=
      attentiveApiRequest "POST" "/segments" (Utils.cleanObject body) ∅ in
    ret (buildReturnData responseData)
  else if String.eqb operation "get" then
    let segmentId := getNodeParameter "segmentId" i None in
    let* responseData :=
      attentiveApiRequest "GET" ("/segments/" +:+ ToString segmentId) ONil ∅ in
    ret (buildReturnData responseData)
  else if String.eqb operation "getAll" then
    list_operation i "/segments" ∅ "segments"
  else if String.eqb operation "update" then
    let segmentId := getNodeParameter "segmentId" i None in
    let updateFields := getNodeParameter "updateFields" i None in
    let* name := lift (read "name" updateFields) in
    let body := set_if_truthy "name" name ONil in
    let* description := lift (read "description" updateFields) in
    let body := set_if_truthy "description" description body in
    let* responseData :=
      attentiveApiRequest "PATCH" ("/segments/" +:+ ToString segmentId)
                          (Utils.cleanObject body) ∅ in
    ret (buildReturnData responseData)
  else if String.eqb operation "delete" then
    let segmentId := getNodeParameter "segmentId" i None in
    let* _ :=
      attentiveApiRequest "DELETE" ("/segments/" +:+ ToString segmentId) ONil ∅ in
    ret (buildReturnData
           (VObj (OCons "success" (VBool true) (OCons "segmentId" segmentId ONil))))
  else if String.eqb operation "getMembers" then
    let segmentId := getNodeParameter "segmentId" i None in
    list_operation i ("/segments/" +:+ ToString segmentId +:+ "/members") ∅ "members"
  else unknown_operation operation.

(** [if (filters.k) query.k = filters.k;] *)
Definition filter_query (k : string) (filters : value) : result (gmap string value) :=
  match read k filters with
  | inl e => throw e
  | inr v => ok (if truthy v then <[k := v]> ∅ else ∅)
  end.

(** The query of a [getStats] operation:
    [if (dateRange.startDate) query.startDate = new Date(...).toISOString();]
    and the same for [endDate]. *)
Definition stats_query (dateRange : value) : result (gmap string value) :=
  match read "startDate" dateRange with
  | inl e => throw e
  | inr startDate =>
      match (if truthy startDate
             then match Date.toISOString (Date_of startDate) with
                  | inl e => throw e
                  | inr iso => ok (<["startDate" := VStr iso]> ∅)
                  end
             else ok ∅) with
      | inl e => throw e
      | inr query =>
          match read "endDate" dateRange with
          | inl e => throw e
          | inr endDate =>
              if truthy endDate
              then match Date.toISOString (Date_of endDate) with
                   | inl e => throw e
                   | inr iso => ok (<["endDate" := VStr iso]> query)
                   end
              else ok query
          end
      end
  end.

(** [executeJourneyOperation] *)
Definition executeJourneyOperation (operation : string) (i : nat)
  : M W (list Node.INodeExecutionData) :=
  if String.eqb operation "get" then
    let journeyId := getNodeParameter "journeyId" i None in
    let* responseData :=
      attentiveApiRequest "GET" ("/journeys/" +:+ ToString journeyId) ONil ∅ in
    ret (buildReturnData responseData)
  else if String.eqb operation "getAll" then
    let filters := getNodeParameter "filters" i None in
    let* query := lift (filter_query "status" filters) in
    list_operation i "/journeys" query "journeys"
  else if String.eqb operation "getStats" then
    let journeyId := getNodeParameter "journeyId" i None in
    let dateRange := getNodeParameter "dateRange" i None in
    let* query := lift (stats_query dateRange) in
    let* responseData :=
      attentiveApiRequest "GET" ("/journeys/" +:+ ToString journeyId +:+ "/stats")
                          ONil query in
    ret (buildReturnData responseData)
  else unknown_operation operation.

(** [executeSignUpUnitOperation] *)
Definition executeSignUpUnitOperation (operation : string) (i : nat)
  : M W (list Node.INodeExecutionData) :=
  if String.eqb operation "get" then
    let signUpUnitId := getNodeParameter "signUpUnitId" i None in
    let* responseData :=
      attentiveApiRequest "GET" ("/sign-up-units/" +:+ ToString signUpUnitId)
                          ONil ∅ in
    ret (buildReturnData responseData)
  else if String.eqb operation "getAll" then
    let filters := getNodeParameter "filters" i None in
    let* query := lift (filter_query "type" filters) in
    list_operation i "/sign-up-units" query "signUpUnits"
  else if String.eqb operation "getStats" then
    let signUpUnitId := getNodeParameter "signUpUnitId" i None in
    let dateRange := getNodeParameter "dateRange" i None in
    let* query := lift (stats_query dateRange) in
    let* responseData :=
      attentiveApiRequest "GET"
        ("/sign-up-units/" +:+ ToString signUpUnitId +:+ "/stats") ONil query in
    ret (buildReturnData responseData)
  else unknown_operation operation.

(** [v === s] for a string literal [s]. *)
Definition is_string (v : value) (s : string) : bool :=
  match v with VStr s' => String.eqb s' s | _ => false end.

(** The [user] of a request addressed by the [identifierType]
    parameter: the validated phone, or the [email] parameter as it is. *)
Definition identified_user (i : nat) : result value :=
  if is_string (getNodeParameter "identifierType" i None) "phone" then
    match requirePhone_value (getNodeParameter "phone" i None) with
    | inl e => throw e
    | inr phone => ok (VObj (OCons "phone" (VStr phone) ONil))
    end
  else ok (VObj (OCons "email" (getNodeParameter "email" i None) ONil)).

(** [if (input) { const parsed = parseCustomAttributes(input);
       if (Object.keys(parsed).length > 0) target.k = parsed; }] *)
Definition set_attributes (k : string) (input : value) (target : obj)
  : result obj :=
  if truthy input then
    match parseCustomAttributes input with
    | inl e => throw e
    | inr parsed =>
        ok (if (0 <? keys_length parsed)%nat then set k (VObj parsed) target
            else target)
    end
  else ok target.

(** [if (source.k !== undefined) target.k = source.k;] *)
Definition set_if_defined (k : string) (v : value) (target : obj) : obj :=
  if defined v then set k v target else target.

(** [executeSubscriberOperation].  Once a first property of a parameter
    object has been read, the object is neither [undefined] nor [null]
    and its other properties are read with [prop]. *)
Definition executeSubscriberOperation (operation : string) (i : nat)
  : M W (list Node.INodeExecutionData) :=
  let* phone := lift (requirePhone_value (getNodeParameter "phone" i None)) in
  if String.eqb operation "subscribe" then
    let signUpSourceId := getNodeParameter "signUpSourceId" i None in
    let additionalFields := getNodeParameter "additionalFields" i None in
    let* email := lift (read "email" additionalFields) in
    let user := set_if_truthy "email" email (OCons "phone" (VStr phone) ONil) in
    let body :=
      OCons "user" (VObj user) (OCons "signUpSourceId" signUpSourceId ONil) in
    let body :=
      set_if_truthy "subscriptionType" (prop "subscriptionType" additionalFields)
                    body in
    let body := set_if_truthy "locale" (prop "locale" additionalFields) body in
    let body :=
      set_if_defined "notifications" (prop "notifications" additionalFields) body in
    let* body :=
      lift (set_attributes "customAttributes"
              (prop "customAttributes" additionalFields) body) in
    let body :=
      if truthy (prop "externalIdKey" additionalFields)
         && truthy (prop "externalIdValue" additionalFields)
      then set "externalIdentifiers"
             (VObj (OCons (ToString (prop "externalIdKey" additionalFields))
                          (prop "externalIdValue" additionalFields) ONil))
             body
      else body in
    let* responseData :=
      attentiveApiRequest "POST" "/subscriptions" (Utils.cleanObject body) ∅ in
    ret (buildReturnData responseData)
  else if String.eqb operation "unsubscribe" then
    let notification := getNodeParameter "notification" i (Some (VBool false)) in
    let body :=
      OCons "user" (VObj (OCons "phone" (VStr phone) ONil))
            (OCons "notification" notification ONil) in
    let* responseData :=
      attentiveApiRequest "POST" "/subscriptions/unsubscribe" body ∅ in
    ret (buildReturnData responseData)
  else if String.eqb operation "get" then
    let* responseData :=
      attentiveApiRequest "GET" "/subscriptions" ONil
                          (<["phone" := VStr phone]> ∅) in
    ret (buildReturnData responseData)
  else if String.eqb operation "update" then
    let updateFields := getNodeParameter "updateFields" i None in
    let* email := lift (read "email" updateFields) in
    let user := set_if_truthy "email" email (OCons "phone" (VStr phone) ONil) in
    let body := OCons "user" (VObj user) ONil in
    let body := set_if_truthy "locale" (prop "locale" updateFields) body in
    let* body :=
      lift (set_attributes "customAttributes"
              (prop "customAttributes" updateFields) body) in
    let* responseData :=
      attentiveApiRequest "PATCH" "/subscribers" (Utils.cleanObject body) ∅ in
    ret (buildReturnData responseData)
  else unknown_operation operation.

(** The loop over the recipients of a bulk message: each phone is
    normalised and validated, and [{ phone }] is pushed. *)
Fixpoint bulk_recipients (recipientsList : list value) (recipients : list value)
  : result (list value) :=
  match recipientsList with
  | [] => ok recipients
  | recipient :: rest =>
      match read "phone" recipient with
      | inl e => throw e
      | inr p =>
          match requirePhone_value p with
          | inl e => throw e
          | inr phone =>
              bulk_recipients rest
                (recipients ++ [VObj (OCons "phone" (VStr phone) ONil)])
          end
      end
  end.

(** The [variables] of a transactional message. *)
Definition set_variables (variablesInput : value) (requestBody : obj)
  : result obj :=
  if truthy variablesInput then
    match prop "variable" variablesInput with
    | VArr variablesList =>
        match parseCustomAttributes_loop variablesList ONil with
        | inl e => throw e
        | inr variables =>
            ok (if (0 <? keys_length variables)%nat
                then set "variables" (VObj variables) requestBody
                else requestBody)
        end
    | _ => ok requestBody
    end
  else ok requestBody.

(** [executeMessageOperation] *)
Definition executeMessageOperation (operation : string) (i : nat)
  : M W (list Node.INodeExecutionData) :=
  if String.eqb operation "send" then
    let* to := lift (requirePhone_value (getNodeParameter "to" i None)) in
    let body := getNodeParameter "body" i None in
    let options := getNodeParameter "options" i None in
    let requestBody := OCons "to" (VStr to) (OCons "body" body ONil) in
    let* subscriptionType := lift (read "subscriptionType" options) in
    let requestBody :=
      set_if_truthy "subscriptionType" subscriptionType requestBody in
    let requestBody := set_if_truthy "mediaUrl" (prop "mediaUrl" options) requestBody in
    let requestBody :=
      set_if_truthy "messageName" (prop "messageName" options) requestBody in
    let requestBody :=
      set_if_defined "useShortLinks" (prop "useShortLinks" options) requestBody in
    let requestBody :=
      set_if_defined "skipFatigue" (prop "skipFatigue" options) requestBody in
    let requestBody :=
      set_if_truthy "externalId" (prop "externalId" options) requestBody in
    let* responseData :=
      attentiveApiRequest "POST" "/messages/send"
                          (Utils.cleanObject requestBody) ∅ in
    ret (buildReturnData responseData)
  else if String.eqb operation "sendBulk" then
    let body := getNodeParameter "body" i None in
    let recipientsInput := getNodeParameter "recipients" i None in
    let options := getNodeParameter "options" i None in
    let* recipientsList := lift (read "recipient" recipientsInput) in
    let* recipients :=
      lift (match recipientsList with
            | VArr l => bulk_recipients l []
            | _ => ok []
            end) in
    let requestBody :=
      OCons "recipients" (VArr recipients) (OCons "body" body ONil) in
    let* subscriptionType := lift (read "subscriptionType" options) in
    let requestBody :=
      set_if_truthy "subscriptionType" subscriptionType requestBody in
    let requestBody := set_if_truthy "mediaUrl" (prop "mediaUrl" options) requestBody in
    let requestBody :=
      set_if_truthy "messageName" (prop "messageName" options) requestBody in
    let requestBody :=
      set_if_defined "useShortLinks" (prop "useShortLinks" options) requestBody in
    let* responseData :=
      attentiveApiRequest "POST" "/messages/bulk"
                          (Utils.cleanObject requestBody) ∅ in
    ret (buildReturnData responseData)
  else if String.eqb operation "sendTransactional" then
    let* to := lift (requirePhone_value (getNodeParameter "to" i None)) in
    let body := getNodeParameter "body" i None in
    let messageName := getNodeParameter "messageName" i None in
    let options := getNodeParameter "transactionalOptions" i None in
    let requestBody :=
      OCons "to" (VStr to) (OCons "body" body (OCons "messageName" messageName
        (OCons "subscriptionType" (VStr "TRANSACTIONAL") ONil))) in
    let* mediaUrl := lift (read "mediaUrl" options) in
    let requestBody := set_if_truthy "mediaUrl" mediaUrl requestBody in
    let requestBody :=
      set_if_truthy "externalId" (prop "externalId" options) requestBody in
    let* requestBody :=
      lift (set_variables (prop "variables" options) requestBody) in
    let* responseData :=
      attentiveApiRequest "POST" "/messages/transactional"
                          (Utils.cleanObject requestBody) ∅ in
    ret (buildReturnData responseData)
  else unknown_operation operation.

(** The user of a batch entry: [if (entry.phone) ... else if
    (entry.email) ...]; [None] when the entry names neither. *)
Definition entry_user (entry : value) : result (option value) :=
  if truthy (prop "phone" entry) then
    match requirePhone_value (prop "phone" entry) with
    | inl e => throw e
    | inr phone => ok (Some (VObj (OCons "phone" (VStr phone) ONil)))
    end
  else if truthy (prop "email" entry)
  then ok (Some (VObj (OCons "email" (prop "email" entry) ONil)))
  else ok None.

Definition with_user (user : option value) (o : obj) : obj :=
  match user with
  | Some u => set "user" u o
  | None => o
  end.

(** The loop of [sendBatch] over the events. *)
Fixpoint batch_events (eventsList : list value) (events : list value)
  : M W (list value) :=
  match eventsList with
  | [] => ret events
  | event :: rest =>
      let* type := lift (read "type" event) in
      let* occurredAt := getTimestamp_value VUndefined in
      let eventBody :=
        OCons "type" type (OCons "occurredAt" (VStr occurredAt) ONil) in
      let* user := lift (entry_user event) in
      batch_events rest (events ++ [VObj (with_user user eventBody)])
  end.

(** What the event built for a batch entry holds. *)
Definition event_of_entry (entry event : value) : Prop :=
  nullish entry = false
  /\ prop "type" event = prop "type" entry
  /\ (exists s, prop "occurredAt" event = VStr s /\ is_iso_utc s = true)
  /\ (truthy (prop "phone" entry) = true ->
      exists phone,
        requirePhone_value (prop "phone" entry) = ok phone
        /\ prop "user" event = VObj (OCons "phone" (VStr phone) ONil))
  /\ (truthy (prop "phone" entry) = false ->
      prop "user" event
      = if truthy (prop "email" entry)
        then VObj (OCons "email" (prop "email" entry) ONil)
        else VUndefined).

(** [executeCustomEventOperation] *)
Definition executeCustomEventOperation (operation : string) (i : nat)
  : M W (list Node.INodeExecutionData) :=
  if String.eqb operation "send" then
    let eventType := getNodeParameter "eventType" i None in
    let options := getNodeParameter "eventOptions" i None in
    let body := OCons "type" eventType ONil in
    let* user := lift (identified_user i) in
    let body := set "user" user body in
    let* occurredAtInput := lift (read "occurredAt" options) in
    let* occurredAt := getTimestamp_value occurredAtInput in
    let body := set "occurredAt" (VStr occurredAt) body in
    let body := set_if_truthy "externalId" (prop "externalId" options) body in
    let* body :=
      lift (set_attributes "properties" (prop "properties" options) body) in
    let* responseData :=
      attentiveApiRequest "POST" "/events/custom" (Utils.cleanObject body) ∅ in
    ret (buildReturnData responseData)
  else if String.eqb operation "sendBatch" then
    let eventsInput := getNodeParameter "events" i None in
    let* eventsList := lift (read "event" eventsInput) in
    let* events :=
      match eventsList with
      | VArr l => batch_events l []
      | _ => ret []
      end in
    let* responseData :=
      attentiveApiRequest "POST" "/events/custom/batch"
                          (OCons "events" (VArr events) ONil) ∅ in
    ret (buildReturnData responseData)
  else unknown_operation operation.

(** The loop of [setBatch] over the subscribers. *)
Fixpoint batch_updates (subscribersList : list value) (updates : list value)
  : result (list value) :=
  match subscribersList with
  | [] => ok updates
  | sub :: rest =>
      match read "key" sub with
      | inl e => throw e
      | inr key =>
          let update :=
            OCons "properties"
                  (VObj (OCons (ToString key) (prop "value" sub) ONil)) ONil in
          match entry_user sub with
          | inl e => throw e
          | inr user =>
              batch_updates rest (updates ++ [VObj (with_user user update)])
          end
      end
  end.

(** [executeCustomAttributeOperation] *)
Definition executeCustomAttributeOperation (operation : string) (i : nat)
  : M W (list Node.INodeExecutionData) :=
  if String.eqb operation "set" then
    let attributesInput := getNodeParameter "attributes" i None in
    let* user := lift (identified_user i) in
    let body := OCons "user" user ONil in
    let* attributes := lift (parseCustomAttributes attributesInput) in
    let body := set "properties" (VObj attributes) body in
    let* responseData :=
      attentiveApiRequest "POST" "/attributes/custom" (Utils.cleanObject body) ∅ in
    ret (buildReturnData responseData)
  else if String.eqb operation "setBatch" then
    let subscribersInput := getNodeParameter "subscribers" i None in
    let* subscribersList := lift (read "subscriber" subscribersInput) in
    let* updates :=
      lift (match subscribersList with
            | VArr l => batch_updates l []
            | _ => ok []
            end) in
    let* responseData :=
      attentiveApiRequest "POST" "/attributes/custom/batch"
                          (OCons "updates" (VArr updates) ONil) ∅ in
    ret (buildReturnData responseData)
  else if String.eqb operation "delete" then
    let attributeKey := getNodeParameter "attributeKey" i None in
    let body := OCons "attributeKey" attributeKey ONil in
    let* user := lift (identified_user i) in
    let body := set "user" user body in
    let* responseData :=
      attentiveApiRequest "DELETE" "/attributes/custom" (Utils.cleanObject body) ∅ in
    ret (buildReturnData responseData)
  else unknown_operation operation.

(** [{ value: amount, currency: options.currency || 'USD' }] *)
Definition money (amount : value) (options : value) : value :=
  VObj (OCons "value" amount
       (OCons "currency" (or_else (prop "currency" options) (VStr "USD")) ONil)).

(** The part of [executeEcommerceOperation] that [productView],
    [addToCart] and [removeFromCart] share. *)
Definition cart_event (i : nat) (body : obj) : M W obj :=
  let options := getNodeParameter "eventOptions" i None in
  let* occurredAtInput := lift (read "occurredAt" options) in
  let* occurredAt := getTimestamp_value occurredAtInput in
  let body := set "occurredAt" (VStr occurredAt) body in
  ret (set_if_truthy "externalId" (prop "externalId" options) body).

(** [executeEcommerceOperation] *)
Definition executeEcommerceOperation (operation : string) (i : nat)
  : M W (list Node.INodeExecutionData) :=
  let itemsInput := getNodeParameter "items" i None in
  let* user := lift (identified_user i) in
  let body := OCons "user" user ONil in
  let* items := lift (Utils.parseProductItems itemsInput) in
  let body := set "items" (VArr items) body in
  let* request :=
    (if String.eqb operation "productView" then
       let* body := cart_event i body in
       ret ("/events/ecommerce/product-view", body)
     else if String.eqb operation "addToCart" then
       let* body := cart_event i body in
       ret ("/events/ecommerce/add-to-cart", body)
     else if String.eqb operation "removeFromCart" then
       let* body := cart_event i body in
       ret ("/events/ecommerce/remove-from-cart", body)
     else if String.eqb operation "purchase" then
       let orderId := getNodeParameter "orderId" i None in
       let options := getNodeParameter "orderOptions" i None in
       let body := set "orderId" orderId body in
       let* occurredAtInput := lift (read "occurredAt" options) in
       let* occurredAt := getTimestamp_value occurredAtInput in
       let body := set "occurredAt" (VStr occurredAt) body in
       let body := set_if_truthy "currency" (prop "currency" options) body in
       let body :=
         if truthy (prop "totalAmount" options)
         then set "order"
                (VObj (OCons "total" (money (prop "totalAmount" options) options)
                         ONil)) body
         else body in
       let body :=
         if truthy (prop "discountAmount" options)
         then set "discount" (money (prop "discountAmount" options) options) body
         else body in
       let body :=
         if truthy (prop "shippingAmount" options)
         then set "shipping" (money (prop "shippingAmount" options) options) body
         else body in
       let body :=
         if truthy (prop "taxAmount" options)
         then set "tax" (money (prop "taxAmount" options) options) body
         else body in
       let body := set_if_truthy "externalId" (prop "externalId" options) body in
       ret ("/events/ecommerce/purchase", body)
     else if String.eqb operation "abandoned" then
       let options := getNodeParameter "orderOptions" i None in
       let* occurredAtInput := lift (read "occurredAt" options) in
       let* occurredAt := getTimestamp_value occurredAtInput in
       let body := set "occurredAt" (VStr occurredAt) body in
       let body := set_if_truthy "currency" (prop "currency" options) body in
       let body :=
         if truthy (prop "totalAmount" options)
         then set "cart"
                (VObj (OCons "total" (money (prop "totalAmount" options) options)
                         ONil)) body
         else body in
       let body := set_if_truthy "externalId" (prop "externalId" options) body in
       ret ("/events/ecommerce/abandoned", body)
     else unknown_operation operation) in
  let* responseData :=
    attentiveApiRequest "POST" request.1 (Utils.cleanObject request.2) ∅ in
  ret (buildReturnData responseData).

(** The ten execute functions, as the dispatcher imports them. *)
Definition actions : Node.Actions W :=
  {| Node.executeSubscriberOperation := executeSubscriberOperation;
     Node.executeMessageOperation := executeMessageOperation;
     Node.executeCustomEventOperation := executeCustomEventOperation;
     Node.executeCustomAttributeOperation := executeCustomAttributeOperation;
     Node.executeEcommerceOperation := executeEcommerceOperation;
     Node.executeSegmentOperation := executeSegmentOperation;
     Node.executeJourneyOperation := executeJourneyOperation;
     Node.executeSignUpUnitOperation := executeSignUpUnitOperation;
     Node.executeKeywordOperation := executeKeywordOperation;
     Node.executeWebhookOperation := executeWebhookOperation |}.

End WithContext.

End Resources.

(** ** Node contexts to evaluate examples in *)

Module Fixtures.

(** A node context with fixed parameter values, the same for every
    item, and a clock that stands still at [now]. *)
Definition fixed_context {W : Type} (parameters : string -> value) (now : Z)
  : Resources.NodeContext W :=
  {| Resources.getNodeParameter :=
       fun name _ fallback =>
         match parameters name, fallback with
         | VUndefined, Some v => v
         | p, _ => p
         end;
     Resources.Date_now := fun w => (now, w) |}.

(** Parameters of a subscriber operation on a phone that is not a
    phone number. *)
Definition bad_phone_parameters (name : string) : value :=
  if String.eqb name "phone" then VStr "not a phone" else VUndefined.

(** Parameters of a bulk message to two recipients, the second of which
    has no valid phone. *)
Definition bulk_parameters (name : string) : value :=
  if String.eqb name "recipients" then
    VObj (OCons "recipient"
            (VArr [VObj (OCons "phone" (VStr "+19148440001") ONil);
                   VObj (OCons "phone" (VStr "0") ONil)]) ONil)
  else if String.eqb name "body" then VStr "Hello"
  else if String.eqb name "options" then VObj ONil
  else VUndefined.

(** Parameters of a batch of three events: one for a phone, one for an
    email address, one for nobody. *)
Definition batch_parameters (name : string) : value :=
  if String.eqb name "events" then
    VObj (OCons "event"
            (VArr [VObj (OCons "type" (VStr "visit")
                           (OCons "phone" (VStr "(914) 844-0001") ONil));
                   VObj (OCons "type" (VStr "visit")
                           (OCons "email" (VStr "a@example.com") ONil));
                   VObj (OCons "type" (VStr "visit") ONil)]) ONil)
  else VUndefined.

(** Parameters of a bulk message to two recipients with valid phones. *)
Definition bulk_valid_parameters (name : string) : value :=
  if String.eqb name "recipients" then
    VObj (OCons "recipient"
            (VArr [VObj (OCons "phone" (VStr "(914) 844-0001") ONil);
                   VObj (OCons "phone" (VStr "+19148440002") ONil)]) ONil)
  else if String.eqb name "body" then VStr "Hello"
  else if String.eqb name "options" then VObj ONil
  else VUndefined.

(** The host [Hst] over a world that carries the time of day beside
    it. *)
Definition timed {W : Type} (Hst : Transport.Host W) : Transport.Host (W * Z) :=
  {| Transport.apiKey := fun wt => Transport.apiKey wt.1;
     Transport.helpers_request :=
       fun options wt =>
         let '(r, w') := Transport.helpers_request options wt.1 in
         (r, (w', wt.2));
     Transport.NodeApiError_message := Transport.NodeApiError_message |}.

(** A node context with fixed parameter values whose clock advances by
    [step] milliseconds with every reading. *)
Definition ticking_context {W : Type} (parameters : string -> value) (step : Z)
  : Resources.NodeContext (W * Z) :=
  {| Resources.getNodeParameter :=
       fun name _ fallback =>
         match parameters name, fallback with
         | VUndefined, Some v => v
         | p, _ => p
         end;
     Resources.Date_now := fun wt => (wt.2, (wt.1, (wt.2 + step)%Z)) |}.

End Fixtures.

(** ** AttentiveTrigger.node.ts *)

Module Trigger.

Import Transport Shaping.

(** [delete o.k] *)
Fixpoint remove (k : string) (o : obj) : obj :=
  match o with
  | ONil => ONil
  | OCons k' v rest =>
      if String.eqb k k' then remove k rest else OCons k' v (remove k rest)
  end.

(** What the trigger works on: the world of the transport, the static
    data of the node ([getWorkflowStaticData('node')]), the flag and the
    warnings of the licensing notice, and what has been written with
    [console.log]. *)
Record State (W : Type) : Type := {
  world : W;
  webhookData : obj;
  session : Session;
  logged : list (list value)
}.

Arguments world {W} _.
Arguments webhookData {W} _.
Arguments session {W} _.
Arguments logged {W} _.

Definition with_world {W} (w : W) (st : State W) : State W :=
  {| world := w; webhookData := webhookData st; session := session st;
     logged := logged st |}.

Definition with_webhookData {W} (o : obj) (st : State W) : State W :=
  {| world := world st; webhookData := o; session := session st;
     logged := logged st |}.

Definition with_session {W} (s : Session) (st : State W) : State W :=
  {| world := world st; webhookData := webhookData st; session := s;
     logged := logged st |}.

(** [console.log(...line)] *)
Definition console_log {W} (line : list value) (st : State W) : State W :=
  {| world := world st; webhookData := webhookData st; session := session st;
     logged := (logged st ++ [line])%list |}.

(** [console.warn(message)] *)
Definition console_warn (message : string) (s : Session) : Session :=
  {| licensingNoticeLogged := licensingNoticeLogged s;
     warnings := (warnings s ++ [message])%list |}.

(** What the trigger returns to the host for an incoming call. *)
Inductive IWebhookResponseData : Type :=
  | webhookResponse (status : Z) (body : string)
  | workflowData (data : list (list Node.INodeExecutionData)).

(** What the host hands to the hook and webhook functions: the URL the
    node is called at (a string or [undefined]), the node parameters,
    the body and the headers of the incoming call, and the clock. *)
Class Functions (W : Type) : Type := {
  getNodeWebhookUrl : string -> option string;
  getNodeParameter : string -> value;
  getBodyData : value;
  getHeaderData : value;
  Date_now : W -> Z * W
}.

(** [v === webhookUrl] *)
Definition is_url (v : value) (webhookUrl : option string) : bool :=
  match webhookUrl, v with
  | Some url, VStr s => String.eqb s url
  | None, VUndefined => true
  | _, _ => false
  end.

(** The value of an optional string. *)
Definition optional (s : option string) : value :=
  match s with Some s => VStr s | None => VUndefined end.

(** What [for (const x of v)] visits: the elements of an array, the
    characters of a string (one per byte here); anything else is not
    iterable. *)
Definition iterate (v : value) : option (list value) :=
  match v with
  | VArr l => Some l
  | VStr s => Some ((fun c => VStr (String c EmptyString)) <$> list_ascii_of_string s)
  | _ => None
  end.

(** The loop of [checkExists]: the [id] of the first webhook whose [url]
    is [webhookUrl]; reading [webhook.url] throws on [undefined] and
    [null]. *)
Fixpoint find_webhook (webhookUrl : option string) (webhooks : list value)
  : result (option value) :=
  match webhooks with
  | [] => ok None
  | webhook :: rest =>
      match Resources.read "url" webhook with
      | inl e => throw e
      | inr url =>
          if is_url url webhookUrl then ok (Some (prop "id" webhook))
          else find_webhook webhookUrl rest
      end
  end.

Section WithHost.
Context {R : Runtime} {W : Type} {Hst : Host W} {Fns : Functions W}.

(** [webhookMethods.default.checkExists] *)
Definition checkExists (st : State W) : result bool * State W :=
  let st := with_session (logLicensingNotice (session st)) st in
  let webhookUrl := getNodeWebhookUrl "default" in
  let webhookId := get "webhookId" (webhookData st) in
  if truthy webhookId then
    match attentiveApiRequest "GET" ("/webhooks/" +:+ ToString webhookId)
                              ONil ∅ (world st) with
    | (inr _, w) => (ok true, with_world w st)
    | (inl _, w) =>
        (ok false,
         with_webhookData (remove "webhookId" (webhookData st)) (with_world w st))
    end
  else
    match attentiveApiRequest "GET" "/webhooks" ONil ∅ (world st) with
    | (inr response, w) =>
        let st := with_world w st in
        match Resources.read "webhooks" response with
        | inl _ => (ok false, st)
        | inr listed =>
            match iterate (or_else listed (VArr [])) with
            | None => (ok false, st)
            | Some webhooks =>
                match find_webhook webhookUrl webhooks with
                | inr (Some id) =>
                    (ok true,
                     with_webhookData (set "webhookId" id (webhookData st)) st)
                | inr None | inl _ => (ok false, st)
                end
            end
        end
    | (inl _, w) => (ok false, with_world w st)
    end.

(** The error [create] throws for a failure [error]. *)
Definition creation_failure (error : Exn) : Exn :=
  Error ("Failed to create Attentive webhook: " +:+ Exn_message error).

(** [webhookMethods.default.create] *)
Definition create (st : State W) : result bool * State W :=
  let st := with_session (logLicensingNotice (session st)) st in
  let webhookUrl := getNodeWebhookUrl "default" in
  let events := getNodeParameter "events" in
  let options := getNodeParameter "options" in
  let body := OCons "url" (optional webhookUrl) (OCons "events" events ONil) in
  match Resources.read "secret" options with
  | inl e => (throw e, st)
  | inr secret =>
      let body := Resources.set_if_truthy "secret" secret body in
      match attentiveApiRequest "POST" "/webhooks" body ∅ (world st) with
      | (inr response, w) =>
          let st := with_world w st in
          match Resources.read "id" response with
          | inr id =>
              (ok true,
               with_webhookData (set "webhookId" id (webhookData st)) st)
          | inl error => (throw (creation_failure error), st)
          end
      | (inl error, w) => (throw (creation_failure error), with_world w st)
      end
  end.

(** [webhookMethods.default.delete] *)
Definition delete (st : State W) : result bool * State W :=
  let webhookId := get "webhookId" (webhookData st) in
  if truthy webhookId then
    let st :=
      match attentiveApiRequest "DELETE" ("/webhooks/" +:+ ToString webhookId)
                                ONil ∅ (world st) with
      | (inr _, w) => with_world w st
      | (inl error, w) =>
          with_session
            (console_warn ("Failed to delete webhook: " +:+ Exn_message error)
                          (session st))
            (with_world w st)
      end in
    (ok true, with_webhookData (remove "webhookId" (webhookData st)) st)
  else (ok true, st).

(** The record [webhook] hands to the workflow for the body of a call;
    the clock is read only when the body has no [timestamp]. *)
Definition workflow_item (body : value) (st : State W)
  : result IWebhookResponseData * State W :=
  match Resources.read "event" body with
  | inl e => (throw e, st)
  | inr event =>
      let event := or_else event (prop "type" body) in
      let '(timestamp, st) :=
        if truthy (prop "timestamp" body) then (prop "timestamp" body, st)
        else let '(now, w) := Date_now (world st) in
             (VStr (Date.iso_string now), with_world w st) in
      let data := or_else (prop "data" body) body in
      (ok (workflowData
             [[ {| Node.json :=
                     VObj (OCons "event" event
                          (OCons "timestamp" timestamp
                          (OCons "data" data
                          (OCons "raw" body ONil))));
                   Node.pairedItem := None |} ]]),
       st)
  end.

(** [webhook] *)
Definition webhook (st : State W) : result IWebhookResponseData * State W :=
  let st := with_session (logLicensingNotice (session st)) st in
  let body := getBodyData in
  let headers := getHeaderData in
  let options := getNodeParameter "options" in
  match Resources.read "secret" options with
  | inl e => (throw e, st)
  | inr secret =>
      if truthy secret then
        match Resources.read "x-attentive-signature" headers with
        | inl e => (throw e, st)
        | inr signature =>
            if negb (truthy signature)
            then (ok (webhookResponse 401 "Missing signature"), st)
            else workflow_item body
                   (console_log [VStr "Webhook signature received:"; signature]
                                st)
        end
      else workflow_item body st
  end.

End WithHost.

(** A state with nothing stored and nothing written yet. *)
Definition initial {W} (w : W) : State W :=
  {| world := w; webhookData := ONil; session := new_session; logged := [] |}.

(** An incoming call with fixed parameters, body and headers, on a node
    reachable at [url]; the clock stands still at [now]. *)
Definition call {W} (url : option string) (parameters : string -> value)
    (body headers : value) (now : Z) : Functions W :=
  {| getNodeWebhookUrl := fun _ => url;
     getNodeParameter := parameters;
     getBodyData := body;
     getHeaderData := headers;
     Date_now := fun w => (now, w) |}.

(** A call to a node configured with [secret] that carries
    [signature] in its signature header. *)
Definition signed_call {W} (secret signature : string) : Functions W :=
  call (Some "https://n8n.example/webhook")
       (fun name => if String.eqb name "options"
                    then VObj (OCons "secret" (VStr secret) ONil)
                    else VUndefined)
       (VObj (OCons "type" (VStr "sms.sent") ONil))
       (VObj (OCons "x-attentive-signature" (VStr signature) ONil))
       0.

(** A list of webhooks as the API answers it, the second of which
    points at the node's URL. *)
Definition registered : value :=
  VObj (OCons "webhooks"
          (VArr [VObj (OCons "id" (VStr "w1")
                         (OCons "url" (VStr "https://elsewhere.example/hook") ONil));
                 VObj (OCons "id" (VStr "w2")
                         (OCons "url" (VStr "https://n8n.example/webhook") ONil));
                 VNull])
          ONil).

End Trigger.

(** * Verification *)

Import Utils.
Local Open Scope list_scope.

(** ** Phone numbers *)

Lemma keep_chars_all p s : all_chars p (keep_chars p s) = true.
Proof.
  induction s as [|c s IH]; simpl; [done|].
  destruct (p c) eqn:Hc; simpl; [by rewrite Hc|done].
Qed.

Lemma keep_chars_id p s : all_chars p s = true -> keep_chars p s = s.
Proof.
  induction s as [|c s IH]; simpl; [done|].
  intros [Hc Hs]%andb_prop. rewrite Hc. by rewrite IH.
Qed.

Lemma keep_chars_twice p q s :
  (forall c, q c = true -> p c = true) ->
  keep_chars q (keep_chars p s) = keep_chars q s.
Proof.
  intros Hqp. induction s as [|c s IH]; simpl; [done|].
  destruct (p c) eqn:Hp; simpl.
  - destruct (q c); by rewrite IH.
  - destruct (q c) eqn:Hq; [|done]. apply Hqp in Hq. congruence.
Qed.

(** The result is empty only for the empty input; otherwise it begins
    with '+' and holds nothing but digits and '+'. *)
Lemma formatPhoneNumber_cases s :
  (s = EmptyString /\ formatPhoneNumber s = EmptyString)
  \/ (s <> EmptyString
      /\ startsWith "+" (formatPhoneNumber s) = true
      /\ all_chars phone_char (formatPhoneNumber s) = true).
Proof.
  unfold formatPhoneNumber.
  destruct (String.eqb s EmptyString) eqn:He.
  - left. by apply String.eqb_eq in He.
  - right. apply String.eqb_neq in He. split; [done|].
    pose proof (keep_chars_all phone_char s) as Hall.
    fold phone_char.
    destruct (startsWith "+" (keep_chars phone_char s)) eqn:Hs; [done|].
    split; [done|].
    change (phone_char "+" && all_chars phone_char (keep_chars phone_char s) = true).
    by rewrite Hall.
Qed.

Lemma formatPhoneNumber_fixed s :
  startsWith "+" s = true -> all_chars phone_char s = true ->
  formatPhoneNumber s = s.
Proof.
  intros Hs Hall. unfold formatPhoneNumber.
  destruct s as [|c s]; [done|]. simpl String.eqb.
  fold phone_char. rewrite (keep_chars_id _ _ Hall). by rewrite Hs.
Qed.

Lemma formatPhoneNumber_idem s :
  formatPhoneNumber (formatPhoneNumber s) = formatPhoneNumber s.
Proof.
  destruct (formatPhoneNumber_cases s) as [[_ ->]|(_ & Hs & Hall)]; [done|].
  by apply formatPhoneNumber_fixed.
Qed.

(** C9: [formatPhoneNumber] is idempotent: formatting an already
    formatted phone number leaves it unchanged. *)
Theorem formatPhoneNumber_idempotent :
  forall s : string,
    formatPhoneNumber (formatPhoneNumber s) = formatPhoneNumber s.
Proof. exact formatPhoneNumber_idem. Qed.

(** C7, as stated, fails: a '+' that is not leading is kept by the code,
    so on ["+1+2"] the source and the specification's reading differ. *)
Lemma formatPhoneNumber_keeps_inner_plus :
  formatPhoneNumber "+1+2" = "+1+2"
  /\ Spec.normalizePhone "+1+2" = "+12"
  /\ ~ (forall s, formatPhoneNumber s = Spec.normalizePhone s).
Proof.
  split; [reflexivity|]. split; [reflexivity|].
  intros Heq. specialize (Heq "+1+2"). vm_compute in Heq. discriminate.
Qed.

(** C7, amended: [formatPhoneNumber] maps the empty string to itself;
    on any other input it keeps exactly the digits and every '+' sign,
    in order, and puts one '+' in front when what is kept does not begin
    with '+'.  So the result begins with '+', holds only digits and '+',
    and has the digits of the input; the four examples hold. *)
Theorem formatPhoneNumber_normalizes :
  formatPhoneNumber EmptyString = EmptyString
  /\ (forall c s,
        let kept := keep_chars phone_char (String c s) in
        formatPhoneNumber (String c s)
        = (if startsWith "+" kept then kept else String "+" kept)
        /\ startsWith "+" (formatPhoneNumber (String c s)) = true
        /\ all_chars phone_char (formatPhoneNumber (String c s)) = true
        /\ keep_chars is_digit (formatPhoneNumber (String c s))
           = keep_chars is_digit (String c s)
        /\ keep_chars is_plus kept = keep_chars is_plus (String c s))
  /\ formatPhoneNumber "19148440001" = "+19148440001"
  /\ formatPhoneNumber "+19148440001" = "+19148440001"
  /\ formatPhoneNumber "1-914-844-0001" = "+19148440001"
  /\ formatPhoneNumber "(914) 844-0001" = "+9148440001".
Proof.
  split; [reflexivity|]. split; [|by repeat split].
  intros c s kept.
  assert (Hd : forall a, is_digit a = true -> phone_char a = true).
  { intros a Ha. unfold phone_char. by rewrite Ha. }
  assert (Hp : forall a, is_plus a = true -> phone_char a = true).
  { intros a Ha. unfold phone_char. rewrite Ha. apply orb_true_r. }
  assert (Hf : formatPhoneNumber (String c s)
               = if startsWith "+" kept then kept else String "+" kept).
  { reflexivity. }
  destruct (formatPhoneNumber_cases (String c s))
    as [[? _]|(_ & Hs & Hall)]; [done|].
  repeat split; try done.
  - rewrite Hf. destruct (startsWith "+" kept).
    + by apply keep_chars_twice.
    + change (keep_chars is_digit (String "+" kept))
        with (keep_chars is_digit kept).
      by apply keep_chars_twice.
  - by apply keep_chars_twice.
Qed.

(** ** Phone validation *)

Lemma validatePhoneNumber_unfold phone :
  validatePhoneNumber phone
  = if isValidE164 (formatPhoneNumber phone) then ok tt
    else throw (NodeOperationError (invalid_phone_message phone)).
Proof. unfold validatePhoneNumber. by destruct (isValidE164 _). Qed.

(** C3, as stated, fails: on the raw input ["0123"] the normalised form
    ["+0123"] is not E.164 and the message quotes ["+0123"], the
    normalised form, not the raw input. *)
Lemma requirePhone_echoes_formatted :
  isValidE164 (formatPhoneNumber "0123") = false
  /\ requirePhone "0123"
     = throw (NodeOperationError (invalid_phone_message "+0123"))
  /\ requirePhone "0123"
     <> throw (NodeOperationError (invalid_phone_message "0123")).
Proof. split; [reflexivity|]. split; [reflexivity|]. vm_compute. discriminate. Qed.

(** C3, amended: a phone-bearing operation first normalises its input
    and then, exactly when the normalised form fails [isValidE164],
    raises the validation error, whose message quotes the normalised
    form (the string handed to [validatePhoneNumber], which quotes its
    own argument); when the normalised form passes, nothing is raised
    and the operation goes on with the normalised form. *)
Theorem requirePhone_spec :
  (forall raw : string,
      requirePhone raw
      = if isValidE164 (formatPhoneNumber raw)
        then ok (formatPhoneNumber raw)
        else throw (NodeOperationError
                      (invalid_phone_message (formatPhoneNumber raw))))
  /\ (forall phone : string,
        validatePhoneNumber phone
        = if isValidE164 (formatPhoneNumber phone) then ok tt
          else throw (NodeOperationError (invalid_phone_message phone))).
Proof.
  split; [|exact validatePhoneNumber_unfold].
  intros raw. unfold requirePhone.
  rewrite validatePhoneNumber_unfold, formatPhoneNumber_idem.
  by destruct (isValidE164 _).
Qed.

(** ** Object cleaning *)

(** Induction on an object with the nested object of the head entry. *)
Lemma obj_nested_ind (P : obj -> Prop) :
  P ONil ->
  (forall k v rest,
      (forall nested, v = VObj nested -> P nested) -> P rest ->
      P (OCons k v rest)) ->
  forall o, P o.
Proof.
  intros Hnil Hcons.
  apply (obj_value_ind
           (fun v => forall nested, v = VObj nested -> P nested) P);
    try (intros; discriminate); try done.
  - intros o Ho nested [= <-]. exact Ho.
  - intros k v Hv rest Hrest. by apply Hcons.
Qed.

Lemma keys_length_pos o : (0 <? keys_length o)%nat = true <-> o <> ONil.
Proof. destruct o; simpl; split; (done || lia). Qed.

Lemma keys_length_zero o : (0 <? keys_length o)%nat = false <-> o = ONil.
Proof. destruct o; simpl; split; (done || lia). Qed.

Lemma cleanObject_entries o k w :
  (k, w) ∈ entries (cleanObject o)
  <-> k <> "__proto__" /\ exists v, (k, v) ∈ entries o /\ kept v w.
Proof.
  induction o as [|k' v rest _ IH] using obj_nested_ind.
  - simpl. split; [by intros ?%elem_of_nil|].
    by intros (_ & v & ?%elem_of_nil & _).
  - assert (Hdrop : (forall w', ~ kept v w') ->
                    (k, w) ∈ entries (cleanObject rest)
                    <-> k <> "__proto__"
                        /\ exists v0, (k, v0) ∈ entries (OCons k' v rest)
                                      /\ kept v0 w).
    { intros Hno. rewrite IH. simpl. split.
      - intros (Hk & v0 & Hin & Hkept). split; [done|].
        exists v0. split; [by right|done].
      - intros (Hk & v0 & Hin & Hkept). split; [done|].
        apply elem_of_cons in Hin as [[= -> ->]|Hin].
        + by apply Hno in Hkept.
        + by exists v0. }
    assert (Hkeep : forall w', kept v w' -> (forall w'', kept v w'' -> w'' = w') ->
                    (k, w) ∈ entries (own k' w' (cleanObject rest))
                    <-> k <> "__proto__"
                        /\ exists v0, (k, v0) ∈ entries (OCons k' v rest)
                                      /\ kept v0 w).
    { intros w' Hkept Huniq. unfold own.
      destruct (String.eqb k' "__proto__") eqn:He.
      - apply String.eqb_eq in He as ->. rewrite IH. simpl. split.
        + intros (Hk & v0 & Hin & Hk0). split; [done|].
          exists v0. split; [by right|done].
        + intros (Hk & v0 & Hin & Hk0). split; [done|].
          apply elem_of_cons in Hin as [[= -> ->]|Hin]; [done|].
          by exists v0.
      - apply String.eqb_neq in He. simpl. rewrite elem_of_cons, IH. split.
        + intros [[= -> ->]|(Hk & v0 & Hin & Hk0)].
          * split; [done|]. exists v. split; [by left|done].
          * split; [done|]. exists v0. split; [by right|done].
        + intros (Hk & v0 & Hin & Hk0).
          apply elem_of_cons in Hin as [[= -> ->]|Hin].
          * left. by rewrite (Huniq _ Hk0).
          * right. split; [done|]. by exists v0. }
    destruct v as [| |b|n|s|a|nested]; simpl cleanObject.
    + apply Hdrop. intros w' Hk. inversion Hk.
    + apply Hdrop. intros w' Hk. inversion Hk.
    + apply Hkeep; [constructor|]. intros w'' Hk. by inversion Hk.
    + apply Hkeep; [constructor|]. intros w'' Hk. by inversion Hk.
    + destruct (String.eqb s EmptyString) eqn:He.
      * apply String.eqb_eq in He. apply Hdrop. intros w' Hk. by inversion Hk.
      * apply String.eqb_neq in He. apply Hkeep; [by constructor|].
        intros w'' Hk. by inversion Hk.
    + destruct a as [|x a]; simpl.
      * apply Hdrop. intros w' Hk. by inversion Hk.
      * apply Hkeep; [by constructor|]. intros w'' Hk. by inversion Hk.
    + destruct (0 <? keys_length (cleanObject nested))%nat eqn:Hn.
      * apply keys_length_pos in Hn. apply Hkeep; [by constructor|].
        intros w'' Hk. by inversion Hk.
      * apply keys_length_zero in Hn. apply Hdrop. intros w' Hk.
        by inversion Hk.
Qed.

Lemma pruned_own k v o :
  pruned o = true ->
  (k <> "__proto__" -> pruned (OCons k v ONil) = true) ->
  pruned (own k v o) = true.
Proof.
  intros Ho Hv. unfold own.
  destruct (String.eqb k "__proto__") eqn:He; [done|].
  apply String.eqb_neq in He. specialize (Hv He). simpl in *.
  rewrite andb_true_r in Hv. by rewrite Hv, Ho.
Qed.

Lemma cleanObject_pruned o : pruned (cleanObject o) = true.
Proof.
  induction o as [|k v rest IHv IH] using obj_nested_ind; [done|].
  destruct v as [| |b|n|s|a|nested]; simpl; try done.
  - apply pruned_own; [done|]. intros He%String.eqb_neq. simpl. by rewrite He.
  - apply pruned_own; [done|]. intros He%String.eqb_neq. simpl. by rewrite He.
  - destruct (String.eqb s EmptyString) eqn:Hs; [done|].
    apply pruned_own; [done|]. intros He%String.eqb_neq. simpl.
    by rewrite He, Hs.
  - destruct a; simpl; [done|].
    apply pruned_own; [done|]. intros He%String.eqb_neq. simpl. by rewrite He.
  - destruct (0 <? keys_length (cleanObject nested))%nat eqn:Hn; [|done].
    apply keys_length_pos in Hn.
    apply pruned_own; [done|]. intros He%String.eqb_neq. simpl.
    rewrite He, andb_true_r. simpl.
    specialize (IHv nested eq_refl).
    by destruct (cleanObject nested).
Qed.

Lemma cleanObject_fixed o : pruned o = true -> cleanObject o = o.
Proof.
  induction o as [|k v rest IHv IH] using obj_nested_ind; [done|].
  simpl. intros [[Hk Hv]%andb_prop Hrest]%andb_prop. specialize (IH Hrest).
  apply negb_true_iff in Hk. unfold own. rewrite Hk.
  destruct v as [| |b|n|s|a|nested]; try done; try (by rewrite IH).
  - apply negb_true_iff in Hv. by rewrite Hv, IH.
  - destruct a; [done|]. simpl. by rewrite IH.
  - assert (Hc : cleanObject nested = nested).
    { apply (IHv nested eq_refl). by destruct nested. }
    rewrite Hc, IH. by destruct nested.
Qed.

Lemma cleanObject_keys_sublist o :
  sublist (entries (cleanObject o)).*1 (entries o).*1.
Proof.
  induction o as [|k v rest _ IH] using obj_nested_ind; [done|].
  destruct v as [| |b|n|s|a|nested]; simpl; unfold own;
    repeat match goal with
           | |- context [if ?c then _ else _] => destruct c
           end; simpl;
    (by apply sublist_skip) || (by apply sublist_cons).
Qed.

(** C5, as the code has it: [cleanObject] returns a mapping whose
    entries are exactly the entries of the input that are kept, in their
    order, apart from any entry whose key is [__proto__], which is lost
    whatever it holds.  An entry holding [undefined], [null] or the
    empty string is removed; a nested mapping is replaced by its cleaned
    form and dropped when that is empty; an array is kept verbatim when
    non-empty and dropped when empty; numbers and booleans, [0] and
    [false] included, are kept.  Nothing is left to prune in the result,
    and the examples of the specification hold.  At the mapping
    [{externalIdentifiers: {__proto__: "crm-17"}}] the result is empty:
    the non-empty string is removed, and with it the nested mapping. *)
Theorem cleanObject_prunes :
  (forall o k w,
      (k, w) ∈ entries (cleanObject o)
      <-> k <> "__proto__" /\ exists v, (k, v) ∈ entries o /\ kept v w)
  /\ (forall o, sublist (entries (cleanObject o)).*1 (entries o).*1)
  /\ (forall o, pruned (cleanObject o) = true)
  /\ (forall o, cleanObject (cleanObject o) = cleanObject o)
  /\ (forall v, ~ kept VUndefined v /\ ~ kept VNull v
                /\ ~ kept (VStr EmptyString) v /\ ~ kept (VArr []) v)
  /\ (forall o v, cleanObject o = ONil -> ~ kept (VObj o) v)
  /\ kept (num 0) (num 0) /\ kept (VBool false) (VBool false)
  /\ cleanObject (OCons "a" (VStr "v") (OCons "b" VUndefined
                 (OCons "c" VNull (OCons "d" (VStr EmptyString) ONil))))
     = OCons "a" (VStr "v") ONil
  /\ cleanObject (OCons "a" (VStr "value") (OCons "b" (num 0)
                 (OCons "c" (VBool false) (OCons "d" (VArr []) ONil))))
     = OCons "a" (VStr "value") (OCons "b" (num 0)
                 (OCons "c" (VBool false) ONil))
  /\ cleanObject (OCons "a" (VStr "value")
                 (OCons "nested" (VObj (OCons "b" VUndefined ONil)) ONil))
     = OCons "a" (VStr "value") ONil
  /\ kept (VStr "crm-17") (VStr "crm-17")
  /\ cleanObject (OCons "__proto__" (VStr "crm-17") ONil) = ONil
  /\ cleanObject
       (OCons "externalIdentifiers"
          (VObj (OCons "__proto__" (VStr "crm-17") ONil)) ONil)
     = ONil.
Proof.
  split; [exact cleanObject_entries|].
  split; [exact cleanObject_keys_sublist|].
  split; [exact cleanObject_pruned|].
  split; [intros o; apply cleanObject_fixed, cleanObject_pruned|].
  split.
  { intros v. repeat split; intros Hk; by inversion Hk. }
  split.
  { intros o v Ho Hk. inversion Hk; subst. done. }
  repeat split; by constructor.
Qed.

(** ** Product items *)

Lemma get_set_eq k v o : get k (set k v o) = v.
Proof.
  induction o as [|k' v' rest IH]; simpl.
  - by rewrite String.eqb_refl.
  - destruct (String.eqb k k') eqn:He; simpl; by rewrite He.
Qed.

Lemma get_set_ne k k' v o : k <> k' -> get k' (set k v o) = get k' o.
Proof.
  intros Hne. induction o as [|k0 v0 rest IH]; simpl.
  - apply String.eqb_neq in Hne. rewrite String.eqb_sym in Hne. by rewrite Hne.
  - destruct (String.eqb k k0) eqn:He; simpl.
    + apply String.eqb_eq in He as ->.
      destruct (String.eqb k' k0) eqn:He'; [|done].
      apply String.eqb_eq in He'. congruence.
    + by rewrite IH.
Qed.

Lemma number_or_cases n d :
  (number_truthy n = true /\ number_or n d = n)
  \/ (number_or n d = Fin (inject_Z d)
      /\ (n = NaN \/ exists q, n = Fin q /\ (q == 0)%Q)).
Proof.
  unfold number_or. destruct (number_truthy n) eqn:Ht; [by left|right].
  split; [done|]. destruct n as [|neg|q]; [by left|done|right].
  exists q. split; [done|]. simpl in Ht. apply negb_false_iff in Ht.
  by apply Qeq_bool_iff.
Qed.

Section ProductItems.
Context {R : Runtime}.

Lemma parseProductItems_loop_app l acc :
  parseProductItems_loop l acc
  = match parseProductItems_loop l [] with
    | inr outs => ok (acc ++ outs)
    | inl e => throw e
    end.
Proof.
  revert acc. induction l as [|item l IH]; intros acc; simpl.
  - by rewrite app_nil_r.
  - destruct (parseProductItem item) as [e|p]; [done|].
    rewrite (IH (acc ++ [p])), (IH [p]).
    destruct (parseProductItems_loop l []); [done|].
    by rewrite <- app_assoc.
Qed.

Lemma parseProductItems_loop_ok l outs :
  parseProductItems_loop l [] = ok outs
  <-> Forall2 (fun item out => parseProductItem item = ok out) l outs.
Proof.
  revert outs. induction l as [|item l IH]; intros outs; simpl.
  - split.
    + intros [= <-]. constructor.
    + by intros ->%Forall2_nil_inv_l.
  - destruct (parseProductItem item) as [e|p] eqn:Hp.
    + split; [done|].
      intros (out & outs' & Hp' & _ & _)%Forall2_cons_inv_l.
      rewrite Hp in Hp'. done.
    + rewrite parseProductItems_loop_app. split.
      * destruct (parseProductItems_loop l []) as [e|outs'] eqn:Hl; [done|].
        intros [= <-]. constructor; [done|]. by apply IH.
      * intros (out & outs' & Hp' & Hl & ->)%Forall2_cons_inv_l.
        rewrite Hp in Hp'. injection Hp' as <-.
        apply IH in Hl. by rewrite Hl.
Qed.

Lemma parseProductItems_loop_throw l e :
  parseProductItems_loop l [] = throw e
  <-> exists i item,
        l !! i = Some item /\ parseProductItem item = throw e
        /\ forall j x, (j < i)%nat -> l !! j = Some x ->
                       exists out, parseProductItem x = ok out.
Proof.
  revert e. induction l as [|item l IH]; intros e; simpl.
  - split; [done|]. by intros (i & x & ? & _).
  - destruct (parseProductItem item) as [e0|p] eqn:Hp.
    + split.
      * intros [= <-]. exists O, item. repeat split; [done|]. intros; lia.
      * intros (i & x & Hi & Hx & Hbefore). destruct i as [|i].
        { injection Hi as <-. rewrite Hp in Hx. congruence. }
        destruct (Hbefore O item ltac:(lia) eq_refl) as [out Hout].
        rewrite Hp in Hout. done.
    + rewrite parseProductItems_loop_app. split.
      * destruct (parseProductItems_loop l []) as [e'|?] eqn:Hl; [|done].
        intros [= <-].
        destruct (proj1 (IH e') eq_refl) as (i & x & Hi & Hx & Hbefore).
        exists (S i), x. repeat split; [done..|].
        intros [|j] y Hj Hy.
        { injection Hy as <-. by exists p. }
        apply (Hbefore j); [lia|done].
      * intros (i & x & Hi & Hx & Hbefore). destruct i as [|i].
        { injection Hi as <-. rewrite Hp in Hx. done. }
        assert (Hl : parseProductItems_loop l [] = throw e).
        { apply IH. exists i, x. repeat split; [done..|].
          intros j y Hj Hy. apply (Hbefore (S j)); [lia|done]. }
        by rewrite Hl.
Qed.

(** The fields of the line item built from a raw item that is neither
    [undefined] nor [null]. *)
Lemma parseProductItem_fields item :
  item <> VUndefined -> item <> VNull ->
  exists productItem,
    parseProductItem item = ok (VObj productItem)
    /\ get "productId" productItem = prop "productId" item
    /\ get "name" productItem = prop "name" item
    /\ get "price" productItem
       = VObj (OCons "value"
                 (VNum (number_or (parseFloat (prop "price" item)) 0))
              (OCons "currency"
                 (or_else (prop "currency" item) (VStr "USD")) ONil))
    /\ get "quantity" productItem
       = VNum (number_or (parseInt10 (prop "quantity" item)) 1)
    /\ (forall k, k ∈ ["productVariantId"; "productImage"; "productUrl"] ->
          get k productItem
          = if truthy (prop k item) then prop k item else VUndefined)
    /\ get "category" productItem
       = if truthy (prop "category" item)
         then if isArray (prop "category" item) then prop "category" item
              else VArr [prop "category" item]
         else VUndefined.
Proof.
  intros Hu Hn.
  assert (Hp : exists productItem, parseProductItem item = ok (VObj productItem)).
  { destruct item; try done; eexists; reflexivity. }
  destruct Hp as [productItem Hp]. exists productItem. split; [done|].
  assert (Hkey : forall a b, String.eqb a b = false -> a <> b).
  { intros a b. apply String.eqb_neq. }
  assert (productItem
          = let p0 :=
              OCons "productId" (prop "productId" item)
              (OCons "name" (prop "name" item)
              (OCons "price"
                 (VObj (OCons "value"
                          (VNum (number_or (parseFloat (prop "price" item)) 0))
                       (OCons "currency"
                          (or_else (prop "currency" item) (VStr "USD")) ONil)))
              (OCons "quantity"
                 (VNum (number_or (parseInt10 (prop "quantity" item)) 1))
               ONil))) in
            let p1 := copy_if_truthy "productVariantId" item p0 in
            let p2 := copy_if_truthy "productImage" item p1 in
            let p3 := copy_if_truthy "productUrl" item p2 in
            if truthy (prop "category" item)
            then set "category"
                   (if isArray (prop "category" item)
                    then prop "category" item
                    else VArr [prop "category" item]) p3
            else p3) as ->.
  { destruct item; try done; by injection Hp as <-. }
  clear Hp. cbv zeta. unfold copy_if_truthy.
  repeat split.
  1-4: repeat match goal with
              | |- context [if ?c then _ else _] => destruct c
              end;
       repeat (rewrite get_set_ne by (by apply Hkey)); reflexivity.
  - intros k Hk.
    apply elem_of_cons in Hk as [->|Hk];
      [|apply elem_of_cons in Hk as [->|Hk];
        [|apply list_elem_of_singleton in Hk as ->]];
      destruct (truthy (prop "category" item));
      destruct (truthy (prop "productVariantId" item));
      destruct (truthy (prop "productImage" item));
      destruct (truthy (prop "productUrl" item));
      repeat (rewrite get_set_ne by (by apply Hkey));
      rewrite ?get_set_eq; reflexivity.
  - destruct (truthy (prop "category" item)); [by rewrite get_set_eq|].
    destruct (truthy (prop "productVariantId" item));
      destruct (truthy (prop "productImage" item));
      destruct (truthy (prop "productUrl" item));
      repeat (rewrite get_set_ne by (by apply Hkey)); reflexivity.
Qed.

End ProductItems.

(** C6, as stated, fails: the quantity ["0"] parses, to 0, and the line
    item nevertheless gets the default quantity 1. *)
Lemma parseProductItems_zero_quantity :
  parseInt10 (R := Example.runtime) (prop "quantity" Example.raw_item_zero)
  = Fin 0
  /\ Spec.default_on_failure
       (parseInt10 (R := Example.runtime)
          (prop "quantity" Example.raw_item_zero)) 1
     = Fin 0
  /\ exists productItem,
       parseProductItems (R := Example.runtime)
         (Example.items_input [Example.raw_item_zero])
       = ok [VObj productItem]
       /\ get "quantity" productItem = VNum (Fin 1).
Proof.
  split; [reflexivity|]. split; [reflexivity|].
  eexists. split; [vm_compute; reflexivity|reflexivity].
Qed.

(** C6, amended: [parseProductItems] maps the raw items, in order, to
    line items; the price of a line item is the raw price parsed as a
    floating-point number, and 0 when the parse fails (or gives zero);
    its quantity is the raw quantity parsed as an integer, and 1 when the
    parse fails or gives 0; its category, when the raw category is
    truthy, is a list (a value that is not a list is wrapped in a
    singleton list) and is left out otherwise.  The raw item with price
    ["29.99"], currency ["USD"] and quantity ["2"] yields the price
    [{value: 29.99, currency: "USD"}] and the quantity 2. *)
Theorem parseProductItems_line_items :
  forall R : Runtime,
    (forall itemsInput, truthy itemsInput = false ->
       parseProductItems itemsInput = ok [])
    /\ (forall o l outs, get "items" o = VArr l ->
          parseProductItems (VObj o) = ok outs
          <-> Forall2 (fun item out => parseProductItem item = ok out) l outs)
    /\ (forall item, item <> VUndefined -> item <> VNull ->
          exists productItem,
            parseProductItem item = ok (VObj productItem)
            /\ get "productId" productItem = prop "productId" item
            /\ get "name" productItem = prop "name" item
            /\ get "price" productItem
               = VObj (OCons "value"
                         (VNum (number_or (parseFloat (prop "price" item)) 0))
                      (OCons "currency"
                         (or_else (prop "currency" item) (VStr "USD")) ONil))
            /\ get "quantity" productItem
               = VNum (number_or (parseInt10 (prop "quantity" item)) 1)
            /\ get "category" productItem
               = if truthy (prop "category" item)
                 then if isArray (prop "category" item)
                      then prop "category" item
                      else VArr [prop "category" item]
                 else VUndefined)
    /\ (forall n d,
          (number_truthy n = true /\ number_or n d = n)
          \/ (number_or n d = Fin (inject_Z d)
              /\ (n = NaN \/ exists q, n = Fin q /\ (q == 0)%Q)))
    /\ parseProductItems (Example.items_input [Example.raw_item])
       = ok [VObj (OCons "productId" (VStr "SKU123")
                  (OCons "name" (VStr "Test Product")
                  (OCons "price"
                     (VObj (OCons "value" (VNum (Fin 29.99))
                           (OCons "currency" (VStr "USD") ONil)))
                  (OCons "quantity" (VNum (Fin 2)) ONil))))].
Proof.
  intros R. split.
  { intros itemsInput Hf. unfold parseProductItems. by rewrite Hf. }
  split.
  { intros o l outs Hitems. unfold parseProductItems. simpl. rewrite Hitems.
    apply parseProductItems_loop_ok. }
  split.
  { intros item Hu Hn.
    destruct (parseProductItem_fields item Hu Hn)
      as (p & Hp & Hid & Hname & Hprice & Hq & _ & Hcat).
    by exists p. }
  split; [exact number_or_cases|].
  reflexivity.
Qed.

(** ** Timestamps *)

Lemma is_digit_of_nat k : (k < 10)%nat -> is_digit (ascii_of_nat (48 + k)) = true.
Proof.
  intros Hk. unfold is_digit.
  rewrite nat_ascii_embedding by lia.
  apply andb_true_intro. split; apply Nat.leb_le; lia.
Qed.

Lemma string_app_cons c (s1 s2 : string) :
  String c s1 +:+ s2 = String c (s1 +:+ s2).
Proof. reflexivity. Qed.

Lemma string_app_nil (s : string) : EmptyString +:+ s = s.
Proof. reflexivity. Qed.

Lemma all_chars_app p s1 s2 :
  all_chars p (s1 +:+ s2) = all_chars p s1 && all_chars p s2.
Proof.
  induction s1 as [|c s1 IH]; [done|].
  rewrite string_app_cons. simpl. by rewrite IH, andb_assoc.
Qed.

Lemma string_app_length (s1 s2 : string) :
  String.length (s1 +:+ s2) = (String.length s1 + String.length s2)%nat.
Proof.
  induction s1 as [|c s1 IH]; [done|].
  rewrite string_app_cons. simpl. by rewrite IH.
Qed.

Lemma pad_digits_S n z :
  Date.pad_digits (S n) z
  = Date.pad_digits n (z / 10)
    +:+ String (ascii_of_nat (48 + Z.to_nat (z mod 10))) EmptyString.
Proof. reflexivity. Qed.

Lemma all_chars_single p c : all_chars p (String c EmptyString) = p c.
Proof. unfold all_chars. apply andb_true_r. Qed.

Lemma pad_digits_digits n z :
  all_chars is_digit (Date.pad_digits n z) = true
  /\ String.length (Date.pad_digits n z) = n.
Proof.
  revert z. induction n as [|n IH]; intros z; [done|].
  destruct (IH (z / 10)%Z) as [Hall Hlen].
  rewrite pad_digits_S, all_chars_app, string_app_length, Hall, Hlen.
  rewrite all_chars_single. split.
  - apply is_digit_of_nat.
    pose proof (Z.mod_pos_bound z 10 ltac:(lia)). lia.
  - change (String.length (String _ EmptyString)) with 1%nat. lia.
Qed.

Lemma fixed_digits_app u rest acc :
  all_chars is_digit u = true ->
  exists v, Date.fixed_digits (String.length u) (u +:+ rest) acc = Some (v, rest).
Proof.
  revert acc. induction u as [|c u IH]; intros acc; simpl.
  - intros _. by exists acc.
  - intros [Hc Hu]%andb_prop. rewrite Hc. apply IH, Hu.
Qed.

Lemma skip_digits_pad n z rest :
  skip_digits n (Date.pad_digits n z +:+ rest) = Some rest.
Proof.
  unfold skip_digits.
  destruct (pad_digits_digits n z) as [Hall Hlen].
  destruct (fixed_digits_app _ rest 0%Z Hall) as [v Hv].
  rewrite Hlen in Hv. by rewrite Hv.
Qed.

Lemma pad_digits_first n z :
  exists c s, Date.pad_digits (S n) z = String c s /\ is_digit c = true.
Proof.
  destruct (pad_digits_digits (S n) z) as [Hall Hlen].
  destruct (Date.pad_digits (S n) z) as [|c s]; [done|].
  exists c, s. split; [done|]. simpl in Hall. by apply andb_prop in Hall as [? _].
Qed.

Lemma digit_not_sign c :
  is_digit c = true -> Ascii.eqb c "+"%char || Ascii.eqb c "-"%char = false.
Proof.
  intros Hc. apply orb_false_intro; apply Ascii.eqb_neq; intros ->; done.
Qed.

Lemma expect_cons c s : Date.expect c (String c s) = Some s.
Proof. simpl. by rewrite Ascii.eqb_refl. Qed.

Lemma skip_year_string y rest :
  skip_year (Date.year_string y +:+ rest) = Some rest.
Proof.
  unfold Date.year_string.
  destruct ((0 <=? y)%Z && (y <=? 9999)%Z).
  - destruct (pad_digits_first 3 y) as (c & s & Hs & Hc).
    unfold skip_year. rewrite Hs, string_app_cons, (digit_not_sign _ Hc).
    rewrite <- string_app_cons, <- Hs. apply skip_digits_pad.
  - destruct (y <? 0)%Z.
    + change (skip_digits 6 (Date.pad_digits 6 (- y) +:+ rest) = Some rest).
      apply skip_digits_pad.
    + change (skip_digits 6 (Date.pad_digits 6 y +:+ rest) = Some rest).
      apply skip_digits_pad.
Qed.

Lemma bind_Some {A B} (x : A) (f : A -> option B) : (Some x ≫= f) = f x.
Proof. reflexivity. Qed.

Lemma iso_string_shape t : is_iso_utc (Date.iso_string t) = true.
Proof.
  unfold Date.iso_string.
  destruct (Date.civil_from_days (t / Date.msPerDay)) as [[y m] d].
  unfold is_iso_utc.
  rewrite skip_year_string.
  repeat (rewrite bind_Some;
          first [ rewrite string_app_cons, string_app_nil, expect_cons
                | rewrite skip_digits_pad ]).
  reflexivity.
Qed.

Section Timestamps.
Context {R : Runtime}.

Lemma getTimestamp_now now ts :
  ts = None \/ ts = Some EmptyString ->
  getTimestamp now ts = ok (Date.iso_string now).
Proof. by intros [-> | ->]. Qed.

Lemma getTimestamp_given now s :
  s <> EmptyString ->
  getTimestamp now (Some s)
  = match Date.parse s with
    | Some t => ok (Date.iso_string t)
    | None => throw (RangeError "Invalid time value")
    end.
Proof.
  intros Hs. unfold getTimestamp. apply String.eqb_neq in Hs. rewrite Hs.
  simpl. by destruct (Date.parse s).
Qed.

Lemma getTimestamp_throws now ts :
  (exists e, getTimestamp now ts = throw e)
  <-> exists s, ts = Some s /\ s <> EmptyString /\ Date.parse s = None.
Proof.
  split.
  - intros [e He]. destruct ts as [s|]; [|done].
    destruct (decide (s = EmptyString)) as [->|Hs]; [done|].
    exists s. repeat split; [done|].
    rewrite (getTimestamp_given _ _ Hs) in He.
    by destruct (Date.parse s).
  - intros (s & -> & Hs & Hp). rewrite (getTimestamp_given _ _ Hs), Hp.
    by eexists.
Qed.

Lemma getTimestamp_shape now ts out :
  getTimestamp now ts = ok out -> is_iso_utc out = true.
Proof.
  destruct ts as [s|].
  - destruct (decide (s = EmptyString)) as [->|Hs].
    + intros [= <-]. apply iso_string_shape.
    + rewrite (getTimestamp_given _ _ Hs).
      destruct (Date.parse s); [|done]. intros [= <-]. apply iso_string_shape.
  - intros [= <-]. apply iso_string_shape.
Qed.

End Timestamps.

(** C8, as stated, fails: the empty string is present and is not a
    date, yet [getTimestamp] does not fail on it; it returns the current
    instant. *)
Lemma getTimestamp_empty_string_is_now :
  Date.parse (R := Example.runtime) EmptyString = None
  /\ getTimestamp (R := Example.runtime) 1705314600000 (Some EmptyString)
     = ok "2024-01-15T10:30:00.000Z".
Proof. split; reflexivity. Qed.

(** C8, amended: [getTimestamp] returns the current instant when the
    input is absent or the empty string, and reformats a non-empty
    parseable input; every result has the ISO-8601 shape with
    millisecond precision and the [Z] offset (["2024-01-15T10:30:00Z"]
    yields ["2024-01-15T10:30:00.000Z"]); it fails, with the error that
    [toISOString] raises on an invalid date, exactly when the input is a
    non-empty string that does not parse as a date. *)
Theorem getTimestamp_spec :
  forall (R : Runtime) (now : Z),
    getTimestamp now None = ok (Date.iso_string now)
    /\ getTimestamp now (Some EmptyString) = ok (Date.iso_string now)
    /\ (forall s t, s <> EmptyString -> Date.parse s = Some t ->
          getTimestamp now (Some s) = ok (Date.iso_string t))
    /\ (forall s, s <> EmptyString -> Date.parse s = None ->
          getTimestamp now (Some s) = throw (RangeError "Invalid time value"))
    /\ (forall ts,
          (exists e, getTimestamp now ts = throw e)
          <-> exists s, ts = Some s /\ s <> EmptyString /\ Date.parse s = None)
    /\ (forall ts out, getTimestamp now ts = ok out -> is_iso_utc out = true)
    /\ getTimestamp now (Some "2024-01-15T10:30:00Z")
       = ok "2024-01-15T10:30:00.000Z".
Proof.
  intros R now.
  split; [reflexivity|]. split; [reflexivity|].
  split.
  { intros s t Hs Hp. by rewrite (getTimestamp_given _ _ Hs), Hp. }
  split.
  { intros s Hs Hp. by rewrite (getTimestamp_given _ _ Hs), Hp. }
  split; [apply getTimestamp_throws|].
  split; [apply getTimestamp_shape|].
  reflexivity.
Qed.

(** ** Error normalisation *)

Import Transport.

Section ApiErrors.
Context {R : Runtime} {W : Type} {Hst : Host W}.

Lemma attentiveApiRequest_with_key method endpoint body query w key :
  apiKey w = Some key -> key <> EmptyString ->
  attentiveApiRequest method endpoint body query w
  = match helpers_request (request_options key method endpoint body query) w with
    | (inr response, w') => (ok response, w')
    | (inl error, w') =>
        (throw (NodeApiError (NodeApiError_message error) error), w')
    end.
Proof.
  intros Hk Hne. unfold attentiveApiRequest. rewrite Hk.
  apply String.eqb_neq in Hne. by rewrite Hne.
Qed.

Lemma attentiveApiRequest_no_key method endpoint body query w :
  apiKey w = None \/ apiKey w = Some EmptyString ->
  attentiveApiRequest method endpoint body query w
  = (throw (NodeOperationError "No API key provided"), w).
Proof. unfold attentiveApiRequest. by intros [-> | ->]. Qed.

Lemma number_is_distinct n c1 c2 :
  c1 <> c2 -> number_is n c1 = true -> number_is n c2 = false.
Proof.
  intros Hne H1. destruct n as [| |q]; try done. simpl in *.
  apply Qeq_bool_iff in H1. apply not_true_is_false. intros H2.
  apply Qeq_bool_iff in H2. rewrite H1 in H2. apply Hne.
  unfold Qeq, inject_Z in H2. simpl in H2. lia.
Qed.

Lemma status_is_distinct error c1 c2 :
  c1 <> c2 -> status_is error c1 = true -> status_is error c2 = false.
Proof.
  intros Hne. unfold status_is.
  destruct (prop "statusCode" error); try done.
  by apply number_is_distinct.
Qed.

Lemma handleApiError_message {L : Library} error :
  nullish error = false ->
  handleApiError error
  = throw (operation_error
      (if status_is error 400
       then VStr ("Bad Request: " +:+ ToString (raw_message error))
       else if status_is error 401 then VStr "Unauthorized: Invalid API key"
       else if status_is error 403
            then VStr "Forbidden: Insufficient permissions"
       else if status_is error 404
            then VStr "Not Found: Resource does not exist"
       else if status_is error 429
            then VStr "Rate Limited: Too many requests. Please try again later."
       else if status_is error 500
            then VStr "Server Error: Attentive API is experiencing issues"
       else raw_message error)).
Proof. intros Hn. unfold handleApiError. by rewrite Hn. Qed.

End ApiErrors.

(** C4, on the code: the claim does not hold of the transport.  A
    transport call whose request the HTTP helper rejects surfaces as the
    [NodeApiError] that wraps the upstream error object, with the
    message that class derives; [handleApiError] is not involved.  For an
    upstream 401 the outcome is that [NodeApiError] whatever message the
    class derives, while [handleApiError] on the same error object
    raises "Unauthorized: Invalid API key".  [handleApiError] itself
    does what the claim says of the classification: on an error object
    it never returns and raises an operation error built from
    "Bad Request: " followed by the raw message for status 400, from the
    fixed texts for 401, 403, 404, 429 and 500, and from the raw message
    for any other status, the raw message being the error's message, or
    "Unknown error occurred" when that is absent or empty; on an error
    that is [undefined] or [null] it throws a [TypeError]. *)
Theorem api_errors :
  (forall (W : Type) (Hst : Host W)
          method endpoint body query w key error w',
      apiKey w = Some key -> key <> EmptyString ->
      helpers_request (request_options key method endpoint body query) w
      = (inl error, w') ->
      attentiveApiRequest method endpoint body query w
      = (throw (NodeApiError (NodeApiError_message error) error), w'))
  /\ (forall message : string,
        attentiveApiRequest
          (Hst := Example.rejecting Example.error401 message)
          "GET" "/subscriptions" ONil ∅ tt
        = (throw (NodeApiError message Example.error401), tt))
  /\ (forall (R : Runtime) (L : Library),
        handleApiError Example.error401
        = throw (NodeOperationError "Unauthorized: Invalid API key"))
  /\ (forall (R : Runtime) (L : Library) (error : value),
        nullish error = false ->
        exists e,
          handleApiError error = throw e
          /\ (status_is error 400 = true ->
                e = NodeOperationError
                      ("Bad Request: " +:+ ToString (raw_message error)))
          /\ (status_is error 401 = true ->
                e = NodeOperationError "Unauthorized: Invalid API key")
          /\ (status_is error 403 = true ->
                e = NodeOperationError "Forbidden: Insufficient permissions")
          /\ (status_is error 404 = true ->
                e = NodeOperationError "Not Found: Resource does not exist")
          /\ (status_is error 429 = true ->
                e = NodeOperationError
                      "Rate Limited: Too many requests. Please try again later.")
          /\ (status_is error 500 = true ->
                e = NodeOperationError
                      "Server Error: Attentive API is experiencing issues")
          /\ ((forall code, code ∈ [400; 401; 403; 404; 429; 500]%Z ->
                 status_is error code = false) ->
                e = operation_error (raw_message error)))
  /\ (forall (R : Runtime) (L : Library) (error : value),
        nullish error = true ->
        exists message, handleApiError error = throw (TypeError message))
  /\ (forall (L : Library) (s : string),
        operation_error (VStr s) = NodeOperationError s)
  /\ (forall error s, prop "message" error = VStr s -> s <> EmptyString ->
        raw_message error = VStr s)
  /\ (forall error, truthy (prop "message" error) = false ->
        raw_message error = VStr "Unknown error occurred")
  /\ (forall error code, prop "statusCode" error = num code ->
        status_is error code = true).
Proof.
  split.
  { intros W Hst method endpoint body query w key error w' Hk Hne Hreq.
    by rewrite (attentiveApiRequest_with_key _ _ _ _ _ _ Hk Hne), Hreq. }
  split; [done|]. split; [done|].
  split.
  { intros R L error Hn. eexists. split; [by apply handleApiError_message|].
    assert (Hsel : forall c, status_is error c = true ->
              forall c', c' <> c -> status_is error c' = false).
    { intros c Hc c' Hne. by apply (status_is_distinct error c c'). }
    repeat split; try (intros H1; pose proof (Hsel _ H1) as Ho;
      rewrite ?H1, ?Ho by lia; rewrite ?H1; reflexivity).
    intros Hnone. rewrite !Hnone; [done|..]; set_solver. }
  split.
  { intros R L error Hn. unfold handleApiError. rewrite Hn. by eexists. }
  split; [done|].
  split.
  { intros error s Hm Hs. unfold raw_message, or_else. rewrite Hm. simpl.
    apply String.eqb_neq in Hs. by rewrite Hs. }
  split.
  { intros error Hf. unfold raw_message, or_else. by rewrite Hf. }
  intros error code Hc. unfold status_is. rewrite Hc. simpl.
  apply Qeq_bool_iff. reflexivity.
Qed.

(** ** The dispatch loop *)

Section Dispatcher.
Context {W : Type}.
Implicit Types (run : nat -> W -> result (list Node.INodeExecutionData) * W).
Implicit Types (log : list (nat * result (list Node.INodeExecutionData))).

Lemma execute_loop_recorded_S run c n i acc w log :
  Node.execute_loop (Node.recorded run) c (S n) i acc (w, log)
  = match run i w with
    | (inr rs, w1) =>
        Node.execute_loop (Node.recorded run) c n (S i) (acc ++ rs)
                          (w1, log ++ [(i, inr rs)])
    | (inl e, w1) =>
        if c
        then Node.execute_loop (Node.recorded run) c n (S i)
                               (acc ++ [Node.error_item e i])
                               (w1, log ++ [(i, inl e)])
        else (throw e, (w1, log ++ [(i, inl e)]))
    end.
Proof.
  simpl. unfold Node.recorded at 1. simpl.
  by destruct (run i w) as [[e|rs] w1].
Qed.

(** Recording does not change what the loop computes. *)
Lemma execute_loop_recorded run c n i acc w log :
  exists log',
    Node.execute_loop (Node.recorded run) c n i acc (w, log)
    = ((Node.execute_loop run c n i acc w).1,
       ((Node.execute_loop run c n i acc w).2, log')).
Proof.
  revert i acc w log. induction n as [|n IH]; intros i acc w log.
  - by eexists.
  - rewrite execute_loop_recorded_S. simpl.
    destruct (run i w) as [[e|rs] w1]; simpl.
    + destruct c; [apply IH|by eexists].
    + apply IH.
Qed.

Lemma execute_loop_continue run n i acc w log :
  exists w' log',
    Node.execute_loop (Node.recorded run) true n i acc (w, log)
    = (ok (acc ++ flat_map Node.contribution log'), (w', log ++ log'))
    /\ log'.*1 = seq i n.
Proof.
  revert i acc w log. induction n as [|n IH]; intros i acc w log.
  - exists w, []. simpl. by rewrite !app_nil_r.
  - rewrite execute_loop_recorded_S. destruct (run i w) as [[e|rs] w1].
    + destruct (IH (S i) (acc ++ [Node.error_item e i]) w1
                   (log ++ [(i, inl e)])) as (w' & log' & Hrun & Hlog).
      exists w', ((i, inl e) :: log'). rewrite Hrun, fmap_cons, Hlog.
      split; [|done]. rewrite <- !app_assoc. reflexivity.
    + destruct (IH (S i) (acc ++ rs) w1 (log ++ [(i, inr rs)]))
        as (w' & log' & Hrun & Hlog).
      exists w', ((i, inr rs) :: log'). rewrite Hrun, fmap_cons, Hlog.
      split; [|done]. rewrite <- !app_assoc. reflexivity.
Qed.

Lemma execute_loop_abort run n i acc w log :
  exists w' log',
    (Node.execute_loop (Node.recorded run) false n i acc (w, log)
     = (ok (acc ++ flat_map Node.contribution log'), (w', log ++ log'))
     /\ log'.*1 = seq i n
     /\ forallb Node.succeeded log' = true)
    \/ (exists k e,
          (k < n)%nat
          /\ Node.execute_loop (Node.recorded run) false n i acc (w, log)
             = (throw e, (w', log ++ log'))
          /\ log'.*1 = seq i (S k)
          /\ log' !! k = Some ((i + k)%nat, inl e)
          /\ forallb Node.succeeded (take k log') = true).
Proof.
  revert i acc w log. induction n as [|n IH]; intros i acc w log.
  - exists w, []. left. simpl. by rewrite !app_nil_r.
  - rewrite execute_loop_recorded_S. destruct (run i w) as [[e|rs] w1].
    + exists w1, [(i, inl e)]. right. exists O, e.
      rewrite Nat.add_0_r. repeat split; [lia|reflexivity..].
    + destruct (IH (S i) (acc ++ rs) w1 (log ++ [(i, inr rs)]))
        as (w' & log' & [(Hrun & Hlog & Hall)
                        |(k & e & Hk & Hrun & Hlog & He & Hall)]).
      * exists w', ((i, inr rs) :: log'). left.
        rewrite Hrun, fmap_cons, Hlog. repeat split.
        -- by rewrite <- !app_assoc.
        -- exact Hall.
      * exists w', ((i, inr rs) :: log'). right. exists (S k), e.
        rewrite Hrun, fmap_cons, Hlog. repeat split.
        -- lia.
        -- by rewrite <- !app_assoc.
        -- simpl. rewrite He. replace (S i + k)%nat with (i + S k)%nat by lia.
           reflexivity.
        -- exact Hall.
Qed.

End Dispatcher.

(** C2: in the dispatch loop of [execute], run over a batch with every
    item execution recorded: with continue-on-fail enabled every item is
    processed, in order, an item whose execution raises contributes
    exactly one error record holding the failure message and tagged with
    that item's index, and the batch does not raise; with it disabled,
    either no item raises, or the first failure is re-raised and no
    later item is processed. *)
Theorem execute_continue_on_fail :
  forall (W : Type) (Act : Node.Actions W) (resource operation : string)
         (items : list value) (w : W),
    let run := Node.dispatch resource operation in
    let n := length items in
    (forall i e,
        Node.contribution (i, inl e)
        = [ {| Node.json := VObj (OCons "error" (VStr (Exn_message e)) ONil);
               Node.pairedItem := Some i |} ])
    /\ (forall i rs, Node.contribution (i, inr rs) = rs)
    /\ (exists w' log,
          Node.execute_loop (Node.recorded run) true n 0 [] (w, [])
          = (ok (flat_map Node.contribution log), (w', log))
          /\ log.*1 = seq 0 n
          /\ Node.execute true resource operation items w
             = (ok [flat_map Node.contribution log], w'))
    /\ (exists w' log,
          (Node.execute_loop (Node.recorded run) false n 0 [] (w, [])
           = (ok (flat_map Node.contribution log), (w', log))
           /\ log.*1 = seq 0 n
           /\ forallb Node.succeeded log = true
           /\ Node.execute false resource operation items w
              = (ok [flat_map Node.contribution log], w'))
          \/ (exists k e,
                (k < n)%nat
                /\ Node.execute_loop (Node.recorded run) false n 0 [] (w, [])
                   = (throw e, (w', log))
                /\ log.*1 = seq 0 (S k)
                /\ log !! k = Some (k, inl e)
                /\ forallb Node.succeeded (take k log) = true
                /\ Node.execute false resource operation items w
                   = (throw e, w'))).
Proof.
  intros W Act resource operation items w run n.
  split; [done|]. split; [done|]. split.
  - destruct (execute_loop_continue run n 0 [] w []) as (w' & log & Hrun & Hlog).
    exists w', log. simpl in Hrun. repeat split; [done..|].
    destruct (execute_loop_recorded run true n 0 [] w []) as [log' Hrec].
    rewrite Hrun in Hrec. unfold Node.execute. fold run. fold n.
    destruct (Node.execute_loop run true n 0 [] w) as [r w2].
    simpl in Hrec. by injection Hrec as <- <- _.
  - destruct (execute_loop_recorded run false n 0 [] w []) as [log' Hrec].
    destruct (execute_loop_abort run n 0 [] w [])
      as (w' & log & [(Hrun & Hlog & Hall)|(k & e & Hk & Hrun & Hlog & He & Hall)]);
      exists w', log; simpl in Hrun; rewrite Hrun in Hrec;
      unfold Node.execute; fold run; fold n;
      destruct (Node.execute_loop run false n 0 [] w) as [r w2];
      simpl in Hrec; injection Hrec as <- <- _.
    + left. done.
    + right. exists k, e. done.
Qed.

(** ** Pagination *)

Section Pagination.
Context {R : Runtime} {W : Type}.
Variable send : gmap string value -> W -> result value * W.
Variable dataKey : string.
Implicit Types (query : gmap string value).
Implicit Types (log : list (gmap string value * result value)).

Lemma pages_recorded_S rem offset acc query w log :
  pages (recorded send) dataKey (S rem) offset acc query (w, log)
  = let query' := <["offset" := num offset]> query in
    match send query' w with
    | (inl e, w1) => (throw e, query', (w1, log ++ [(query', inl e)]))
    | (inr responseData, w1) =>
        let log1 := log ++ [(query', inr responseData)] in
        if nullish responseData
        then (throw (TypeError (cannot_read responseData dataKey)),
              query', (w1, log1))
        else
          let acc' := push_items dataKey responseData acc in
          if should_stop (meta_total responseData) (length acc')
          then (ok acc', query', (w1, log1))
          else pages (recorded send) dataKey rem (offset + limit) acc' query'
                     (w1, log1)
    end.
Proof.
  simpl. unfold recorded at 1. simpl.
  by destruct (send (<["offset" := num offset]> query) w) as [[e|r] w1].
Qed.

Lemma page_query_next query k :
  <["offset" := num (limit * Z.of_nat (S k))]> (page_query query k)
  = page_query query (S k).
Proof. unfold page_query. by rewrite insert_insert_eq. Qed.

(** The recorded run follows [Trace], leaves the query of its last
    round, and computes what the unrecorded run computes. *)
Lemma pages_Trace query rem k acc current w log :
  <["offset" := num (limit * Z.of_nat k)]> current = page_query query k ->
  exists res final w' log',
    pages (recorded send) dataKey rem (limit * Z.of_nat k) acc current (w, log)
    = (res, final, (w', log ++ log'))
    /\ pages send dataKey rem (limit * Z.of_nat k) acc current w
       = (res, final, w')
    /\ Trace dataKey query rem k acc log' res
    /\ final = match rem with
               | O => current
               | S _ => page_query query (k + length log' - 1)
               end.
Proof.
  revert k acc current w log.
  induction rem as [|rem IH]; intros k acc current w log Hcur.
  - exists (ok acc), current, w, []. rewrite app_nil_r.
    repeat split. constructor.
  - rewrite pages_recorded_S. simpl. rewrite Hcur.
    destruct (send (page_query query k) w) as [[e|resp] w1].
    + exists (throw e), (page_query query k), w1, [(page_query query k, inl e)].
      repeat split; [constructor|]. simpl. f_equal. lia.
    + destruct (nullish resp) eqn:Hnull.
      * eexists _, (page_query query k), w1, [(page_query query k, inr resp)].
        repeat split; [by constructor|]. simpl. f_equal. lia.
      * destruct (should_stop (meta_total resp)
                    (length (push_items dataKey resp acc))) eqn:Hstop.
        -- eexists _, (page_query query k), w1, [(page_query query k, inr resp)].
           repeat split; [by constructor|]. simpl. f_equal. lia.
        -- replace (limit * Z.of_nat k + limit)%Z
             with (limit * Z.of_nat (S k))%Z by lia.
           destruct (IH (S k) (push_items dataKey resp acc)
                        (page_query query k) w1
                        (log ++ [(page_query query k, inr resp)])
                        (page_query_next query k))
             as (res & final & w' & log' & Hrec & Hrun & Htrace & Hfinal).
           exists res, final, w', ((page_query query k, inr resp) :: log').
           rewrite Hrec, Hrun, <- app_assoc. repeat split; [by constructor|].
           rewrite Hfinal. destruct rem as [|rem].
           ++ inversion Htrace; subst. simpl. f_equal. lia.
           ++ simpl. f_equal. lia.
Qed.

Lemma Trace_queries query rem k acc log res :
  Trace dataKey query rem k acc log res ->
  log.*1 = page_query query <$> seq k (length log).
Proof.
  induction 1 as [| | | |rem k acc resp log res Hn Hs Ht IH]; try done.
  cbn [length seq]. by rewrite !fmap_cons, IH.
Qed.

Lemma Trace_length query rem k acc log res :
  Trace dataKey query rem k acc log res ->
  (length log <= rem)%nat /\ (rem = O \/ 1 <= length log)%nat.
Proof.
  induction 1 as [| | | |rem k acc resp log res Hn Hs Ht IH]; simpl;
    try (split; [lia|]; (by left) || (right; lia)).
Qed.





End Pagination.

Section StopCondition.
Context {R : Runtime}.

Lemma should_stop_iff total len :
  should_stop total len = true
  <-> truthy total = false \/ length_ge len total = true.
Proof.
  unfold should_stop. rewrite orb_true_iff, negb_true_iff. tauto.
Qed.

Lemma should_stop_reached (t : Z) len :
  (t <= Z.of_nat len)%Z -> should_stop (num t) len = true.
Proof.
  intros Ht. apply should_stop_iff. right. unfold length_ge. simpl.
  apply Qle_bool_iff. unfold Qle. simpl. lia.
Qed.

Lemma should_stop_short (t : Z) len :
  (Z.of_nat len < t)%Z -> should_stop (num t) len = false.
Proof.
  intros Ht. unfold should_stop, length_ge. simpl.
  apply orb_false_intro.
  - apply negb_false_iff, negb_true_iff, not_true_is_false.
    intros Hq%Qeq_bool_iff. unfold Qeq in Hq. simpl in Hq. lia.
  - apply not_true_is_false. intros Hq%Qle_bool_iff.
    unfold Qle in Hq. simpl in Hq. lia.
Qed.


End StopCondition.

Lemma page_query_lookup query k :
  page_query query k !! "limit" = Some (num 100)
  /\ page_query query k !! "offset" = Some (num (100 * Z.of_nat k))
  /\ forall key, key <> "limit" -> key <> "offset" ->
       page_query query k !! key = query !! key.
Proof.
  unfold page_query. repeat split.
  - rewrite lookup_insert_ne by done. by rewrite lookup_insert_eq.
  - by rewrite lookup_insert_eq.
  - intros key Hl Ho. by rewrite !lookup_insert_ne by done.
Qed.


(** ** The caller's query object *)

Section QueryMutation.
Context {R : Runtime} {W : Type}.
Variable send : gmap string value -> W -> result value * W.
Variable dataKey : string.

(** A round reads the query only after writing its offset into it. *)
Lemma pages_offset_overwritten rem offset acc (q1 q2 : gmap string value) w :
  <["offset" := num offset]> q1 = <["offset" := num offset]> q2 ->
  pages send dataKey (S rem) offset acc q1 w
  = pages send dataKey (S rem) offset acc q2 w.
Proof. intros Heq. simpl. by rewrite Heq. Qed.

Lemma paginate_discards (query : gmap string value) x y w :
  paginate send dataKey (<["limit" := x]> (<["offset" := y]> query)) w
  = paginate send dataKey query w.
Proof.
  unfold paginate, maxIterations. apply pages_offset_overwritten.
  apply map_eq. intros key. rewrite !lookup_insert.
  repeat case_decide; congruence.
Qed.

End QueryMutation.

(** C10: [attentiveApiRequestAllItems] works on the caller's query
    object itself: it writes [limit = 100] into it before the first
    request and overwrites its [offset] at every round, so each request
    carries limit 100 and the round's offset whatever limit or offset the
    caller had put there, and after the call the caller's object holds
    limit 100 and the offset of the last round, its other entries being
    untouched. *)
Theorem attentiveApiRequestAllItems_mutates_query :
  forall (R : Runtime),
    (forall (W : Type) (Hst : Host W) (method endpoint : string) (body : obj)
            (query : gmap string value) (dataKey : string) (w : W),
        (exists res final w' log,
            attentiveApiRequestAllItems method endpoint body query dataKey w
            = (res, final, w')
            /\ paginate (recorded (attentiveApiRequest method endpoint body))
                 dataKey query (w, [])
               = (res, final, (w', log))
            /\ (1 <= length log)%nat
            /\ log.*1 = page_query query <$> seq 0 (length log)
            /\ Forall (fun q => q !! "limit" = Some (num 100)) log.*1
            /\ final = page_query query (length log - 1)
            /\ final !! "limit" = Some (num 100)
            /\ final !! "offset"
               = Some (num (100 * Z.of_nat (length log - 1)))
            /\ (forall key, key <> "limit" -> key <> "offset" ->
                  final !! key = query !! key))
        /\ (forall x y,
              attentiveApiRequestAllItems method endpoint body
                (<["limit" := x]> (<["offset" := y]> query)) dataKey w
              = attentiveApiRequestAllItems method endpoint body
                  query dataKey w))
    /\ (exists res received final,
          attentiveApiRequestAllItems (Hst := Example.paged 250)
            "GET" "/segments" ONil Example.caller_query "data" []
          = (res, final, received)
          /\ Example.caller_query !! "limit" = Some (num 5)
          /\ Example.caller_query !! "offset" = Some (num 7)
          /\ final !! "limit" = Some (num 100)
          /\ final !! "offset" = Some (num 200)
          /\ final !! "status" = Some (VStr "active")
          /\ (fun o => qs o !! "offset") <$> received
             = [Some (num 0); Some (num 100); Some (num 200)]).
Proof.
  intros R. split.
  { intros W Hst method endpoint body query dataKey w. split.
    - set (send := attentiveApiRequest method endpoint body).
      destruct (pages_Trace send dataKey query maxIterations 0 []
                  (<["limit" := num limit]> query) w [] eq_refl)
        as (res & final & w' & log & Hrec & Hrun & Htrace & Hfinal).
      exists res, final, w', log.
      split; [exact Hrun|]. split; [exact Hrec|].
      destruct (Trace_length _ _ _ _ _ _ _ Htrace) as [Hle [Hz|Hge]];
        [done|].
      split; [done|].
      pose proof (Trace_queries _ _ _ _ _ _ _ Htrace) as Hq.
      split; [done|]. split.
      { rewrite Hq. apply Forall_fmap, Forall_forall. intros k _.
        by destruct (page_query_lookup query k) as (? & _). }
      simpl in Hfinal. subst final.
      destruct (page_query_lookup query (length log - 1)) as (Hl & Ho & Hk).
      by repeat split.
    - intros x y. apply paginate_discards. }
  eexists _, _, _. split; [vm_compute; reflexivity|].
  repeat split; vm_compute; reflexivity.
Qed.

(** * Further properties of the code *)

(** ** Phone numbers that are already valid, or nearly *)

Lemma is_plus_eq c : is_plus c = true -> c = "+"%char.
Proof. unfold is_plus. apply Ascii.eqb_eq. Qed.

Lemma nonzero_digit_is_digit c : is_nonzero_digit c = true -> is_digit c = true.
Proof.
  unfold is_nonzero_digit, is_digit. intros [H1 H2]%andb_prop.
  apply Nat.leb_le in H1. rewrite H2, andb_true_r. apply Nat.leb_le. lia.
Qed.

Lemma digits_are_phone_chars s :
  all_chars is_digit s = true -> all_chars phone_char s = true.
Proof.
  induction s as [|c s IH]; simpl; [done|].
  intros [Hc Hs]%andb_prop. unfold phone_char at 1. by rewrite Hc, IH.
Qed.

Lemma digit_is_not_plus c : is_digit c = true -> is_plus c = false.
Proof.
  intros Hc. unfold is_plus. apply Ascii.eqb_neq. by intros ->.
Qed.

Lemma isValidE164_inv s :
  isValidE164 s = true ->
  exists d rest,
    s = String "+" (String d rest)
    /\ is_nonzero_digit d = true
    /\ all_chars is_digit rest = true
    /\ (1 <= String.length rest <= 14)%nat.
Proof.
  destruct s as [|p [|d rest]]; try done.
  intros H. cbv beta iota delta [isValidE164] in H.
  apply andb_prop in H as [[[[Hp Hd]%andb_prop Hr]%andb_prop Hl1]%andb_prop Hl2].
  apply is_plus_eq in Hp as ->. exists d, rest.
  apply Nat.leb_le in Hl1, Hl2. by repeat split.
Qed.

Lemma requirePhone_unfold raw :
  requirePhone raw
  = if isValidE164 (formatPhoneNumber raw)
    then ok (formatPhoneNumber raw)
    else throw (NodeOperationError
                  (invalid_phone_message (formatPhoneNumber raw))).
Proof.
  unfold requirePhone.
  rewrite validatePhoneNumber_unfold, formatPhoneNumber_idem.
  by destruct (isValidE164 _).
Qed.

(** X1: a string that passes [isValidE164] is a '+' followed by 2 to 15
    digits, the first not 0; normalisation leaves it unchanged and phone
    validation accepts it as it is. *)
Theorem isValidE164_fixed :
  forall s : string,
    isValidE164 s = true ->
    (exists d rest,
        s = String "+" (String d rest)
        /\ is_nonzero_digit d = true
        /\ all_chars is_digit rest = true
        /\ (1 <= String.length rest <= 14)%nat)
    /\ formatPhoneNumber s = s
    /\ validatePhoneNumber s = ok tt
    /\ requirePhone s = ok s.
Proof.
  intros s Hv. pose proof (isValidE164_inv s Hv) as Hinv.
  split; [exact Hinv|].
  destruct Hinv as (d & rest & -> & Hd & Hr & Hlen).
  assert (Hf : formatPhoneNumber (String "+" (String d rest))
               = String "+" (String d rest)).
  { apply formatPhoneNumber_fixed; [done|].
    change (phone_char "+" && (phone_char d && all_chars phone_char rest) = true).
    rewrite (digits_are_phone_chars rest Hr), andb_true_r.
    unfold phone_char at 2. by rewrite (nonzero_digit_is_digit d Hd). }
  split; [exact Hf|].
  split.
  - rewrite validatePhoneNumber_unfold, Hf. by rewrite Hv.
  - rewrite requirePhone_unfold, Hf. by rewrite Hv.
Qed.

Lemma isValidE164_fixed_witness :
  isValidE164 "+19148440001" = true
  /\ requirePhone "+19148440001" = ok "+19148440001".
Proof.
  split; [reflexivity|].
  apply (isValidE164_fixed "+19148440001"). reflexivity.
Defined.

(** X2: whatever phone validation lets through is valid E.164: the
    phone an operation goes on with is the normalised input, passes
    [isValidE164], and is unchanged by a further normalisation; the empty
    input is never let through. *)
Theorem requirePhone_accepts_only_E164 :
  forall raw phone : string,
    requirePhone raw = ok phone ->
    isValidE164 phone = true
    /\ phone = formatPhoneNumber raw
    /\ formatPhoneNumber phone = phone
    /\ raw <> EmptyString.
Proof.
  intros raw phone. rewrite requirePhone_unfold.
  destruct (isValidE164 (formatPhoneNumber raw)) eqn:Hv; [|done].
  intros [= <-]. repeat split; [done|apply formatPhoneNumber_idem|].
  intros ->. done.
Qed.

Lemma requirePhone_accepts_only_E164_witness :
  requirePhone "1-914-844-0001" = ok "+19148440001"
  /\ isValidE164 "+19148440001" = true.
Proof.
  split; [reflexivity|].
  apply (requirePhone_accepts_only_E164 "1-914-844-0001" "+19148440001").
  reflexivity.
Defined.

Lemma keep_chars_app p (s1 s2 : string) :
  keep_chars p (s1 +:+ s2) = keep_chars p s1 +:+ keep_chars p s2.
Proof.
  induction s1 as [|c s1 IH]; [done|].
  rewrite string_app_cons. simpl. destruct (p c); [|done].
  by rewrite string_app_cons, IH.
Qed.

Lemma string_app_empty (s1 s2 : string) :
  s1 +:+ s2 = EmptyString -> s1 = EmptyString /\ s2 = EmptyString.
Proof. destruct s1; [done|]. by rewrite string_app_cons. Qed.

(** X3: a character that is neither a digit nor '+' (a space, a dash, a
    bracket) has no influence wherever it stands in a phone number that
    has other characters: the normalised form, and so the outcome of
    phone validation, is the same with and without it. *)
Theorem formatPhoneNumber_ignores_separators :
  forall (s1 s2 : string) (c : ascii),
    phone_char c = false ->
    s1 +:+ s2 <> EmptyString ->
    formatPhoneNumber (s1 +:+ String c s2) = formatPhoneNumber (s1 +:+ s2)
    /\ requirePhone (s1 +:+ String c s2) = requirePhone (s1 +:+ s2).
Proof.
  intros s1 s2 c Hc Hne.
  assert (Hf : formatPhoneNumber (s1 +:+ String c s2)
               = formatPhoneNumber (s1 +:+ s2)).
  { unfold formatPhoneNumber. fold phone_char.
    assert (H1 : String.eqb (s1 +:+ String c s2) EmptyString = false).
    { apply String.eqb_neq. by intros [_ ?]%string_app_empty. }
    apply String.eqb_neq in Hne. rewrite H1, Hne, !keep_chars_app.
    simpl. by rewrite Hc. }
  split; [exact Hf|]. by rewrite !requirePhone_unfold, Hf.
Qed.

Lemma formatPhoneNumber_ignores_separators_witness :
  formatPhoneNumber "1-914" = formatPhoneNumber "1914".
Proof.
  apply (formatPhoneNumber_ignores_separators "1" "914" "-"); done.
Defined.

(** X4: a number typed as digits only, 2 to 15 of them and the first
    not 0, is accepted and sent with a '+' put in front. *)
Theorem requirePhone_digits_only :
  forall (d : ascii) (rest : string),
    is_nonzero_digit d = true ->
    all_chars is_digit rest = true ->
    (1 <= String.length rest <= 14)%nat ->
    requirePhone (String d rest) = ok (String "+" (String d rest)).
Proof.
  intros d rest Hd Hr Hlen.
  pose proof (nonzero_digit_is_digit d Hd) as Hdd.
  assert (Hf : formatPhoneNumber (String d rest) = String "+" (String d rest)).
  { unfold formatPhoneNumber. fold phone_char.
    rewrite (keep_chars_id phone_char (String d rest)).
    - pose proof (digit_is_not_plus d Hdd) as Hp. unfold is_plus in Hp.
      simpl. by rewrite Hp.
    - change (phone_char d && all_chars phone_char rest = true).
      unfold phone_char at 1. by rewrite Hdd, (digits_are_phone_chars _ Hr). }
  rewrite requirePhone_unfold, Hf.
  assert (Hv : isValidE164 (String "+" (String d rest)) = true).
  { cbv beta iota delta [isValidE164]. rewrite Hd, Hr.
    replace (1 <=? String.length rest)%nat with true
      by (symmetry; apply Nat.leb_le; lia).
    replace (String.length rest <=? 14)%nat with true
      by (symmetry; apply Nat.leb_le; lia).
    reflexivity. }
  by rewrite Hv.
Qed.

Lemma requirePhone_digits_only_witness :
  requirePhone "19148440001" = ok "+19148440001".
Proof.
  apply (requirePhone_digits_only "1" "9148440001"); [reflexivity..|].
  simpl. lia.
Defined.

(** ** Custom attributes *)

Import Shaping.

Section CustomAttributes.
Context {R : Runtime}.

Lemma get_assign k k' v o :
  k' <> "__proto__" ->
  get k' (assign k v o) = if String.eqb k k' then v else get k' o.
Proof.
  intros Hproto. unfold assign.
  destruct (String.eqb k "__proto__") eqn:Hk.
  - apply String.eqb_eq in Hk as ->.
    apply not_eq_sym, String.eqb_neq in Hproto. by rewrite Hproto.
  - destruct (String.eqb k k') eqn:He.
    + apply String.eqb_eq in He as ->. apply get_set_eq.
    + apply String.eqb_neq in He. by apply get_set_ne.
Qed.

Lemma parseCustomAttributes_loop_lookup items attributes :
  Forall (fun item => nullish item = false) items ->
  exists attrs,
    parseCustomAttributes_loop items attributes = ok attrs
    /\ forall k, k <> "__proto__" ->
         get k attrs
         = foldl (fun found item =>
                    if truthy (prop "key" item) && defined (prop "value" item)
                       && String.eqb (ToString (prop "key" item)) k
                    then prop "value" item else found)
                 (get k attributes) items.
Proof.
  intros Hall. revert attributes.
  induction Hall as [|item items Hitem _ IH]; intros attributes; simpl.
  - by exists attributes.
  - rewrite Hitem. destruct (IH (add_attribute item attributes))
      as (attrs & -> & Hget).
    exists attrs. split; [done|]. intros k Hk. rewrite (Hget k Hk). f_equal.
    unfold add_attribute.
    destruct (truthy (prop "key" item) && defined (prop "value" item)); [|done].
    simpl. by rewrite get_assign.
Qed.

Lemma parseCustomAttributes_loop_throws items attributes :
  Exists (fun item => nullish item = true) items ->
  exists message,
    parseCustomAttributes_loop items attributes = throw (TypeError message).
Proof.
  intros Hex. revert attributes.
  induction items as [|item items IH]; intros attributes.
  - by apply Exists_nil in Hex.
  - simpl. destruct (nullish item) eqn:Hn; [by eexists|].
    apply IH. apply Exists_cons in Hex as [Hex|Hex]; [congruence|done].
Qed.

End CustomAttributes.

(** X5: [parseCustomAttributes] on a list of items none of which is
    [undefined] or [null] yields a mapping in which a key holds the
    value of the last item naming it, among the items whose key is
    truthy and whose value is not [undefined] (a [null] or empty value
    counts); a key no such item names is absent. *)
Theorem parseCustomAttributes_last_wins :
  forall (R : Runtime) (o : obj) (items : list value),
    get "attributes" o = VArr items ->
    Forall (fun item => nullish item = false) items ->
    exists attrs,
      parseCustomAttributes (VObj o) = ok attrs
      /\ forall k, k <> "__proto__" -> get k attrs = last_binding k items.
Proof.
  intros R o items Hitems Hall. unfold parseCustomAttributes. simpl.
  rewrite Hitems.
  destruct (parseCustomAttributes_loop_lookup items ONil Hall)
    as (attrs & Hrun & Hget).
  exists attrs. split; [done|]. intros k Hk. by rewrite (Hget k Hk).
Qed.

Lemma parseCustomAttributes_last_wins_witness :
  exists attrs,
    parseCustomAttributes (R := Example.runtime)
      (VObj (OCons "attributes"
               (VArr [VObj (OCons "key" (VStr "tier") (OCons "value" (VStr "gold") ONil));
                      VObj (OCons "key" (VStr "tier") (OCons "value" VNull ONil));
                      VObj (OCons "key" (VStr "city") ONil)]) ONil))
    = ok attrs
    /\ get "tier" attrs = VNull /\ get "city" attrs = VUndefined.
Proof.
  destruct (parseCustomAttributes_last_wins Example.runtime
              (OCons "attributes"
                 (VArr [VObj (OCons "key" (VStr "tier") (OCons "value" (VStr "gold") ONil));
                        VObj (OCons "key" (VStr "tier") (OCons "value" VNull ONil));
                        VObj (OCons "key" (VStr "city") ONil)]) ONil)
              _ eq_refl) as (attrs & Hrun & Hget).
  - repeat constructor.
  - exists attrs. split; [exact Hrun|].
    split; [apply (Hget "tier")|apply (Hget "city")]; done.
Defined.

(** X6: [parseCustomAttributes] returns the empty mapping for a falsy
    input and for an input whose [attributes] is not a list, and throws
    a [TypeError], returning nothing of what it had gathered, as soon as
    the list holds an item that is [undefined] or [null]. *)
Theorem parseCustomAttributes_edges :
  forall (R : Runtime),
    (forall input, truthy input = false -> parseCustomAttributes input = ok ONil)
    /\ (forall input, isArray (prop "attributes" input) = false ->
          parseCustomAttributes input = ok ONil)
    /\ (forall o items,
          get "attributes" o = VArr items ->
          Exists (fun item => nullish item = true) items ->
          exists message,
            parseCustomAttributes (VObj o) = throw (TypeError message)).
Proof.
  intros R. repeat split.
  - intros input Hf. unfold parseCustomAttributes. by rewrite Hf.
  - intros input Ha. unfold parseCustomAttributes.
    destruct (truthy input); [|done]. simpl.
    by destruct (prop "attributes" input).
  - intros o items Hitems Hex. unfold parseCustomAttributes. simpl.
    rewrite Hitems. by apply parseCustomAttributes_loop_throws.
Qed.

(** ** Product items, continued *)

Section ProductItemsMore.
Context {R : Runtime}.

Lemma number_or_truthy n (d : Z) :
  d <> 0%Z -> number_truthy (number_or n d) = true.
Proof.
  intros Hd. unfold number_or. destruct (number_truthy n) eqn:Hn; [done|].
  simpl. apply negb_true_iff, not_true_is_false.
  intros Hq%Qeq_bool_iff. unfold Qeq in Hq. simpl in Hq. lia.
Qed.

Lemma number_or_not_NaN n (d : Z) : number_or n d <> NaN.
Proof.
  unfold number_or. destruct (number_truthy n) eqn:Hn; [|done].
  intros ->. done.
Qed.

Lemma parseProductItem_nullish item :
  nullish item = true ->
  parseProductItem item = throw (TypeError (cannot_read item "productId")).
Proof. by destruct item. Qed.

Lemma parseProductItems_loop_total l :
  Forall (fun item => nullish item = false) l ->
  exists outs, parseProductItems_loop l [] = ok outs
               /\ Forall2 (fun item out => parseProductItem item = ok out) l outs.
Proof.
  induction 1 as [|item l Hitem _ (outs & Hrun & Hall)].
  - exists []. split; [done|constructor].
  - destruct (parseProductItem_fields item) as (p & Hp & _).
    { by intros ->. } { by intros ->. }
    exists (VObj p :: outs). simpl. rewrite Hp.
    rewrite parseProductItems_loop_app, Hrun. split; [done|].
    by constructor.
Qed.

End ProductItemsMore.

(** X7: when no raw item is [undefined] or [null], [parseProductItems]
    succeeds with exactly one line item per raw item, and in every line
    item the quantity is a number that is neither 0 nor [NaN] and the
    price value is never [NaN], whatever the raw fields held. *)
Theorem parseProductItems_well_formed :
  forall (R : Runtime) (o : obj) (l : list value),
    get "items" o = VArr l ->
    Forall (fun item => nullish item = false) l ->
    exists outs,
      parseProductItems (VObj o) = ok outs
      /\ length outs = length l
      /\ Forall (fun out =>
           exists productItem quantity price currency,
             out = VObj productItem
             /\ get "quantity" productItem = VNum quantity
             /\ number_truthy quantity = true
             /\ get "price" productItem
                = VObj (OCons "value" (VNum price)
                          (OCons "currency" currency ONil))
             /\ price <> NaN
             /\ truthy currency = true) outs.
Proof.
  intros R o l Hitems Hall. unfold parseProductItems. simpl. rewrite Hitems.
  destruct (parseProductItems_loop_total l Hall) as (outs & Hrun & Hmap).
  exists outs. split; [done|]. split; [symmetry; by eapply Forall2_length|].
  clear Hrun Hitems.
  induction Hmap as [|item out l outs Hout _ IH]; [constructor|].
  apply Forall_cons in Hall as [Hitem Hall]. constructor; [|by apply IH].
  destruct (parseProductItem_fields item)
    as (p & Hp & _ & _ & Hprice & Hq & _).
  { by intros ->. } { by intros ->. }
  rewrite Hp in Hout. injection Hout as <-.
  eexists p, _, _, _. split; [done|]. split; [exact Hq|].
  split; [by apply number_or_truthy|]. split; [exact Hprice|].
  split; [apply number_or_not_NaN|].
  unfold or_else. by destruct (truthy (prop "currency" item)) eqn:Hc.
Qed.

Lemma parseProductItems_well_formed_witness :
  exists outs,
    parseProductItems (R := Example.runtime)
      (Example.items_input [Example.raw_item_zero]) = ok outs
    /\ length outs = 1%nat.
Proof.
  destruct (parseProductItems_well_formed Example.runtime
              (OCons "items" (VArr [Example.raw_item_zero]) ONil)
              [Example.raw_item_zero] eq_refl)
    as (outs & Hrun & Hlen & _).
  - repeat constructor.
  - by exists outs.
Defined.

(** X8: one raw item that is [undefined] or [null] makes
    [parseProductItems] throw a [TypeError], whatever the other items
    are; no line item is returned. *)
Theorem parseProductItems_nullish_item :
  forall (R : Runtime) (o : obj) (l : list value),
    get "items" o = VArr l ->
    Exists (fun item => nullish item = true) l ->
    exists message,
      parseProductItems (VObj o) = throw (TypeError message).
Proof.
  intros R o l Hitems Hex. unfold parseProductItems. simpl. rewrite Hitems.
  clear Hitems.
  induction l as [|item l IH]; [by apply Exists_nil in Hex|].
  simpl. destruct (nullish item) eqn:Hn.
  - rewrite parseProductItem_nullish by done. by eexists.
  - destruct (parseProductItem_fields item) as (p & Hp & _).
    { by intros ->. } { by intros ->. }
    rewrite Hp, parseProductItems_loop_app.
    apply Exists_cons in Hex as [Hex|Hex]; [congruence|].
    destruct (IH Hex) as [message ->]. by eexists.
Qed.

Lemma parseProductItems_nullish_item_witness :
  exists message,
    parseProductItems (R := Example.runtime)
      (Example.items_input [Example.raw_item; VNull])
    = throw (TypeError message).
Proof.
  apply (parseProductItems_nullish_item Example.runtime
           (OCons "items" (VArr [Example.raw_item; VNull]) ONil)
           [Example.raw_item; VNull] eq_refl).
  apply Exists_cons_tl, Exists_cons_hd. reflexivity.
Defined.

(** ** The licensing notice *)

(** X9: the licensing notice is written at most once per session: the
    first call of [logLicensingNotice] writes it and sets the flag, and
    any number of further calls changes nothing. *)
Theorem logLicensingNotice_once :
  (forall s, licensingNoticeLogged (logLicensingNotice s) = true)
  /\ (forall s n, Nat.iter (S n) logLicensingNotice s = logLicensingNotice s)
  /\ (forall n, warnings (Nat.iter (S n) logLicensingNotice new_session)
                = [licensing_notice])
  /\ (forall s, licensingNoticeLogged s = true -> logLicensingNotice s = s).
Proof.
  assert (Hflag : forall s, licensingNoticeLogged (logLicensingNotice s) = true).
  { intros s. unfold logLicensingNotice.
    by destruct (licensingNoticeLogged s) eqn:Hs. }
  assert (Hid : forall s, licensingNoticeLogged s = true ->
                          logLicensingNotice s = s).
  { intros s Hs. unfold logLicensingNotice. by rewrite Hs. }
  assert (Hiter : forall s n,
             Nat.iter (S n) logLicensingNotice s = logLicensingNotice s).
  { intros s n. induction n as [|n IH]; [done|].
    change (logLicensingNotice (Nat.iter (S n) logLicensingNotice s)
            = logLicensingNotice s).
    rewrite IH. apply Hid, Hflag. }
  repeat split; [done..| |done].
  intros n. by rewrite Hiter.
Qed.

(** ** The single request *)

Import Wire.

Lemma pages_S {R : Runtime} {W : Type}
    (send : gmap string value -> W -> result value * W)
    dataKey rem offset acc (query : gmap string value) w :
  pages send dataKey (S rem) offset acc query w
  = let query' := <["offset" := num offset]> query in
    match send query' w with
    | (inl e, w1) => (throw e, query', w1)
    | (inr responseData, w1) =>
        if nullish responseData
        then (throw (TypeError (cannot_read responseData dataKey)),
              query', w1)
        else
          let acc' := push_items dataKey responseData acc in
          if should_stop (meta_total responseData) (length acc')
          then (ok acc', query', w1)
          else pages send dataKey rem (offset + limit) acc' query' w1
    end.
Proof. reflexivity. Qed.

(** X10: without an API key (none stored, or an empty one) a transport
    call fails with "No API key provided" and hands nothing to the HTTP
    helper; a paginated fetch then fails at its first round, having sent
    nothing, with the caller's query already holding limit 100 and
    offset 0. *)
Theorem attentiveApiRequest_requires_key :
  forall (R : Runtime) (W : Type) (Hst : Host W) (method endpoint : string)
         (body : obj) (query : gmap string value) (dataKey : string)
         (w : W) (sent : list IRequestOptions),
    apiKey w = None \/ apiKey w = Some EmptyString ->
    attentiveApiRequest (Hst := logging Hst) method endpoint body query (w, sent)
    = (throw (NodeOperationError "No API key provided"), (w, sent))
    /\ attentiveApiRequestAllItems (Hst := logging Hst)
         method endpoint body query dataKey (w, sent)
       = (throw (NodeOperationError "No API key provided"),
          page_query query 0, (w, sent)).
Proof.
  intros R W Hst method endpoint body query dataKey w sent Hkey.
  assert (Hreq : forall q,
             attentiveApiRequest (Hst := logging Hst) method endpoint body q (w, sent)
             = (throw (NodeOperationError "No API key provided"), (w, sent))).
  { intros q. apply (attentiveApiRequest_no_key (Hst := logging Hst)). exact Hkey. }
  split; [apply Hreq|].
  unfold attentiveApiRequestAllItems, paginate.
  change maxIterations with (S 999). rewrite pages_S.
  cbv zeta. by rewrite Hreq.
Qed.

Lemma attentiveApiRequest_requires_key_witness :
  attentiveApiRequest (Hst := logging Cases.keyless)
    "GET" "/keywords" ONil ∅ (tt, [])
  = (throw (NodeOperationError "No API key provided"), (tt, [])).
Proof.
  apply (attentiveApiRequest_requires_key Example.runtime unit Cases.keyless
           "GET" "/keywords" ONil ∅ "keywords" tt []).
  by left.
Defined.

(** X11: with an API key, a transport call hands exactly one request to
    the HTTP helper, whether it succeeds or fails (there is no retry):
    to the base URL followed by the endpoint, with the bearer
    authorisation and JSON headers and the query as given; the body is
    attached only when the method is not GET and the body is not empty.
    The response is returned as it is. *)
Theorem attentiveApiRequest_sends_one_request :
  forall (W : Type) (Hst : Host W) (method endpoint : string)
         (body : obj) (query : gmap string value)
         (w : W) (sent : list IRequestOptions) (key : string),
    apiKey w = Some key -> key <> EmptyString ->
    exists options r w',
      attentiveApiRequest (Hst := logging Hst) method endpoint body query (w, sent)
      = (r, (w', sent ++ [options]))
      /\ attentiveApiRequest method endpoint body query w = (r, w')
      /\ Transport.method options = method
      /\ uri options = "https://api.attentivemobile.com/v1" +:+ endpoint
      /\ header "Authorization" (headers options) = Some ("Bearer " +:+ key)
      /\ header "Content-Type" (headers options) = Some "application/json"
      /\ header "Accept" (headers options) = Some "application/json"
      /\ qs options = query
      /\ (Transport.body options
          = if String.eqb method "GET" then None
            else match body with ONil => None | _ => Some body end)
      /\ (forall response,
            helpers_request options w = (inr response, w') -> r = ok response)
      /\ (forall error,
            helpers_request options w = (inl error, w') ->
            r = throw (NodeApiError (NodeApiError_message error) error)).
Proof.
  intros W Hst method endpoint body query w sent key Hkey Hne.
  exists (request_options key method endpoint body query).
  rewrite (attentiveApiRequest_with_key (Hst := logging Hst)
             method endpoint body query (w, sent) key Hkey Hne).
  rewrite (attentiveApiRequest_with_key method endpoint body query w key Hkey Hne).
  simpl.
  destruct (helpers_request (request_options key method endpoint body query) w)
    as [[error|response] w1] eqn:Hreq.
  - eexists _, w1. repeat split.
    + unfold Transport.body, request_options.
      destruct (String.eqb method "GET"); [by rewrite andb_false_r|].
      by destruct body.
    + intros response [=].
    + by intros error' [= <-].
  - eexists _, w1. repeat split.
    + unfold Transport.body, request_options.
      destruct (String.eqb method "GET"); [by rewrite andb_false_r|].
      by destruct body.
    + by intros response' [= <-].
    + intros error [=].
Qed.

Lemma attentiveApiRequest_sends_one_request_witness :
  exists options r w',
    attentiveApiRequest (Hst := logging (Cases.answering (VObj ONil)))
      "GET" "/keywords" (OCons "ignored" VNull ONil) ∅ (tt, [])
    = (r, (w', [options]))
    /\ Transport.body options = None.
Proof.
  destruct (attentiveApiRequest_sends_one_request unit
              (Cases.answering (VObj ONil)) "GET" "/keywords"
              (OCons "ignored" VNull ONil) ∅ tt [] "key" eq_refl)
    as (options & r & w' & Hrun & _ & _ & _ & _ & _ & _ & _ & Hbody & _).
  - done.
  - by exists options, r, w'.
Defined.

(** ** Pagination, continued *)

Section PaginationMore.
Context {R : Runtime} {W : Type}.
Variable send : gmap string value -> W -> result value * W.
Variable dataKey : string.

Lemma Trace_failure query rem k acc log res j q e :
  Trace dataKey query rem k acc log res ->
  log !! j = Some (q, inl e) ->
  res = throw e /\ S j = length log.
Proof.
  intros Ht. revert j.
  induction Ht as [| | | |rem k acc resp log res Hn Hs Ht IH]; intros j Hj.
  - done.
  - destruct j; [|by destruct j]. by injection Hj as _ <-.
  - destruct j; [done|]. by destruct j.
  - destruct j; [done|]. by destruct j.
  - destruct j as [|j]; [done|].
    destruct (IH j Hj) as [-> Hlen]. split; [done|]. simpl. by rewrite Hlen.
Qed.

Lemma Trace_nullish_response query rem k acc log res j q responseData :
  Trace dataKey query rem k acc log res ->
  log !! j = Some (q, inr responseData) ->
  nullish responseData = true ->
  (exists message, res = throw (TypeError message))
  /\ S j = length log.
Proof.
  intros Ht. revert j.
  induction Ht as [| | | |rem k acc resp log res Hn Hs Ht IH];
    intros j Hj Hnull.
  - done.
  - destruct j; [done|]. by destruct j.
  - destruct j; [split; [by eexists|done]|]. by destruct j.
  - destruct j; [|by destruct j]. injection Hj as _ <-. congruence.
  - destruct j as [|j].
    + injection Hj as _ <-. congruence.
    + destruct (IH j Hj Hnull) as [Hres Hlen]. split; [done|].
      simpl. by rewrite Hlen.
Qed.

Lemma Trace_ok_all_answered query rem k acc log res items :
  Trace dataKey query rem k acc log res ->
  res = ok items ->
  Forall (fun entry => exists responseData,
            entry.2 = inr responseData /\ nullish responseData = false) log.
Proof.
  induction 1 as [| | | |rem k acc resp log res Hn Hs Ht IH]; intros Hres;
    try done.
  - constructor; [by eexists|constructor].
  - constructor; [by eexists|by apply IH].
Qed.

End PaginationMore.

(** X12: a paginated fetch gives all or nothing: a call that fails is
    the last call and its error is the outcome, the pages gathered
    before it being dropped; a response that is [undefined] or [null]
    is the last one too and the outcome is a [TypeError]; and when
    items are returned every call was answered. *)
Theorem attentiveApiRequestAllItems_all_or_nothing :
  forall (R : Runtime) (W : Type) (Hst : Host W) (method endpoint : string)
         (body : obj) (query : gmap string value) (dataKey : string) (w : W),
    exists res final w' log,
      attentiveApiRequestAllItems method endpoint body query dataKey w
      = (res, final, w')
      /\ paginate (recorded (attentiveApiRequest method endpoint body))
           dataKey query (w, [])
         = (res, final, (w', log))
      /\ (forall j q e, log !! j = Some (q, inl e) ->
            res = throw e /\ S j = length log)
      /\ (forall j q responseData,
            log !! j = Some (q, inr responseData) ->
            nullish responseData = true ->
            (exists message, res = throw (TypeError message))
            /\ S j = length log)
      /\ (forall items, res = ok items ->
            Forall (fun entry => exists responseData,
                      entry.2 = inr responseData
                      /\ nullish responseData = false) log).
Proof.
  intros R W Hst method endpoint body query dataKey w.
  set (send := attentiveApiRequest method endpoint body).
  destruct (pages_Trace send dataKey query maxIterations 0 []
              (<["limit" := num limit]> query) w [] eq_refl)
    as (res & final & w' & log & Hrec & Hrun & Htrace & Hfinal).
  exists res, final, w', log.
  split; [exact Hrun|]. split; [exact Hrec|].
  split; [intros j q e; by apply (Trace_failure _ _ _ _ _ _ _ _ _ _ Htrace)|].
  split; [intros j q r; by apply (Trace_nullish_response _ _ _ _ _ _ _ _ _ _ Htrace)|].
  intros items. by apply (Trace_ok_all_answered _ _ _ _ _ _ _ _ Htrace).
Qed.

(** X13: when the first response declares no total (no [meta], no
    [meta.total], or a total of 0), the fetch ends after that one
    request, however many records the collection holds: what is returned
    is the first page. *)
Theorem attentiveApiRequestAllItems_without_total :
  forall (R : Runtime) (W : Type) (Hst : Host W) (method endpoint : string)
         (body : obj) (query : gmap string value) (dataKey : string)
         (w w' : W) (responseData : value),
    attentiveApiRequest method endpoint body (page_query query 0) w
    = (ok responseData, w') ->
    nullish responseData = false ->
    truthy (meta_total responseData) = false ->
    attentiveApiRequestAllItems method endpoint body query dataKey w
    = (ok (push_items dataKey responseData []), page_query query 0, w').
Proof.
  intros R W Hst method endpoint body query dataKey w w' resp Hsend Hnull Htotal.
  unfold attentiveApiRequestAllItems, paginate.
  change maxIterations with (S 999). rewrite pages_S. cbv zeta.
  change (<["offset" := num 0]> (<["limit" := num limit]> query))
    with (page_query query 0).
  rewrite Hsend, Hnull.
  assert (Hstop : should_stop (meta_total resp)
                    (length (push_items dataKey resp [])) = true).
  { apply should_stop_iff. by left. }
  by rewrite Hstop.
Qed.

Lemma attentiveApiRequestAllItems_without_total_witness :
  attentiveApiRequestAllItems (R := Example.runtime)
    (Hst := Cases.answering
              (VObj (OCons "keywords" (VArr [Example.record 0; Example.record 1])
                       ONil)))
    "GET" "/keywords" ONil ∅ "keywords" tt
  = (ok [Example.record 0; Example.record 1], page_query ∅ 0, tt).
Proof.
  apply (attentiveApiRequestAllItems_without_total Example.runtime unit
           (Cases.answering
              (VObj (OCons "keywords" (VArr [Example.record 0; Example.record 1])
                       ONil)))
           "GET" "/keywords" ONil ∅ "keywords" tt tt
           (VObj (OCons "keywords" (VArr [Example.record 0; Example.record 1])
                    ONil))); reflexivity.
Defined.

(** *** Against a backend that serves the page asked for *)

Section PagedBackend.
Context {R : Runtime}.
Variable total : nat.
Variables method endpoint : string.
Variable body : obj.
Variable query : gmap string value.

Let send := attentiveApiRequest (Hst := Example.paged total) method endpoint body.

Lemma send_paged q received :
  send q received
  = (ok (Example.page total q),
     received ++ [request_options "key" method endpoint body q]).
Proof. reflexivity. Qed.

Lemma query_nat_num key (q : gmap string value) (n : nat) :
  q !! key = Some (num (Z.of_nat n)) -> Example.query_nat key q = n.
Proof.
  intros Hq. unfold Example.query_nat. rewrite Hq. simpl.
  rewrite Z.div_1_r. apply Nat2Z.id.
Qed.

Lemma page_of_page_query k :
  Example.page total (page_query query k)
  = VObj (OCons "data"
            (VArr (Example.record <$>
                     seq (100 * k) (Nat.min 100 (total - 100 * k))))
         (OCons "meta"
            (VObj (OCons "total" (num (Z.of_nat total)) ONil)) ONil)).
Proof.
  destruct (page_query_lookup query k) as (Hl & Ho & _).
  unfold Example.page.
  rewrite (query_nat_num "limit" _ 100 Hl).
  rewrite (query_nat_num "offset" _ (100 * k)); [done|].
  rewrite Ho. do 2 f_equal. lia.
Qed.

Lemma pages_paged rem k current received :
  (rem + k = 1000)%nat ->
  (k = 0 \/ 100 * k < total)%nat ->
  <["offset" := num (limit * Z.of_nat k)]> current = page_query query k ->
  exists final requests,
    pages send "data" rem (limit * Z.of_nat k)
          (Example.record <$> seq 0 (100 * k)) current received
    = (ok (Example.record <$> seq 0 (Nat.min total (100 * 1000))), final,
       received ++ requests)
    /\ (rem = 0 /\ requests = [] \/ Cases.rounds_for total (k + length requests))%nat.
Proof.
  revert k current received.
  induction rem as [|rem IH]; intros k current received Hk Hinv Hcur.
  - exists current, []. rewrite app_nil_r. split; [|by left].
    replace (Nat.min total (100 * 1000)) with (100 * k)%nat by lia.
    reflexivity.
  - rewrite pages_S. cbv zeta. rewrite Hcur, send_paged, page_of_page_query.
    set (resp := VObj _).
    assert (Hpush : push_items "data" resp (Example.record <$> seq 0 (100 * k))
                    = Example.record <$>
                        seq 0 (100 * k + Nat.min 100 (total - 100 * k))).
    { rewrite seq_app, fmap_app. reflexivity. }
    assert (Htotal : meta_total resp = num (Z.of_nat total)) by done.
    simpl nullish. cbv iota. rewrite Hpush, Htotal, length_fmap, length_seq.
    destruct (decide (total <= 100 * (k + 1))%nat) as [Hle|Hgt].
    + rewrite should_stop_reached by lia.
      eexists _, [_]. split.
      * replace (Nat.min total (100 * 1000))
          with (100 * k + Nat.min 100 (total - 100 * k))%nat by lia.
        reflexivity.
      * right. change (length [_]) with 1%nat. unfold Cases.rounds_for. lia.
    + rewrite should_stop_short by lia.
      replace (100 * k + Nat.min 100 (total - 100 * k))%nat
        with (100 * S k)%nat by lia.
      replace (limit * Z.of_nat k + limit)%Z
        with (limit * Z.of_nat (S k))%Z by (unfold limit; lia).
      destruct (IH (S k) (page_query query k)
                   (received ++ [request_options "key" method endpoint body
                                   (page_query query k)]))
        as (final & requests & Hrun & Hrounds).
      { lia. } { right. lia. } { apply page_query_next. }
      exists final, (request_options "key" method endpoint body
                       (page_query query k) :: requests).
      rewrite Hrun, <- app_assoc. split; [done|]. right.
      destruct Hrounds as [[-> ->]|Hrounds].
      * change (length [_]) with 1%nat. unfold Cases.rounds_for. lia.
      * change (length (_ :: requests)) with (S (length requests)).
        replace (k + S (length requests))%nat
          with (S k + length requests)%nat by lia. exact Hrounds.
Qed.

End PagedBackend.

(** X14: against a backend that holds [total] records, serves the page
    a query asks for and declares the total, a paginated fetch returns
    the first [min total 100000] records, in order and without an error:
    every record when there are at most 100,000, and silently only the
    first 100,000 when there are more.  It takes one request for an
    empty collection, otherwise one per started hundred of records, and
    never more than 1000. *)
Theorem attentiveApiRequestAllItems_collects_pages :
  forall (R : Runtime) (total : nat) (method endpoint : string) (body : obj)
         (query : gmap string value),
    exists final requests,
      attentiveApiRequestAllItems (Hst := Example.paged total)
        method endpoint body query "data" []
      = (ok (Example.record <$> seq 0 (Nat.min total (100 * 1000))), final, requests)
      /\ (1 <= length requests <= 1000)%nat
      /\ (total <= 100 * length requests \/ length requests = 1000)%nat
      /\ (length requests = 1 \/ 100 * (length requests - 1) < total)%nat.
Proof.
  intros R total method endpoint body query.
  destruct (pages_paged total method endpoint body query 1000 0
              (<["limit" := num limit]> query) [])
    as (final & requests & Hrun & Hrounds); [lia|by left|done|].
  exists final, requests. split; [exact Hrun|].
  destruct Hrounds as [[? _]|Hrounds]; [done|]. exact Hrounds.
Qed.

(** ** The dispatch loop, continued *)

Section DispatcherMore.
Context {W : Type}.
Implicit Types (run : nat -> W -> result (list Node.INodeExecutionData) * W).

Lemma execute_loop_always_failing run e c n i acc w :
  (forall j w0, run j w0 = (throw e, w0)) ->
  Node.execute_loop run c n i acc w
  = if c
    then (ok (acc ++ ((fun j => Node.error_item e j) <$> seq i n)), w)
    else match n with
         | O => (ok acc, w)
         | S _ => (throw e, w)
         end.
Proof.
  intros Hrun. revert i acc. induction n as [|n IH]; intros i acc.
  - simpl. destruct c; by rewrite ?app_nil_r.
  - simpl. rewrite Hrun. destruct c; [|done].
    rewrite IH. by rewrite <- app_assoc.
Qed.

Lemma execute_loop_modes_agree run n i acc w r w' :
  Node.execute_loop run false n i acc w = (ok r, w') ->
  Node.execute_loop run true n i acc w = (ok r, w').
Proof.
  revert i acc w. induction n as [|n IH]; intros i acc w; simpl; [done|].
  destruct (run i w) as [[e|rs] w1]; [done|]. apply IH.
Qed.

End DispatcherMore.

(** X15: for a resource name that is none of the ten, no resource
    module is called and nothing changes: with continue-on-fail
    disabled a non-empty batch fails with "Unknown resource: " followed
    by the name; with it enabled every item yields that error as a
    record tagged with its index. *)
Theorem execute_unknown_resource :
  forall (W : Type) (Act : Node.Actions W) (resource operation : string)
         (items : list value) (w : W),
    resource ∉ ["subscriber"; "message"; "customEvent"; "customAttribute";
                "ecommerce"; "segment"; "journey"; "signUpUnit"; "keyword";
                "webhook"] ->
    Node.execute false resource operation items w
    = match items with
      | [] => (ok [[]], w)
      | _ => (throw (Error ("Unknown resource: " +:+ resource)), w)
      end
    /\ Node.execute true resource operation items w
       = (ok [ (fun i => Node.error_item
                           (Error ("Unknown resource: " +:+ resource)) i)
                 <$> seq 0 (length items) ], w).
Proof.
  intros W Act resource operation items w Hnot.
  assert (Hrun : forall j w0,
             Node.dispatch resource operation j w0
             = (throw (Error ("Unknown resource: " +:+ resource)), w0)).
  { intros j w0. unfold Node.dispatch.
    repeat match goal with
           | |- context [String.eqb resource ?name] =>
               replace (String.eqb resource name) with false
                 by (symmetry; apply String.eqb_neq; intros ->;
                     apply Hnot; set_solver)
           end.
    reflexivity. }
  unfold Node.execute.
  rewrite !(execute_loop_always_failing _ _ _ _ _ _ _ Hrun).
  split; [by destruct items|done].
Qed.

Lemma execute_unknown_resource_witness :
  Node.execute
    (Act := Resources.actions (R := Example.runtime)
              (Hst := Cases.answering (VObj ONil))
              (Ctx := Fixtures.fixed_context (fun _ => VUndefined) 0))
    false "campaign" "get" [VObj ONil] tt
  = (throw (Error "Unknown resource: campaign"), tt)
  /\ Node.execute
       (Act := Resources.actions (R := Example.runtime)
                 (Hst := Cases.answering (VObj ONil))
                 (Ctx := Fixtures.fixed_context (fun _ => VUndefined) 0))
       true "campaign" "get" [VObj ONil] tt
     = (ok [[Node.error_item (Error "Unknown resource: campaign") 0]], tt).
Proof.
  apply (execute_unknown_resource unit
           (Resources.actions (R := Example.runtime)
              (Hst := Cases.answering (VObj ONil))
              (Ctx := Fixtures.fixed_context (fun _ => VUndefined) 0))
           "campaign" "get" [VObj ONil] tt).
  apply (bool_decide_unpack _). vm_compute. exact I.
Defined.

(** X16: the continue-on-fail setting matters only when an item fails:
    a batch that completes with the setting disabled gives the same
    records and leaves the same world with it enabled. *)
Theorem execute_modes_agree :
  forall (W : Type) (Act : Node.Actions W) (resource operation : string)
         (items : list value) (w w' : W)
         (out : list (list Node.INodeExecutionData)),
    Node.execute false resource operation items w = (ok out, w') ->
    Node.execute true resource operation items w = (ok out, w').
Proof.
  intros W Act resource operation items w w' out. unfold Node.execute.
  destruct (Node.execute_loop (Node.dispatch resource operation) false
              (length items) 0 [] w) as [[e|r] w1] eqn:Hrun; [done|].
  intros [= <- <-].
  by rewrite (execute_loop_modes_agree _ _ _ _ _ _ _ Hrun).
Qed.

Lemma execute_modes_agree_witness :
  Node.execute
    (Act := Resources.actions (R := Example.runtime)
              (Hst := Cases.answering (VObj (OCons "id" (VStr "k1") ONil)))
              (Ctx := Fixtures.fixed_context (fun _ => VStr "k1") 0))
    true "keyword" "get" [VObj ONil; VObj ONil] tt
  = (ok [[ {| Node.json := VObj (OCons "id" (VStr "k1") ONil);
              Node.pairedItem := None |};
           {| Node.json := VObj (OCons "id" (VStr "k1") ONil);
              Node.pairedItem := None |} ]], tt).
Proof.
  apply (execute_modes_agree unit
           (Resources.actions (R := Example.runtime)
              (Hst := Cases.answering (VObj (OCons "id" (VStr "k1") ONil)))
              (Ctx := Fixtures.fixed_context (fun _ => VStr "k1") 0))
           "keyword" "get" [VObj ONil; VObj ONil] tt tt).
  vm_compute. reflexivity.
Defined.

(** ** The resource modules *)

Import Resources.

Ltac run_monad :=
  unfold bind, lift, ret, raise, unknown_operation.

Ltac no_such_operation Hnot :=
  repeat match goal with
         | |- context [String.eqb ?operation ?name] =>
             replace (String.eqb operation name) with false
               by (symmetry; apply String.eqb_neq; intros ->;
                   apply Hnot; set_solver)
         end.

(** X17: in the eight modules that branch on the operation first
    (keyword, webhook, segment, journey, sign-up unit, message, custom
    event, custom attribute), an operation name outside the module's
    list fails with "Unknown operation: " followed by the name, and
    nothing is sent and nothing changes, whatever the parameters are. *)
Theorem unknown_operation_sends_nothing :
  forall (R : Runtime) (W : Type) (Hst : Host W) (Ctx : NodeContext W)
         (operation : string) (i : nat) (w : W),
    let unknown := (throw (Error ("Unknown operation: " +:+ operation)), w) in
    (operation ∉ ["get"; "getAll"] ->
       executeKeywordOperation operation i w = unknown)
    /\ (operation ∉ ["create"; "getAll"; "delete"] ->
          executeWebhookOperation operation i w = unknown)
    /\ (operation ∉ ["create"; "get"; "getAll"; "update"; "delete"; "getMembers"] ->
          executeSegmentOperation operation i w = unknown)
    /\ (operation ∉ ["get"; "getAll"; "getStats"] ->
          executeJourneyOperation operation i w = unknown)
    /\ (operation ∉ ["get"; "getAll"; "getStats"] ->
          executeSignUpUnitOperation operation i w = unknown)
    /\ (operation ∉ ["send"; "sendBulk"; "sendTransactional"] ->
          executeMessageOperation operation i w = unknown)
    /\ (operation ∉ ["send"; "sendBatch"] ->
          executeCustomEventOperation operation i w = unknown)
    /\ (operation ∉ ["set"; "setBatch"; "delete"] ->
          executeCustomAttributeOperation operation i w = unknown).
Proof.
  intros R W Hst Ctx operation i w unknown.
  repeat split; intros Hnot;
    [ unfold executeKeywordOperation | unfold executeWebhookOperation
    | unfold executeSegmentOperation | unfold executeJourneyOperation
    | unfold executeSignUpUnitOperation | unfold executeMessageOperation
    | unfold executeCustomEventOperation
    | unfold executeCustomAttributeOperation ];
    no_such_operation Hnot; reflexivity.
Qed.

Section Validation.
Context {R : Runtime} {W : Type} {Hst : Host W} {Ctx : NodeContext W}.

Lemma requirePhone_value_ok p phone :
  requirePhone_value p = ok phone ->
  exists raw, p = VStr raw /\ phone = formatPhoneNumber raw
              /\ isValidE164 phone = true.
Proof.
  destruct p as [| |b|n|raw|a|o];
    try (unfold requirePhone_value; by destruct (truthy _)).
  change (requirePhone_value (VStr raw)) with (requirePhone raw).
  rewrite requirePhone_unfold.
  destruct (isValidE164 (formatPhoneNumber raw)) eqn:Hv; [|done].
  intros [= <-]. by exists raw.
Qed.

Lemma executeSubscriberOperation_invalid operation i w e :
  requirePhone_value (getNodeParameter "phone" i None) = throw e ->
  executeSubscriberOperation operation i w = (throw e, w).
Proof.
  intros Hp. unfold executeSubscriberOperation. run_monad. by rewrite Hp.
Qed.

Lemma executeSubscriberOperation_unknown operation i w phone :
  requirePhone_value (getNodeParameter "phone" i None) = ok phone ->
  operation ∉ ["subscribe"; "unsubscribe"; "get"; "update"] ->
  executeSubscriberOperation operation i w
  = (throw (Error ("Unknown operation: " +:+ operation)), w).
Proof.
  intros Hp Hnot. unfold executeSubscriberOperation. run_monad. rewrite Hp.
  no_such_operation Hnot. reflexivity.
Qed.

Lemma identified_user_by_phone i :
  is_string (getNodeParameter "identifierType" i None) "phone" = true ->
  identified_user i
  = match requirePhone_value (getNodeParameter "phone" i None) with
    | inl e => throw e
    | inr phone => ok (VObj (OCons "phone" (VStr phone) ONil))
    end.
Proof. intros Hid. unfold identified_user. by rewrite Hid. Qed.

Lemma identified_user_by_email i :
  is_string (getNodeParameter "identifierType" i None) "phone" = false ->
  identified_user i
  = ok (VObj (OCons "email" (getNodeParameter "email" i None) ONil)).
Proof. intros Hid. unfold identified_user. by rewrite Hid. Qed.

Lemma identified_user_valid i :
  (is_string (getNodeParameter "identifierType" i None) "phone" = true ->
   exists phone,
     requirePhone_value (getNodeParameter "phone" i None) = ok phone) ->
  exists user, identified_user i = ok user.
Proof.
  intros Hvalid.
  destruct (is_string (getNodeParameter "identifierType" i None) "phone")
    eqn:Hid.
  - destruct (Hvalid eq_refl) as [phone Hp].
    rewrite (identified_user_by_phone i Hid), Hp. by eexists.
  - rewrite (identified_user_by_email i Hid). by eexists.
Qed.

Lemma executeEcommerceOperation_invalid operation i w e :
  identified_user i = throw e
  \/ (exists user, identified_user i = ok user
                   /\ parseProductItems (getNodeParameter "items" i None)
                      = throw e) ->
  executeEcommerceOperation operation i w = (throw e, w).
Proof.
  unfold executeEcommerceOperation. run_monad.
  intros [Hu|(user & Hu & Hitems)]; rewrite Hu; [done|]. by rewrite Hitems.
Qed.

Lemma executeEcommerceOperation_unknown operation i w user items :
  identified_user i = ok user ->
  parseProductItems (getNodeParameter "items" i None) = ok items ->
  operation ∉ ["productView"; "addToCart"; "removeFromCart"; "purchase";
               "abandoned"] ->
  executeEcommerceOperation operation i w
  = (throw (Error ("Unknown operation: " +:+ operation)), w).
Proof.
  intros Hu Hitems Hnot. unfold executeEcommerceOperation. run_monad.
  rewrite Hu, Hitems. no_such_operation Hnot. reflexivity.
Qed.

End Validation.

(** X18: in the subscriber and e-commerce modules validation comes
    before the branch on the operation.  A subscriber operation whose
    phone parameter fails validation fails with the validation error,
    whatever the operation name, and sends nothing; an unknown operation
    name is reported only when the phone is valid.  An e-commerce
    operation for a user identified by phone likewise fails with the
    validation error of that phone whatever the operation name; with a
    valid phone, or a user identified by email (which is not checked),
    it fails on an unparseable item list next, and only then on an
    unknown operation name.  In each case nothing is sent. *)
Theorem validation_precedes_operation :
  forall (R : Runtime) (W : Type) (Hst : Host W) (Ctx : NodeContext W)
         (operation : string) (i : nat) (w : W),
    (forall e,
        requirePhone_value (getNodeParameter "phone" i None) = throw e ->
        executeSubscriberOperation operation i w = (throw e, w))
    /\ (forall phone,
          requirePhone_value (getNodeParameter "phone" i None) = ok phone ->
          operation ∉ ["subscribe"; "unsubscribe"; "get"; "update"] ->
          executeSubscriberOperation operation i w
          = (throw (Error ("Unknown operation: " +:+ operation)), w))
    /\ (forall e,
          is_string (getNodeParameter "identifierType" i None) "phone" = true ->
          requirePhone_value (getNodeParameter "phone" i None) = throw e ->
          executeEcommerceOperation operation i w = (throw e, w))
    /\ (forall e,
          (is_string (getNodeParameter "identifierType" i None) "phone" = true ->
           exists phone,
             requirePhone_value (getNodeParameter "phone" i None) = ok phone) ->
          parseProductItems (getNodeParameter "items" i None) = throw e ->
          executeEcommerceOperation operation i w = (throw e, w))
    /\ (forall items,
          (is_string (getNodeParameter "identifierType" i None) "phone" = true ->
           exists phone,
             requirePhone_value (getNodeParameter "phone" i None) = ok phone) ->
          parseProductItems (getNodeParameter "items" i None) = ok items ->
          operation ∉ ["productView"; "addToCart"; "removeFromCart";
                       "purchase"; "abandoned"] ->
          executeEcommerceOperation operation i w
          = (throw (Error ("Unknown operation: " +:+ operation)), w))
    /\ (forall raw,
          requirePhone_value (VStr raw) = Utils.requirePhone raw)
    /\ (forall p phone,
          requirePhone_value p = ok phone -> isValidE164 phone = true).
Proof.
  intros R W Hst Ctx operation i w.
  split; [intros e; apply executeSubscriberOperation_invalid|].
  split; [intros phone; apply executeSubscriberOperation_unknown|].
  split.
  { intros e Hid He. apply executeEcommerceOperation_invalid. left.
    by rewrite (identified_user_by_phone i Hid), He. }
  split.
  { intros e Hvalid He. apply executeEcommerceOperation_invalid. right.
    destruct (identified_user_valid i Hvalid) as [user Hu]. by exists user. }
  split.
  { intros items Hvalid Hitems Hnot.
    destruct (identified_user_valid i Hvalid) as [user Hu].
    by apply (executeEcommerceOperation_unknown operation i w user items). }
  split; [done|].
  intros p phone Hp. by destruct (requirePhone_value_ok p phone Hp) as (? & _ & _ & ?).
Qed.

Section BulkMessage.
Context {R : Runtime} {W : Type} {Hst : Host W} {Ctx : NodeContext W}.

Lemma bulk_recipients_ok l acc rs :
  bulk_recipients l acc = ok rs ->
  exists outs,
    rs = acc ++ outs
    /\ Forall2 (fun recipient out =>
                  exists raw,
                    prop "phone" recipient = VStr raw
                    /\ out = VObj (OCons "phone" (VStr (formatPhoneNumber raw)) ONil)
                    /\ isValidE164 (formatPhoneNumber raw) = true) l outs.
Proof.
  revert acc. induction l as [|recipient l IH]; intros acc; simpl.
  - intros [= <-]. exists []. by rewrite app_nil_r.
  - unfold read. destruct (nullish recipient); [done|].
    destruct (requirePhone_value (prop "phone" recipient)) as [e|phone] eqn:Hp;
      [done|].
    intros (outs & -> & Hall)%IH.
    destruct (requirePhone_value_ok _ _ Hp) as (raw & Hraw & -> & Hv).
    eexists (_ :: outs). rewrite <- app_assoc. split; [done|].
    constructor; [by exists raw|done].
Qed.

Lemma executeMessageOperation_sendBulk_invalid i w l e :
  read "recipient" (getNodeParameter "recipients" i None) = ok (VArr l) ->
  bulk_recipients l [] = throw e ->
  executeMessageOperation "sendBulk" i w = (throw e, w).
Proof.
  intros Hl He. unfold executeMessageOperation. run_monad. simpl String.eqb.
  cbv iota. by rewrite Hl, He.
Qed.

(** The body of a bulk message to [recipients], before it is cleaned. *)
Lemma executeMessageOperation_sendBulk_valid i w l rs :
  read "recipient" (getNodeParameter "recipients" i None) = ok (VArr l) ->
  bulk_recipients l [] = ok rs ->
  nullish (getNodeParameter "options" i None) = false ->
  executeMessageOperation "sendBulk" i w
  = (let* responseData :=
       attentiveApiRequest "POST" "/messages/bulk"
         (cleanObject
            (set_if_defined "useShortLinks"
               (prop "useShortLinks" (getNodeParameter "options" i None))
               (set_if_truthy "messageName"
                  (prop "messageName" (getNodeParameter "options" i None))
                  (set_if_truthy "mediaUrl"
                     (prop "mediaUrl" (getNodeParameter "options" i None))
                     (set_if_truthy "subscriptionType"
                        (prop "subscriptionType"
                           (getNodeParameter "options" i None))
                        (OCons "recipients" (VArr rs)
                           (OCons "body" (getNodeParameter "body" i None)
                              ONil))))))) ∅ in
     ret (buildReturnData responseData)) w.
Proof.
  intros Hl Hrs Ho. unfold executeMessageOperation. run_monad.
  simpl String.eqb. cbv iota. rewrite Hl, Hrs. unfold read. by rewrite Ho.
Qed.

Lemma cleanObject_recipients rs subscriptionType mediaUrl messageName
    useShortLinks body :
  rs <> [] ->
  get "recipients"
    (cleanObject
       (set_if_defined "useShortLinks" useShortLinks
          (set_if_truthy "messageName" messageName
             (set_if_truthy "mediaUrl" mediaUrl
                (set_if_truthy "subscriptionType" subscriptionType
                   (OCons "recipients" (VArr rs) (OCons "body" body ONil)))))))
  = VArr rs.
Proof.
  intros Hrs. unfold set_if_defined, set_if_truthy.
  destruct (defined useShortLinks), (truthy messageName), (truthy mediaUrl),
    (truthy subscriptionType);
    cbn [set String.eqb Ascii.eqb Bool.eqb];
    destruct rs; try done; reflexivity.
Qed.

End BulkMessage.

(** X19: a bulk message validates every recipient before anything is
    sent: if the phone of any recipient fails validation the operation
    fails with that error and sends nothing, not even to the recipients
    before it.  When all pass, the operation posts to /messages/bulk
    the cleaned body whose [recipients] are the normalised phones, one
    per recipient, in order, each valid E.164, and returns the answer. *)
Theorem sendBulk_validates_all_first :
  forall (R : Runtime) (W : Type) (Hst : Host W) (Ctx : NodeContext W)
         (i : nat) (w : W) (l : list value),
    let options := getNodeParameter "options" i None in
    let requestBody recipients :=
      cleanObject
        (set_if_defined "useShortLinks" (prop "useShortLinks" options)
           (set_if_truthy "messageName" (prop "messageName" options)
              (set_if_truthy "mediaUrl" (prop "mediaUrl" options)
                 (set_if_truthy "subscriptionType"
                    (prop "subscriptionType" options)
                    (OCons "recipients" (VArr recipients)
                       (OCons "body" (getNodeParameter "body" i None)
                          ONil)))))) in
    read "recipient" (getNodeParameter "recipients" i None) = ok (VArr l) ->
    (forall e, bulk_recipients l [] = throw e ->
               executeMessageOperation "sendBulk" i w = (throw e, w))
    /\ (forall recipient,
          recipient ∈ l ->
          (forall phone, requirePhone_value (prop "phone" recipient) <> ok phone) ->
          exists e, bulk_recipients l [] = throw e)
    /\ (forall rs, bulk_recipients l [] = ok rs ->
          Forall2 (fun recipient out =>
                     exists raw,
                       prop "phone" recipient = VStr raw
                       /\ out = VObj (OCons "phone"
                                        (VStr (formatPhoneNumber raw)) ONil)
                       /\ isValidE164 (formatPhoneNumber raw) = true) l rs
          /\ (l <> [] -> get "recipients" (requestBody rs) = VArr rs)
          /\ (nullish options = false ->
              forall key r w',
                apiKey w = Some key -> key <> EmptyString ->
                helpers_request
                  (request_options key "POST" "/messages/bulk"
                                   (requestBody rs) ∅) w
                = (r, w') ->
                executeMessageOperation "sendBulk" i w
                = (match r with
                   | inr responseData => ok (buildReturnData responseData)
                   | inl error =>
                       throw (NodeApiError (NodeApiError_message error) error)
                   end, w'))).
Proof.
  intros R W Hst Ctx i w l options requestBody Hl. split.
  { intros e. by apply executeMessageOperation_sendBulk_invalid. }
  split.
  { intros recipient Hin Hbad.
    destruct (bulk_recipients l []) as [e|rs] eqn:Hrun; [by exists e|].
    destruct (bulk_recipients_ok l [] rs Hrun) as (outs & -> & Hall).
    apply list_elem_of_lookup in Hin as [j Hj].
    destruct (Forall2_lookup_l _ _ _ _ _ Hall Hj)
      as (out & _ & raw & Hraw & _ & Hv).
    exfalso. apply (Hbad (formatPhoneNumber raw)).
    rewrite Hraw. change (requirePhone (raw) = ok (formatPhoneNumber raw)).
    rewrite requirePhone_unfold. by rewrite Hv. }
  intros rs Hrs.
  destruct (bulk_recipients_ok l [] rs Hrs) as (outs & -> & Hall).
  split; [exact Hall|]. split.
  { intros Hne. apply cleanObject_recipients.
    simpl. intros ->. apply Forall2_nil_inv_r in Hall. done. }
  intros Ho key r w' Hkey Hne Hreq.
  rewrite (executeMessageOperation_sendBulk_valid i w l _ Hl Hrs Ho).
  unfold bind, ret.
  rewrite (attentiveApiRequest_with_key _ _ _ _ _ _ Hkey Hne).
  fold options. fold (requestBody ([] ++ outs)). rewrite Hreq. by destruct r.
Qed.

Lemma sendBulk_validates_all_first_witness :
  executeMessageOperation (R := Example.runtime)
    (Hst := Cases.answering (VObj ONil))
    (Ctx := Fixtures.fixed_context Fixtures.bulk_parameters 0)
    "sendBulk" 0 tt
  = (throw (NodeOperationError (invalid_phone_message "+0")), tt)
  /\ executeMessageOperation (R := Example.runtime)
       (Hst := logging (Cases.answering (VObj (OCons "sent" (num 2) ONil))))
       (Ctx := Fixtures.fixed_context Fixtures.bulk_valid_parameters 0)
       "sendBulk" 0 (tt, [])
     = (ok [ {| Node.json := VObj (OCons "sent" (num 2) ONil);
                Node.pairedItem := None |} ],
        (tt,
         [request_options "key" "POST" "/messages/bulk"
            (OCons "recipients"
               (VArr [VObj (OCons "phone" (VStr "+9148440001") ONil);
                      VObj (OCons "phone" (VStr "+19148440002") ONil)])
               (OCons "body" (VStr "Hello") ONil)) ∅])).
Proof.
  split.
  - apply (sendBulk_validates_all_first Example.runtime unit
             (Cases.answering (VObj ONil))
             (Fixtures.fixed_context Fixtures.bulk_parameters 0) 0 tt
             [VObj (OCons "phone" (VStr "+19148440001") ONil);
              VObj (OCons "phone" (VStr "0") ONil)]);
      reflexivity.
  - destruct (sendBulk_validates_all_first Example.runtime _
                (logging (Cases.answering (VObj (OCons "sent" (num 2) ONil))))
                (Fixtures.fixed_context Fixtures.bulk_valid_parameters 0)
                0 (tt, [])
                [VObj (OCons "phone" (VStr "(914) 844-0001") ONil);
                 VObj (OCons "phone" (VStr "+19148440002") ONil)]
                eq_refl) as (_ & _ & Hok).
    destruct (Hok [VObj (OCons "phone" (VStr "+9148440001") ONil);
                   VObj (OCons "phone" (VStr "+19148440002") ONil)]
                eq_refl) as (_ & _ & Hsend).
    apply (Hsend eq_refl "key"
                 (inr (VObj (OCons "sent" (num 2) ONil)))); [done|done|].
    reflexivity.
Defined.

Section EndToEnd.
Context {R : Runtime} {W : Type} {Hst : Host W} {Ctx : NodeContext W}.

Lemma list_operation_limited i endpoint query dataKey w key response w' :
  apiKey w = Some key -> key <> EmptyString ->
  truthy (getNodeParameter "returnAll" i None) = false ->
  helpers_request
    (request_options key "GET" endpoint ONil
       (<["limit" := getNodeParameter "limit" i None]> query)) w
  = (inr response, w') ->
  nullish response = false ->
  list_operation i endpoint query dataKey w
  = (ok (buildReturnData (or_else (prop dataKey response) (VArr []))), w').
Proof.
  intros Hkey Hne Hall Hreq Hnull. unfold list_operation. rewrite Hall.
  run_monad. rewrite (attentiveApiRequest_with_key _ _ _ _ _ _ Hkey Hne), Hreq.
  unfold read. by rewrite Hnull.
Qed.

Lemma buildReturnData_listed listed :
  (forall l, listed = VArr l ->
     Node.json <$> buildReturnData (or_else listed (VArr [])) = l
     /\ Forall (fun d => Node.pairedItem d = None)
               (buildReturnData (or_else listed (VArr []))))
  /\ (truthy listed = false -> buildReturnData (or_else listed (VArr [])) = []).
Proof.
  split.
  - intros l ->. unfold or_else. simpl. split.
    + rewrite <- list_fmap_compose. apply list_fmap_id.
    + apply Forall_fmap, Forall_forall. by intros.
  - intros Hf. unfold or_else. by rewrite Hf.
Qed.

Lemma delete_request (i : nat) (w : W) (key endpoint : string) (record : obj)
      (run : M W (list Node.INodeExecutionData)) :
  apiKey w = Some key -> key <> EmptyString ->
  run = (let* _ := attentiveApiRequest "DELETE" endpoint ONil ∅ in
         ret (buildReturnData (VObj record))) ->
  (forall response w',
      helpers_request (request_options key "DELETE" endpoint ONil ∅) w
      = (inr response, w') ->
      run w = (ok [ {| Node.json := VObj record; Node.pairedItem := None |} ], w'))
  /\ (forall error w',
        helpers_request (request_options key "DELETE" endpoint ONil ∅) w
        = (inl error, w') ->
        run w = (throw (NodeApiError (NodeApiError_message error) error), w')).
Proof.
  intros Hkey Hne ->. run_monad.
  rewrite (attentiveApiRequest_with_key _ _ _ _ _ _ Hkey Hne).
  split; intros x w' Hreq; by rewrite Hreq.
Qed.

End EndToEnd.

(** X20: a list operation with "return all" off sends one GET request
    carrying the [limit] parameter and returns one record per element
    the response lists under the resource's key, in order and whatever
    their number; when the response has no such key (or a falsy one) it
    returns no record.  This holds for the keyword, webhook and segment
    lists and for the members of a segment. *)
Theorem limited_list_operations :
  forall (R : Runtime) (W : Type) (Hst : Host W) (Ctx : NodeContext W)
         (i : nat) (w w' : W) (key : string) (response : value),
    apiKey w = Some key -> key <> EmptyString ->
    truthy (getNodeParameter "returnAll" i None) = false ->
    nullish response = false ->
    let limited endpoint :=
      helpers_request
        (request_options key "GET" endpoint ONil
           (<["limit" := getNodeParameter "limit" i None]> ∅)) w
      = (inr response, w') in
    let listed dataKey :=
      (ok (buildReturnData (or_else (prop dataKey response) (VArr []))), w') in
    (limited "/keywords" ->
       executeKeywordOperation "getAll" i w = listed "keywords")
    /\ (limited "/webhooks" ->
          executeWebhookOperation "getAll" i w = listed "webhooks")
    /\ (limited "/segments" ->
          executeSegmentOperation "getAll" i w = listed "segments")
    /\ (limited ("/segments/"
                 +:+ ToString (getNodeParameter "segmentId" i None)
                 +:+ "/members") ->
          executeSegmentOperation "getMembers" i w = listed "members")
    /\ (forall dataKey l,
          prop dataKey response = VArr l ->
          Node.json <$> buildReturnData (or_else (prop dataKey response) (VArr []))
          = l)
    /\ (forall dataKey,
          truthy (prop dataKey response) = false ->
          buildReturnData (or_else (prop dataKey response) (VArr [])) = []).
Proof.
  intros R W Hst Ctx i w w' key response Hkey Hne Hall Hnull limited listed.
  repeat split.
  1-4: intros Hreq; by apply (list_operation_limited _ _ _ _ _ _ _ _ Hkey Hne Hall Hreq).
  - intros dataKey l Hl.
    by destruct (buildReturnData_listed (prop dataKey response)) as [Hj _];
      destruct (Hj l Hl).
  - intros dataKey Hf.
    destruct (buildReturnData_listed (prop dataKey response)) as [_ He].
    by apply He.
Qed.

Lemma limited_list_operations_witness :
  executeKeywordOperation (R := Example.runtime)
    (Hst := Cases.answering
              (VObj (OCons "keywords" (VArr [Example.record 0; Example.record 1])
                       ONil)))
    (Ctx := Fixtures.fixed_context (fun _ => VUndefined) 0)
    "getAll" 0 tt
  = (ok (buildReturnData (VArr [Example.record 0; Example.record 1])), tt).
Proof.
  apply (limited_list_operations Example.runtime unit
           (Cases.answering
              (VObj (OCons "keywords" (VArr [Example.record 0; Example.record 1])
                       ONil)))
           (Fixtures.fixed_context (fun _ => VUndefined) 0)
           0 tt tt "key"
           (VObj (OCons "keywords" (VArr [Example.record 0; Example.record 1])
                    ONil)));
    done.
Defined.

(** X21: deleting a segment or a webhook sends one DELETE request
    without a body; when it is answered, whatever the answer holds, the
    operation returns the single record [{success: true, <id>}] built
    from the id parameter; when it is rejected the error is raised and no
    success record is made. *)
Theorem delete_operations :
  forall (R : Runtime) (W : Type) (Hst : Host W) (Ctx : NodeContext W)
         (i : nat) (w : W) (key : string),
    apiKey w = Some key -> key <> EmptyString ->
    let segmentId := getNodeParameter "segmentId" i None in
    let webhookId := getNodeParameter "webhookId" i None in
    let segment := request_options key "DELETE"
                     ("/segments/" +:+ ToString segmentId) ONil ∅ in
    let webhook := request_options key "DELETE"
                     ("/webhooks/" +:+ ToString webhookId) ONil ∅ in
    Transport.body segment = None /\ Transport.body webhook = None
    /\ (forall response w', helpers_request segment w = (inr response, w') ->
          executeSegmentOperation "delete" i w
          = (ok [ {| Node.json :=
                       VObj (OCons "success" (VBool true)
                               (OCons "segmentId" segmentId ONil));
                     Node.pairedItem := None |} ], w'))
    /\ (forall error w', helpers_request segment w = (inl error, w') ->
          executeSegmentOperation "delete" i w
          = (throw (NodeApiError (NodeApiError_message error) error), w'))
    /\ (forall response w', helpers_request webhook w = (inr response, w') ->
          executeWebhookOperation "delete" i w
          = (ok [ {| Node.json :=
                       VObj (OCons "success" (VBool true)
                               (OCons "webhookId" webhookId ONil));
                     Node.pairedItem := None |} ], w'))
    /\ (forall error w', helpers_request webhook w = (inl error, w') ->
          executeWebhookOperation "delete" i w
          = (throw (NodeApiError (NodeApiError_message error) error), w')).
Proof.
  intros R W Hst Ctx i w key Hkey Hne segmentId webhookId segment webhook.
  split; [done|]. split; [done|].
  destruct (delete_request i w key ("/segments/" +:+ ToString segmentId)
              (OCons "success" (VBool true) (OCons "segmentId" segmentId ONil))
              (executeSegmentOperation "delete" i) Hkey Hne eq_refl)
    as [Hs1 Hs2].
  destruct (delete_request i w key ("/webhooks/" +:+ ToString webhookId)
              (OCons "success" (VBool true) (OCons "webhookId" webhookId ONil))
              (executeWebhookOperation "delete" i) Hkey Hne eq_refl)
    as [Hw1 Hw2].
  by repeat split.
Qed.

Lemma delete_operations_witness :
  executeSegmentOperation (R := Example.runtime)
    (Hst := Cases.answering VNull)
    (Ctx := Fixtures.fixed_context (fun _ => VStr "42") 0)
    "delete" 0 tt
  = (ok [ {| Node.json :=
               VObj (OCons "success" (VBool true)
                       (OCons "segmentId" (VStr "42") ONil));
             Node.pairedItem := None |} ], tt).
Proof.
  destruct (delete_operations Example.runtime unit (Cases.answering VNull)
              (Fixtures.fixed_context (fun _ => VStr "42") 0) 0 tt "key"
              eq_refl) as (_ & _ & Hok & _); [done|].
  apply (Hok VNull tt). reflexivity.
Defined.

Section Statistics.
Context {R : Runtime} {W : Type} {Hst : Host W} {Ctx : NodeContext W}.

Lemma stats_query_invalid dateRange k :
  k ∈ ["startDate"; "endDate"] ->
  nullish dateRange = false ->
  truthy (prop k dateRange) = true ->
  Date_of (prop k dateRange) = None ->
  stats_query dateRange = throw (RangeError "Invalid time value").
Proof.
  intros Hk Hnull Ht Hd. unfold stats_query, read. rewrite Hnull.
  apply elem_of_cons in Hk as [-> | Hk%elem_of_cons].
  2: destruct Hk as [-> | Hk%elem_of_nil]; [|done].
  - by rewrite Ht, Hd.
  - destruct (truthy (prop "startDate" dateRange)).
    + destruct (Date_of (prop "startDate" dateRange)); simpl; [|done].
      by rewrite Ht, Hd.
    + by rewrite Ht, Hd.
Qed.

Lemma stats_query_values dateRange query k v :
  stats_query dateRange = ok query ->
  query !! k = Some v ->
  k ∈ ["startDate"; "endDate"]
  /\ truthy (prop k dateRange) = true
  /\ exists s, v = VStr s /\ is_iso_utc s = true.
Proof.
  unfold stats_query, read. destruct (nullish dateRange); [done|].
  destruct (truthy (prop "startDate" dateRange)) eqn:Hs;
    destruct (truthy (prop "endDate" dateRange)) eqn:He.
  all: repeat match goal with
              | |- context [Date_of ?x] => destruct (Date_of x)
              end.
  all: unfold Date.toISOString; try done.
  all: intros [= <-] Hv.
  all: repeat match type of Hv with
              | <[?k' := _]> _ !! _ = _ =>
                  destruct (decide (k' = k)) as [<- | ?];
                  [rewrite lookup_insert_eq in Hv; injection Hv as <-;
                   split; [set_solver|]; split; [done|];
                   eexists; split; [done|]; apply iso_string_shape
                  |rewrite lookup_insert_ne in Hv by done]
              end.
  all: by rewrite ?lookup_empty in Hv.
Qed.

Lemma stats_query_absent dateRange query k :
  stats_query dateRange = ok query ->
  truthy (prop k dateRange) = false ->
  query !! k = None.
Proof.
  intros Hq Hf. destruct (query !! k) as [v|] eqn:Hv; [|done].
  destruct (stats_query_values _ _ _ _ Hq Hv) as (_ & Ht & _). congruence.
Qed.

Lemma stats_query_present dateRange query k :
  stats_query dateRange = ok query ->
  k ∈ ["startDate"; "endDate"] ->
  truthy (prop k dateRange) = true ->
  exists t, Date_of (prop k dateRange) = Some t
            /\ query !! k = Some (VStr (Date.iso_string t)).
Proof.
  intros Hq Hk Ht. unfold stats_query, read in Hq.
  destruct (nullish dateRange); [done|].
  apply elem_of_cons in Hk as [-> | Hk%elem_of_cons].
  2: destruct Hk as [-> | Hk%elem_of_nil]; [|done].
  - rewrite Ht in Hq.
    destruct (Date_of (prop "startDate" dateRange)) as [t|]; [|done].
    unfold Date.toISOString in Hq. exists t. split; [done|].
    destruct (truthy (prop "endDate" dateRange)).
    + destruct (Date_of (prop "endDate" dateRange)); [|done].
      injection Hq as <-. by rewrite lookup_insert_ne, lookup_insert_eq.
    + injection Hq as <-. by rewrite lookup_insert_eq.
  - destruct (truthy (prop "startDate" dateRange)).
    + destruct (Date_of (prop "startDate" dateRange)); [|done].
      unfold Date.toISOString in Hq. rewrite Ht in Hq.
      destruct (Date_of (prop "endDate" dateRange)) as [t|]; [|done].
      exists t. injection Hq as <-. by rewrite lookup_insert_eq.
    + rewrite Ht in Hq. unfold Date.toISOString in Hq.
      destruct (Date_of (prop "endDate" dateRange)) as [t|]; [|done].
      exists t. injection Hq as <-. by rewrite lookup_insert_eq.
Qed.

Lemma stats_query_total dateRange :
  nullish dateRange = false ->
  (forall k, k ∈ ["startDate"; "endDate"] ->
             truthy (prop k dateRange) = true ->
             Date_of (prop k dateRange) <> None) ->
  exists query, stats_query dateRange = ok query.
Proof.
  intros Hn Hvalid. unfold stats_query, read. rewrite Hn.
  assert (Hs := Hvalid "startDate"). assert (He := Hvalid "endDate").
  destruct (truthy (prop "startDate" dateRange)).
  - destruct (Date_of (prop "startDate" dateRange));
      [|exfalso; apply Hs; [set_solver|done|done]].
    unfold Date.toISOString.
    destruct (truthy (prop "endDate" dateRange)); [|by eexists].
    destruct (Date_of (prop "endDate" dateRange));
      [by eexists|exfalso; apply He; [set_solver|done|done]].
  - destruct (truthy (prop "endDate" dateRange)); [|by eexists].
    destruct (Date_of (prop "endDate" dateRange));
      [by eexists|exfalso; apply He; [set_solver|done|done]].
Qed.

End Statistics.

(** X22: the statistics of a journey or of a sign-up unit are requested
    with the dates of the [dateRange] parameter.  A date that is set but
    is no valid time makes either operation throw the range error
    "Invalid time value" before anything is sent.  When every date that
    is set is valid, the query is built, and either operation sends it
    with its GET request: it holds each date that is set, as the ISO
    string of the time the date denotes (of the shape
    YYYY-MM-DDTHH:mm:ss.sssZ, wider years apart), it holds no date that
    is not set, and no other parameter. *)
Theorem getStats_date_range :
  forall (R : Runtime) (W : Type) (Hst : Host W) (Ctx : NodeContext W)
         (i : nat) (w : W),
    let dateRange := getNodeParameter "dateRange" i None in
    (forall e, stats_query dateRange = throw e ->
       executeJourneyOperation "getStats" i w = (throw e, w)
       /\ executeSignUpUnitOperation "getStats" i w = (throw e, w))
    /\ (forall k, k ∈ ["startDate"; "endDate"] ->
          nullish dateRange = false ->
          truthy (prop k dateRange) = true ->
          Date_of (prop k dateRange) = None ->
          stats_query dateRange = throw (RangeError "Invalid time value"))
    /\ (nullish dateRange = false ->
        (forall k, k ∈ ["startDate"; "endDate"] ->
                   truthy (prop k dateRange) = true ->
                   Date_of (prop k dateRange) <> None) ->
        exists query, stats_query dateRange = ok query)
    /\ (forall query, stats_query dateRange = ok query ->
          (forall k, k ∈ ["startDate"; "endDate"] ->
             truthy (prop k dateRange) = true ->
             exists t, Date_of (prop k dateRange) = Some t
                       /\ query !! k = Some (VStr (Date.iso_string t))
                       /\ is_iso_utc (Date.iso_string t) = true)
          /\ (forall k, truthy (prop k dateRange) = false -> query !! k = None)
          /\ (forall k v, query !! k = Some v -> k ∈ ["startDate"; "endDate"])
          /\ executeJourneyOperation "getStats" i w
             = (let* responseData :=
                  attentiveApiRequest "GET"
                    ("/journeys/"
                     +:+ ToString (getNodeParameter "journeyId" i None)
                     +:+ "/stats") ONil query in
                ret (buildReturnData responseData)) w
          /\ executeSignUpUnitOperation "getStats" i w
             = (let* responseData :=
                  attentiveApiRequest "GET"
                    ("/sign-up-units/"
                     +:+ ToString (getNodeParameter "signUpUnitId" i None)
                     +:+ "/stats") ONil query in
                ret (buildReturnData responseData)) w).
Proof.
  intros R W Hst Ctx i w dateRange. split; [|split; [|split]].
  - intros e He. unfold executeJourneyOperation, executeSignUpUnitOperation.
    simpl. run_monad. fold dateRange. by rewrite He.
  - intros k. apply stats_query_invalid.
  - apply stats_query_total.
  - intros query Hq. split; [|split; [|split; [|split]]].
    + intros k Hk Ht.
      destruct (stats_query_present _ _ _ Hq Hk Ht) as (t & Hd & Hl).
      exists t. split; [done|]. split; [done|]. apply iso_string_shape.
    + intros k. by apply stats_query_absent.
    + intros k v Hv. by destruct (stats_query_values _ _ _ _ Hq Hv).
    + unfold executeJourneyOperation. simpl. run_monad. fold dateRange.
      by rewrite Hq.
    + unfold executeSignUpUnitOperation. simpl. run_monad. fold dateRange.
      by rewrite Hq.
Qed.

(** X23: setting custom attributes for a subscriber identified by email
    validates nothing: the [email] parameter is sent as it is.  The body
    is cleaned before it is sent, so an empty email leaves the request
    without any [user], attributes that are all empty leave it without
    [properties], and with both the request is sent with no body at
    all. *)
Theorem customAttribute_set_by_email :
  forall (R : Runtime) (W : Type) (Hst : Host W) (Ctx : NodeContext W)
         (i : nat) (w : W) (email : string) (attributes : obj),
    is_string (getNodeParameter "identifierType" i None) "phone" = false ->
    getNodeParameter "email" i None = VStr email ->
    parseCustomAttributes (getNodeParameter "attributes" i None) = ok attributes ->
    let body :=
      of_entries
        ((if String.eqb email EmptyString then []
          else [("user", VObj (OCons "email" (VStr email) ONil))])
         ++ (if (0 <? keys_length (cleanObject attributes))%nat
             then [("properties", VObj (cleanObject attributes))]
             else [])) in
    executeCustomAttributeOperation "set" i w
    = (let* responseData :=
         attentiveApiRequest "POST" "/attributes/custom" body ∅ in
       ret (buildReturnData responseData)) w
    /\ (email = EmptyString -> JS.get "user" body = VUndefined)
    /\ (forall key,
          email = EmptyString -> cleanObject attributes = ONil ->
          Transport.body
            (request_options key "POST" "/attributes/custom" body ∅) = None).
Proof.
  intros R W Hst Ctx i w email attributes Hid Hemail Hattrs body.
  split; [|split].
  - unfold executeCustomAttributeOperation, identified_user. simpl.
    rewrite Hid, Hemail. run_monad. rewrite Hattrs. subst body.
    destruct (String.eqb email EmptyString) eqn:He;
      destruct (0 <? keys_length (cleanObject attributes))%nat eqn:Hk;
      simpl; rewrite ?He, ?Hk; simpl; rewrite ?He, ?Hk; reflexivity.
  - intros ->. subst body. simpl.
    by destruct (0 <? keys_length (cleanObject attributes))%nat.
  - intros key -> Hclean. subst body. by rewrite Hclean.
Qed.

Lemma customAttribute_set_by_email_witness :
  executeCustomAttributeOperation (R := Example.runtime)
    (Hst := Wire.logging (Cases.answering (VObj ONil)))
    (Ctx := Fixtures.fixed_context
              (fun name => if String.eqb name "email" then VStr EmptyString
                           else VUndefined) 0)
    "set" 0 (tt, [])
  = (ok [ {| Node.json := VObj ONil; Node.pairedItem := None |} ],
     (tt, [request_options "key" "POST" "/attributes/custom" ONil ∅])).
Proof.
  destruct (customAttribute_set_by_email Example.runtime _
              (Wire.logging (Cases.answering (VObj ONil)))
              (Fixtures.fixed_context
                 (fun name => if String.eqb name "email" then VStr EmptyString
                              else VUndefined) 0)
              0 (tt, []) EmptyString ONil eq_refl eq_refl eq_refl)
    as [Hrun _].
  rewrite Hrun. reflexivity.
Defined.

(** ** The trigger node *)

Lemma get_remove_eq k o : JS.get k (Trigger.remove k o) = VUndefined.
Proof.
  induction o as [|k' v rest IH]; [done|]. simpl.
  destruct (String.eqb k k') eqn:Hk; [done|]. simpl. by rewrite Hk.
Qed.

Lemma get_remove_ne k k' o :
  k <> k' -> JS.get k' (Trigger.remove k o) = JS.get k' o.
Proof.
  intros Hne. induction o as [|k0 v rest IH]; [done|]. simpl.
  destruct (String.eqb k k0) eqn:Hk.
  - apply String.eqb_eq in Hk as <-.
    apply String.eqb_neq in Hne. rewrite String.eqb_sym in Hne.
    by rewrite Hne.
  - simpl. by rewrite IH.
Qed.

Lemma find_webhook_none webhookUrl l :
  Forall (fun x => nullish x = false
                   /\ Trigger.is_url (prop "url" x) webhookUrl = false) l ->
  Trigger.find_webhook webhookUrl l = ok None.
Proof.
  induction 1 as [|x l [Hn Hu] _ IH]; [done|].
  simpl. unfold Resources.read. by rewrite Hn, Hu.
Qed.

Lemma find_webhook_first webhookUrl l1 webhook l2 :
  Forall (fun x => nullish x = false
                   /\ Trigger.is_url (prop "url" x) webhookUrl = false) l1 ->
  nullish webhook = false ->
  Trigger.is_url (prop "url" webhook) webhookUrl = true ->
  Trigger.find_webhook webhookUrl (l1 ++ webhook :: l2)
  = ok (Some (prop "id" webhook)).
Proof.
  intros Hl1 Hn Hu. induction Hl1 as [|x l [Hxn Hxu] _ IH].
  - simpl. unfold Resources.read. by rewrite Hn, Hu.
  - simpl. unfold Resources.read. by rewrite Hxn, Hxu.
Qed.

(** X24: when a secret is configured, an incoming call without a
    signature header (or with an empty one) is answered 401
    "Missing signature" and gives the workflow nothing.  But the
    signature is never checked against the secret: a call that carries
    any non-empty signature, under any configured secret, is accepted.
    The workflow is handed the record made of the call's body (its event
    or type, its timestamp or else the current time, its data or else
    the whole body, and the body itself), in which neither the secret
    nor the signature has any part; the signature is only written to the
    console. *)
Theorem webhook_signature_never_verified :
  forall (W : Type) (Fns : Trigger.Functions W) (st : Trigger.State W),
    let options := Trigger.getNodeParameter "options" in
    let headers := Trigger.getHeaderData in
    let body := Trigger.getBodyData in
    let secret := prop "secret" options in
    let signature := prop "x-attentive-signature" headers in
    let clock := Trigger.Date_now (Trigger.world st) in
    let accepted :=
      Trigger.workflowData
        [[ {| Node.json :=
                VObj (OCons "event" (or_else (prop "event" body) (prop "type" body))
                     (OCons "timestamp"
                        (if truthy (prop "timestamp" body)
                         then prop "timestamp" body
                         else VStr (Date.iso_string clock.1))
                     (OCons "data" (or_else (prop "data" body) body)
                     (OCons "raw" body ONil))));
              Node.pairedItem := None |} ]] in
    nullish options = false ->
    nullish headers = false ->
    nullish body = false ->
    truthy secret = true ->
    (truthy signature = false ->
       Trigger.webhook st
       = (ok (Trigger.webhookResponse 401 "Missing signature"),
          Trigger.with_session
            (Shaping.logLicensingNotice (Trigger.session st)) st))
    /\ (truthy signature = true ->
          (Trigger.webhook st).1 = ok accepted
          /\ Trigger.logged (Trigger.webhook st).2
             = Trigger.logged st
               ++ [[VStr "Webhook signature received:"; signature]]
          /\ Trigger.world (Trigger.webhook st).2
             = (if truthy (prop "timestamp" body) then Trigger.world st
                else clock.2)
          /\ Trigger.webhookData (Trigger.webhook st).2
             = Trigger.webhookData st).
Proof.
  intros W Fns st options headers body secret signature clock accepted
         Ho Hh Hb Hs.
  unfold Trigger.webhook, Resources.read.
  fold options headers body. rewrite Ho, Hh. fold secret signature.
  rewrite Hs. split; intros Hg; rewrite Hg; [done|].
  cbn [negb]. unfold Trigger.workflow_item, Resources.read. rewrite Hb.
  subst accepted clock.
  destruct (truthy (prop "timestamp" body)); [done|].
  cbn [Trigger.world Trigger.console_log Trigger.with_session].
  by destruct (Trigger.Date_now (Trigger.world st)).
Qed.

Lemma webhook_signature_never_verified_witness :
  (Trigger.webhook (Fns := Trigger.signed_call "s3cret" "forged")
                   (Trigger.initial tt)).1
  = ok (Trigger.workflowData
          [[ {| Node.json :=
                  VObj (OCons "event" (VStr "sms.sent")
                       (OCons "timestamp" (VStr "1970-01-01T00:00:00.000Z")
                       (OCons "data" (VObj (OCons "type" (VStr "sms.sent") ONil))
                       (OCons "raw" (VObj (OCons "type" (VStr "sms.sent") ONil))
                          ONil))));
                Node.pairedItem := None |} ]]).
Proof.
  destruct (webhook_signature_never_verified unit
              (Trigger.signed_call "s3cret" "forged")
              (Trigger.initial tt)
              eq_refl eq_refl eq_refl eq_refl) as [_ Haccepted].
  destruct (Haccepted eq_refl) as [Hresult _].
  rewrite Hresult. vm_compute. reflexivity.
Defined.

Section Hooks.
Context {R : Runtime} {W : Type} {Hst : Host W} {Fns : Trigger.Functions W}.

Lemma attentiveApiRequest_logged method endpoint body query w sent key r w' :
  apiKey w = Some key -> key <> EmptyString ->
  helpers_request (request_options key method endpoint body query) w = (r, w') ->
  attentiveApiRequest (Hst := logging Hst) method endpoint body query (w, sent)
  = (match r with
     | inr response => ok response
     | inl error => throw (NodeApiError (NodeApiError_message error) error)
     end,
     (w', sent ++ [request_options key method endpoint body query])).
Proof.
  intros Hkey Hne Hreq.
  rewrite (attentiveApiRequest_with_key (Hst := logging Hst)
             method endpoint body query (w, sent) key Hkey Hne).
  simpl. rewrite Hreq. by destruct r.
Qed.

Lemma checkExists_cases (st : Trigger.State W) :
  exists b,
    (Trigger.checkExists st).1 = ok b
    /\ (b = false ->
        truthy (JS.get "webhookId"
                  (Trigger.webhookData (Trigger.checkExists st).2)) = false)
    /\ (b = true ->
        truthy (JS.get "webhookId" (Trigger.webhookData st)) = true ->
        Trigger.webhookData (Trigger.checkExists st).2 = Trigger.webhookData st).
Proof.
  unfold Trigger.checkExists. cbv zeta.
  change (Trigger.webhookData (Trigger.with_session _ st))
    with (Trigger.webhookData st).
  change (Trigger.world (Trigger.with_session _ st)) with (Trigger.world st).
  destruct (truthy (JS.get "webhookId" (Trigger.webhookData st))) eqn:Hid.
  - destruct (attentiveApiRequest _ _ _ _ _) as [[e|response] w'].
    + exists false. simpl. split; [done|]. split; [|done].
      intros _. by rewrite get_remove_eq.
    + exists true. by simpl.
  - destruct (attentiveApiRequest _ _ _ _ _) as [[e|response] w'].
    { exists false. by simpl. }
    destruct (Resources.read "webhooks" response) as [e|listed].
    { exists false. by simpl. }
    destruct (Trigger.iterate _) as [webhooks|].
    2: { exists false. by simpl. }
    destruct (Trigger.find_webhook _ webhooks) as [e|[id|]].
    + exists false. by simpl.
    + exists true. simpl. split; [done|]. split; [done|]. intros _. congruence.
    + exists false. by simpl.
Qed.

End Hooks.

(** X25: removing the trigger's webhook never fails: it returns true
    whether the API deleted the webhook or rejected the request (the
    rejection is only written as a warning), and afterwards the stored
    webhook id is gone while the rest of the static data is as before.
    With no stored id it does nothing at all. *)
Theorem trigger_delete_always_forgets :
  forall (R : Runtime) (W : Type) (Hst : Host W) (st : Trigger.State W),
    let webhookId := JS.get "webhookId" (Trigger.webhookData st) in
    (Trigger.delete st).1 = ok true
    /\ truthy (JS.get "webhookId" (Trigger.webhookData (Trigger.delete st).2))
       = false
    /\ (forall k, k <> "webhookId" ->
          JS.get k (Trigger.webhookData (Trigger.delete st).2)
          = JS.get k (Trigger.webhookData st))
    /\ (truthy webhookId = false -> (Trigger.delete st).2 = st)
    /\ (forall error w',
          truthy webhookId = true ->
          attentiveApiRequest "DELETE" ("/webhooks/" +:+ ToString webhookId)
                              ONil ∅ (Trigger.world st)
          = (throw error, w') ->
          Trigger.session (Trigger.delete st).2
          = Trigger.console_warn
              ("Failed to delete webhook: " +:+ Exn_message error)
              (Trigger.session st)).
Proof.
  intros R W Hst st webhookId. unfold Trigger.delete. fold webhookId.
  destruct (truthy webhookId) eqn:Hid.
  - destruct (attentiveApiRequest _ _ _ _ _) as [[e|response] w1] eqn:Hreq;
      simpl; (split; [done|]); (split; [by rewrite get_remove_eq|]);
      (split; [intros k Hk; by rewrite get_remove_ne by done|]);
      (split; [done|]); intros error w' _ [= <- <-]; done.
  - simpl. split; [done|]. split; [done|]. split; [done|]. split; [done|].
    by intros.
Qed.

(** X26: checking whether the trigger's webhook exists never fails,
    whatever the API answers and whatever shape the answer has: every
    error is swallowed into the answer false.  When it answers false, no
    usable webhook id is stored afterwards (an id the API no longer knows
    is forgotten); when it confirms a stored id, the static data is left
    as it was. *)
Theorem checkExists_never_throws :
  forall (R : Runtime) (W : Type) (Hst : Host W) (Fns : Trigger.Functions W)
         (st : Trigger.State W),
    exists b,
      (Trigger.checkExists st).1 = ok b
      /\ (b = false ->
          truthy (JS.get "webhookId"
                    (Trigger.webhookData (Trigger.checkExists st).2)) = false)
      /\ (b = true ->
          truthy (JS.get "webhookId" (Trigger.webhookData st)) = true ->
          Trigger.webhookData (Trigger.checkExists st).2
          = Trigger.webhookData st).
Proof.
  intros R W Hst Fns st. apply checkExists_cases.
Qed.

(** X27: with no stored id, the trigger asks for the list of webhooks
    and adopts the first one whose [url] is exactly the node's URL: it
    stores that webhook's [id] and answers true, without looking at what
    follows it in the list.  When the listed webhooks all point
    elsewhere, or the answer lists none, it answers false and stores
    nothing. *)
Theorem checkExists_adopts_first_match :
  forall (R : Runtime) (W : Type) (Hst : Host W) (Fns : Trigger.Functions W)
         (st : Trigger.State W) (response : value) (w' : W),
    truthy (JS.get "webhookId" (Trigger.webhookData st)) = false ->
    attentiveApiRequest "GET" "/webhooks" ONil ∅ (Trigger.world st)
    = (ok response, w') ->
    let webhookUrl := Trigger.getNodeWebhookUrl "default" in
    let elsewhere x :=
      nullish x = false /\ Trigger.is_url (prop "url" x) webhookUrl = false in
    let st' :=
      Trigger.with_world w'
        (Trigger.with_session (Shaping.logLicensingNotice (Trigger.session st))
                              st) in
    (forall l1 webhook l2,
        prop "webhooks" response = VArr (l1 ++ webhook :: l2) ->
        Forall elsewhere l1 ->
        nullish webhook = false ->
        Trigger.is_url (prop "url" webhook) webhookUrl = true ->
        Trigger.checkExists st
        = (ok true,
           Trigger.with_webhookData
             (JS.set "webhookId" (prop "id" webhook) (Trigger.webhookData st))
             st'))
    /\ (forall l,
          prop "webhooks" response = VArr l -> Forall elsewhere l ->
          Trigger.checkExists st = (ok false, st'))
    /\ (truthy (prop "webhooks" response) = false ->
        Trigger.checkExists st = (ok false, st')).
Proof.
  intros R W Hst Fns st response w' Hid Hreq webhookUrl elsewhere st'.
  assert (Hobj : forall l, prop "webhooks" response = VArr l ->
                           nullish response = false).
  { intros l Hl. by destruct response. }
  unfold Trigger.checkExists. cbv zeta.
  change (Trigger.webhookData (Trigger.with_session _ st))
    with (Trigger.webhookData st).
  change (Trigger.world (Trigger.with_session _ st)) with (Trigger.world st).
  rewrite Hid, Hreq. unfold Resources.read.
  split; [|split].
  - intros l1 webhook l2 Hl Hl1 Hn Hu. rewrite (Hobj _ Hl), Hl.
    unfold or_else. simpl.
    by rewrite (find_webhook_first _ _ _ _ Hl1 Hn Hu).
  - intros l Hl Hall. rewrite (Hobj _ Hl), Hl. unfold or_else.
    cbn [truthy Trigger.iterate].
    unfold elsewhere, webhookUrl in Hall.
    by rewrite (find_webhook_none _ _ Hall).
  - intros Hf. destruct (nullish response); [done|].
    unfold or_else. by rewrite Hf.
Qed.

Lemma checkExists_adopts_first_match_witness :
  Trigger.checkExists (R := Example.runtime)
    (Hst := Cases.answering Trigger.registered)
    (Fns := Trigger.signed_call "s3cret" "any")
    (Trigger.initial tt)
  = (ok true,
     Trigger.with_webhookData (OCons "webhookId" (VStr "w2") ONil)
       (Trigger.with_session (Shaping.logLicensingNotice Shaping.new_session)
          (Trigger.initial tt))).
Proof.
  destruct (checkExists_adopts_first_match Example.runtime unit
              (Cases.answering Trigger.registered)
              (Trigger.signed_call "s3cret" "any")
              (Trigger.initial tt) Trigger.registered tt eq_refl eq_refl)
    as [Hfound _].
  apply (Hfound
           [VObj (OCons "id" (VStr "w1")
                    (OCons "url" (VStr "https://elsewhere.example/hook") ONil))]
           (VObj (OCons "id" (VStr "w2")
                    (OCons "url" (VStr "https://n8n.example/webhook") ONil)))
           [VNull]).
  - reflexivity.
  - repeat constructor.
  - reflexivity.
  - reflexivity.
Defined.

Section Registration.
Context {R : Runtime} {W : Type} {Hst : Host W} {Fns : Trigger.Functions W}.

Lemma create_answered (st : Trigger.State W) response w' :
  nullish (Trigger.getNodeParameter "options") = false ->
  attentiveApiRequest "POST" "/webhooks"
    (Resources.set_if_truthy "secret"
       (prop "secret" (Trigger.getNodeParameter "options"))
       (OCons "url" (Trigger.optional (Trigger.getNodeWebhookUrl "default"))
          (OCons "events" (Trigger.getNodeParameter "events") ONil)))
    ∅ (Trigger.world st)
  = (ok response, w') ->
  nullish response = false ->
  Trigger.create st
  = (ok true,
     Trigger.with_webhookData
       (JS.set "webhookId" (prop "id" response) (Trigger.webhookData st))
       (Trigger.with_world w'
          (Trigger.with_session
             (Shaping.logLicensingNotice (Trigger.session st)) st))).
Proof.
  intros Ho Hreq Hn. unfold Trigger.create, Resources.read. cbv zeta.
  rewrite Ho.
  change (Trigger.world (Trigger.with_session _ st)) with (Trigger.world st).
  by rewrite Hreq, Hn.
Qed.

Lemma create_failure (st st' : Trigger.State W) e :
  nullish (Trigger.getNodeParameter "options") = false ->
  Trigger.create st = (throw e, st') ->
  (exists error, e = Trigger.creation_failure error)
  /\ Trigger.webhookData st' = Trigger.webhookData st.
Proof.
  intros Ho. unfold Trigger.create, Resources.read. cbv zeta. rewrite Ho.
  destruct (attentiveApiRequest _ _ _ _ _) as [[error|response] w1].
  - intros [= <- <-]. split; [by eexists|done].
  - destruct (nullish response); [|done].
    intros [= <- <-]. split; [by eexists|done].
Qed.

End Registration.

(** X28: registering the trigger's webhook posts the node's URL and the
    chosen events, with the secret only when one is set.  When the API
    answers, the [id] of the answer is stored as the webhook id and the
    result is true.  With the options parameter an object, every
    failure (of the request or of reading the answer) is raised as an
    error whose message starts with
    "Failed to create Attentive webhook: ", and leaves the static data
    as it was. *)
Theorem create_outcomes :
  forall (W : Type) (Hst : Host W) (Fns : Trigger.Functions W)
         (st : Trigger.State W),
    let options := Trigger.getNodeParameter "options" in
    let body :=
      Resources.set_if_truthy "secret" (prop "secret" options)
        (OCons "url" (Trigger.optional (Trigger.getNodeWebhookUrl "default"))
           (OCons "events" (Trigger.getNodeParameter "events") ONil)) in
    nullish options = false ->
    (forall response w',
        attentiveApiRequest "POST" "/webhooks" body ∅ (Trigger.world st)
        = (ok response, w') ->
        nullish response = false ->
        Trigger.create st
        = (ok true,
           Trigger.with_webhookData
             (JS.set "webhookId" (prop "id" response) (Trigger.webhookData st))
             (Trigger.with_world w'
                (Trigger.with_session
                   (Shaping.logLicensingNotice (Trigger.session st)) st))))
    /\ (forall e st',
          Trigger.create st = (throw e, st') ->
          (exists m, e = Error ("Failed to create Attentive webhook: " +:+ m))
          /\ Trigger.webhookData st' = Trigger.webhookData st)
    /\ JS.get "secret" body
       = (if truthy (prop "secret" options) then prop "secret" options
          else VUndefined).
Proof.
  intros W Hst Fns st options body Ho. split; [|split].
  - intros response w'. by apply create_answered.
  - intros e st' Hrun.
    destruct (create_failure st st' e Ho Hrun) as [[error ->] Hdata].
    split; [by eexists|done].
  - subst body. unfold Resources.set_if_truthy.
    by destruct (truthy (prop "secret" options)).
Qed.

Lemma create_outcomes_witness :
  Trigger.create
    (Hst := Cases.answering (VObj (OCons "id" (VStr "w9") ONil)))
    (Fns := Trigger.signed_call "s3cret" "any")
    (Trigger.initial tt)
  = (ok true,
     Trigger.with_webhookData (OCons "webhookId" (VStr "w9") ONil)
       (Trigger.with_session (Shaping.logLicensingNotice Shaping.new_session)
          (Trigger.initial tt))).
Proof.
  destruct (create_outcomes unit
              (Cases.answering (VObj (OCons "id" (VStr "w9") ONil)))
              (Trigger.signed_call "s3cret" "any")
              (Trigger.initial tt) eq_refl) as [Hok _].
  apply (Hok (VObj (OCons "id" (VStr "w9") ONil)) tt); reflexivity.
Defined.

(** X29: the life of the trigger's webhook, request by request.  With
    an API key, registering, then checking, then removing the webhook
    sends exactly three requests: the POST to /webhooks, a GET and a
    DELETE to /webhooks/ followed by the id the API answered; all three
    steps return true (the last one even if the API rejects the DELETE),
    and no webhook id is left in the static data. *)
Theorem trigger_lifecycle :
  forall (R : Runtime) (W : Type) (Hst : Host W)
         (Fns : Trigger.Functions (W * list IRequestOptions))
         (st : Trigger.State (W * list IRequestOptions))
         (w w1 w2 w3 : W) (key : string) (created confirmed : value)
         (removed : value + value),
    let options := Trigger.getNodeParameter "options" in
    let body :=
      Resources.set_if_truthy "secret" (prop "secret" options)
        (OCons "url" (Trigger.optional (Trigger.getNodeWebhookUrl "default"))
           (OCons "events" (Trigger.getNodeParameter "events") ONil)) in
    let path := "/webhooks/" +:+ ToString (prop "id" created) in
    let posted := request_options key "POST" "/webhooks" body ∅ in
    let asked := request_options key "GET" path ONil ∅ in
    let deleted := request_options key "DELETE" path ONil ∅ in
    Trigger.world st = (w, []) ->
    key <> EmptyString ->
    apiKey w = Some key -> apiKey w1 = Some key -> apiKey w2 = Some key ->
    nullish options = false ->
    helpers_request posted w = (inr created, w1) ->
    truthy (prop "id" created) = true ->
    helpers_request asked w1 = (inr confirmed, w2) ->
    helpers_request deleted w2 = (removed, w3) ->
    exists st1 st2 st3,
      Trigger.create (Hst := logging Hst) st = (ok true, st1)
      /\ Trigger.checkExists (Hst := logging Hst) st1 = (ok true, st2)
      /\ Trigger.delete (Hst := logging Hst) st2 = (ok true, st3)
      /\ Trigger.world st3 = (w3, [posted; asked; deleted])
      /\ JS.get "webhookId" (Trigger.webhookData st3) = VUndefined
      /\ (forall k, k <> "webhookId" ->
            JS.get k (Trigger.webhookData st3)
            = JS.get k (Trigger.webhookData st)).
Proof.
  intros R W Hst Fns st w w1 w2 w3 key created confirmed removed
         options body path posted asked deleted
         Hw Hne Hk Hk1 Hk2 Ho Hpost Hid Hget Hdelete.
  unfold posted in Hpost. unfold asked in Hget. unfold deleted in Hdelete.
  assert (Hn : nullish created = false).
  { destruct created; try done; by simpl in Hid. }
  eexists _, _, _.
  split.
  { apply (create_answered (Hst := logging Hst) st created (w1, [posted]) Ho);
      [|done].
    rewrite Hw.
    by rewrite (attentiveApiRequest_logged _ _ _ _ _ _ _ _ _ Hk Hne Hpost). }
  split.
  { unfold Trigger.checkExists. cbv zeta.
    cbn [Trigger.webhookData Trigger.with_webhookData Trigger.with_session
         Trigger.with_world Trigger.world].
    rewrite get_set_eq, Hid.
    fold path.
    rewrite (attentiveApiRequest_logged _ _ _ _ _ _ _ _ _ Hk1 Hne Hget).
    reflexivity. }
  split.
  { unfold Trigger.delete. cbv zeta.
    cbn [Trigger.webhookData Trigger.with_webhookData Trigger.with_session
         Trigger.with_world Trigger.world].
    rewrite get_set_eq, Hid.
    fold path.
    rewrite (attentiveApiRequest_logged _ _ _ _ _ _ _ _ _ Hk2 Hne Hdelete).
    reflexivity. }
  split.
  { by destruct removed. }
  split.
  { destruct removed; simpl; apply get_remove_eq. }
  intros k Hkey.
  destruct removed; simpl; rewrite get_remove_ne by done;
    apply get_set_ne; done.
Qed.

Lemma trigger_lifecycle_witness :
  exists st3,
    Trigger.delete (R := Example.runtime)
      (Hst := logging (Cases.answering (VObj (OCons "id" (VStr "w9") ONil))))
      (Trigger.with_webhookData (OCons "webhookId" (VStr "w9") ONil)
         (Trigger.with_world
            (tt, [request_options "key" "POST" "/webhooks"
                    (OCons "url" (VStr "https://n8n.example/webhook")
                       (OCons "events" VUndefined
                          (OCons "secret" (VStr "s3cret") ONil))) ∅;
                  request_options "key" "GET" "/webhooks/w9" ONil ∅])
            (Trigger.with_session
               (Shaping.logLicensingNotice Shaping.new_session)
               (Trigger.initial (tt, [])))))
    = (ok true, st3)
    /\ Trigger.webhookData st3 = ONil.
Proof.
  destruct (trigger_lifecycle Example.runtime unit
              (Cases.answering (VObj (OCons "id" (VStr "w9") ONil)))
              (Trigger.signed_call "s3cret" "any")
              (Trigger.initial (tt, []))
              tt tt tt tt "key"
              (VObj (OCons "id" (VStr "w9") ONil))
              (VObj (OCons "id" (VStr "w9") ONil))
              (inr (VObj (OCons "id" (VStr "w9") ONil)))
              eq_refl ltac:(done) eq_refl eq_refl eq_refl eq_refl
              eq_refl eq_refl eq_refl eq_refl)
    as (st1 & st2 & st3 & Hcreate & Hcheck & Hdelete & _).
  injection Hcreate as <-. injection Hcheck as <-.
  exists st3. split; [exact Hdelete|].
  by injection Hdelete as <-.
Defined.

(** ** Batches of custom events *)

Section EventBatch.
Context {R : Runtime} {W : Type} {Hst : Host W} {Ctx : NodeContext W}.

Lemma batch_events_ok l :
  forall acc w events w',
    batch_events l acc w = (ok events, w') ->
    exists new,
      events = acc ++ new
      /\ Forall2 event_of_entry l new
      /\ (forall j event,
            new !! j = Some event ->
            prop "occurredAt" event
            = VStr (Date.iso_string
                      (Date_now (Nat.iter j (fun w0 => (Date_now w0).2) w)).1))
      /\ w' = Nat.iter (length l) (fun w0 => (Date_now w0).2) w.
Proof.
  induction l as [|entry rest IH]; intros acc w events w' Hrun.
  - injection Hrun as <- <-. exists []. by rewrite app_nil_r.
  - cbn [batch_events] in Hrun. unfold bind, lift, read in Hrun.
    destruct (nullish entry) eqn:Hn; [done|].
    unfold getTimestamp_value in Hrun. cbn [truthy] in Hrun.
    destruct (Date_now w) as [now w1] eqn:Hnow.
    cbn [Date.toISOString] in Hrun.
    assert (Hw1 : w1 = (Date_now w).2) by by rewrite Hnow.
    assert (Hnow1 : now = (Date_now w).1) by by rewrite Hnow.
    destruct (entry_user entry) as [e|user] eqn:Hu; [done|].
    apply IH in Hrun as (new & -> & Hall & Htimes & ->).
    eexists (_ :: new). rewrite <- app_assoc. split; [done|].
    split; [|split].
    + constructor; [|done].
      split; [done|]. unfold entry_user in Hu.
      destruct (truthy (prop "phone" entry)) eqn:Hp.
      * destruct (requirePhone_value (prop "phone" entry)) as [e|phone];
          [done|].
        injection Hu as <-. split; [done|]. split.
        { eexists. split; [done|]. apply iso_string_shape. }
        split; [|done]. intros _. by exists phone.
      * destruct (truthy (prop "email" entry)); injection Hu as <-.
        -- split; [done|]. split.
           { eexists. split; [done|]. apply iso_string_shape. }
           split; [done|]. by intros _.
        -- split; [done|]. split.
           { eexists. split; [done|]. apply iso_string_shape. }
           split; [done|]. by intros _.
    + intros [|j] event Hj.
      * injection Hj as <-. cbn [Nat.iter nat_rect]. rewrite <- Hnow1.
        by destruct user.
      * rewrite Nat.iter_succ_r, <- Hw1. by apply Htimes.
    + cbn [length]. by rewrite Nat.iter_succ_r, Hw1.
Qed.

Lemma batch_events_world l :
  forall acc w r w',
    batch_events l acc w = (r, w') ->
    exists n, (n <= length l)%nat
              /\ w' = Nat.iter n (fun w0 => (Date_now w0).2) w.
Proof.
  induction l as [|entry rest IH]; intros acc w r w' Hrun.
  - injection Hrun as <- <-. by exists 0%nat.
  - cbn [batch_events] in Hrun. unfold bind, lift, read in Hrun.
    destruct (nullish entry) eqn:Hn.
    { injection Hrun as <- <-. exists 0%nat. split; [simpl; lia|done]. }
    unfold getTimestamp_value in Hrun. cbn [truthy] in Hrun.
    destruct (Date_now w) as [now w1] eqn:Hnow.
    cbn [Date.toISOString] in Hrun.
    assert (Hw1 : w1 = (Date_now w).2) by by rewrite Hnow.
    destruct (entry_user entry) as [e|user].
    { injection Hrun as <- <-. exists 1%nat. split; [simpl; lia|done]. }
    apply IH in Hrun as (n & Hle & ->).
    exists (S n). split; [simpl; lia|].
    by rewrite Nat.iter_succ_r, Hw1.
Qed.

End EventBatch.

(** X30: a batch of custom events is built entry by entry, in order:
    each entry gives one event with the entry's type and, as its time,
    the ISO string of the clock as read at that entry's turn, the clock
    being read once per entry; an entry with a phone gives the event
    its validated, normalized phone; one with only an email gives it
    that email unchecked; one with neither gives an event addressed to
    nobody, which is sent all the same.  Building the batch does nothing
    but read the clock, and a failure while building it (an entry with
    an invalid phone, an entry that is [undefined] or [null]) is the
    outcome of the operation: nothing has been sent then. *)
Theorem sendBatch_one_event_per_entry :
  forall (R : Runtime) (W : Type) (Hst : Host W) (Ctx : NodeContext W)
         (i : nat) (w : W) (l : list value),
    let tick := fun w0 : W => (Date_now w0).2 in
    read "event" (getNodeParameter "events" i None) = ok (VArr l) ->
    (forall e w1, batch_events l [] w = (throw e, w1) ->
       executeCustomEventOperation "sendBatch" i w = (throw e, w1))
    /\ (forall events w1, batch_events l [] w = (ok events, w1) ->
          Forall2 event_of_entry l events
          /\ (forall j event,
                events !! j = Some event ->
                prop "occurredAt" event
                = VStr (Date.iso_string (Date_now (Nat.iter j tick w)).1))
          /\ w1 = Nat.iter (length l) tick w
          /\ executeCustomEventOperation "sendBatch" i w
             = (let* responseData :=
                  attentiveApiRequest "POST" "/events/custom/batch"
                    (OCons "events" (VArr events) ONil) ∅ in
                ret (buildReturnData responseData)) w1)
    /\ (forall r w1, batch_events l [] w = (r, w1) ->
          exists n, (n <= length l)%nat /\ w1 = Nat.iter n tick w).
Proof.
  intros R W Hst Ctx i w l tick Hl. split; [|split].
  3: { intros r w1. apply batch_events_world. }
  - intros e w1 Hrun. unfold executeCustomEventOperation. simpl.
    unfold bind at 1. unfold lift at 1. rewrite Hl.
    unfold bind at 1. by rewrite Hrun.
  - intros events w1 Hrun.
    destruct (batch_events_ok l [] w events w1 Hrun)
      as (new & -> & Hall & Htimes & Hw1).
    split; [done|]. split; [done|]. split; [done|].
    unfold executeCustomEventOperation. simpl.
    unfold bind at 1. unfold lift at 1. rewrite Hl.
    unfold bind at 1. by rewrite Hrun.
Qed.

Lemma sendBatch_one_event_per_entry_witness :
  executeCustomEventOperation (R := Example.runtime)
    (Hst := Fixtures.timed (logging (Cases.answering (VObj ONil))))
    (Ctx := Fixtures.ticking_context Fixtures.batch_parameters 1000)
    "sendBatch" 0 ((tt, []), 0%Z)
  = (ok [ {| Node.json := VObj ONil; Node.pairedItem := None |} ],
     ((tt,
       [request_options "key" "POST" "/events/custom/batch"
          (OCons "events"
             (VArr [VObj (OCons "type" (VStr "visit")
                            (OCons "occurredAt" (VStr "1970-01-01T00:00:00.000Z")
                               (OCons "user"
                                  (VObj (OCons "phone" (VStr "+9148440001") ONil))
                                  ONil)));
                    VObj (OCons "type" (VStr "visit")
                            (OCons "occurredAt" (VStr "1970-01-01T00:00:01.000Z")
                               (OCons "user"
                                  (VObj (OCons "email" (VStr "a@example.com") ONil))
                                  ONil)));
                    VObj (OCons "type" (VStr "visit")
                            (OCons "occurredAt" (VStr "1970-01-01T00:00:02.000Z")
                               ONil))])
             ONil) ∅]), 3000%Z)).
Proof.
  destruct (sendBatch_one_event_per_entry Example.runtime _
              (Fixtures.timed (logging (Cases.answering (VObj ONil))))
              (Fixtures.ticking_context Fixtures.batch_parameters 1000)
              0 ((tt, []), 0%Z) _ eq_refl) as (_ & Hok & _).
  destruct (Hok _ ((tt, []), 3000%Z) eq_refl) as (_ & _ & _ & Hrun).
  rewrite Hrun. vm_compute. reflexivity.
Defined.

